(** * Slide-deck generator: a shallow embedding of
      [create_sophisticated_presentations.py]

    The script drives the python-pptx document library.  The library is a
    collaborator, not part of the script, so it is modelled here only as far
    as the script observes it:

    - a shape's [<p:spPr>] subtree is an lxml element tree, because the
      script itself walks it ([spPr.find], [srgbClr.append]) to inject the
      alpha child; geometry, fill, outline, rotation and corner adjustments
      all live in that tree, where the library writes them;
    - the text frame of a text box is kept as the values the library reads
      back: a font size in whole hundredths of a point, a paragraph text
      with its line breaks;
    - lengths are English Metric Units held in [Z]; Python's floats are the
      binary64 floats of [PrimFloat], so [Inches(0.8 + 1 * 4.1)] is the
      4480559 EMU it is in Python;
    - a write that fails may leave a truncated file behind.

    The builder code runs in a state-and-exception monad over the
    presentation under construction; the top-level functions run in a
    second monad over the outside world (files written, lines printed). *)

From Stdlib Require Import ZArith String Ascii List Lia.
From Stdlib Require Import Decimal DecimalString DecimalZ DecimalPos.
From Stdlib Require Import PrimFloat SpecFloat FloatOps Uint63.
From stdpp Require Import base list option.
Import ListNotations.

Set Warnings "-register-all".
Set Warnings "-inexact-float".

Open Scope string_scope.
Open Scope Z_scope.

(* ================================================================== *)
(** ** Python values used by the script *)

Inductive exn : Type :=
| ValueError (msg : string)
| TypeError (msg : string)
| IndexError (msg : string)
| OSError (msg : string).

(** [str(n)] and the [%d] conversion of an integer; [int(s)] back. *)
Definition str (n : Z) : string := NilZero.string_of_int (Z.to_int n).

Definition int_of_str (s : string) : option Z :=
  option_map Z.of_int (NilZero.int_of_string s).

(** Python's [int(x)] on a float: truncation toward zero.  A finite float
    is [(-1)^s * m * 2^e].  Python raises on an infinity or a NaN; the
    script's arguments are finite literals and small sums and products of
    them, so that case is never reached and is given 0 here. *)
Definition int_of_float (x : float) : Z :=
  match Prim2SF x with
  | S754_finite s m e =>
      let a := if 0 <=? e then Z.pos m * 2 ^ e else Z.pos m / 2 ^ (- e) in
      if s then - a else a
  | S754_zero _ => 0
  | S754_infinity _ | S754_nan => 0
  end.

(** The float an [int] becomes when it meets a float in an arithmetic
    expression ([i * 1.1] with [i] a loop index). *)
Definition float_of_int (i : Z) : float :=
  if i <? 0 then (- of_uint63 (Uint63.of_Z (- i)))%float
  else of_uint63 (Uint63.of_Z i).
Arguments float_of_int i%_Z.

(** [pptx.util.Inches] and [pptx.util.Pt]: [int(x * 914400)], [int(x * 12700)]. *)
Definition Inches (inches : float) : Z := int_of_float (inches * 914400)%float.
Definition Pt (points : float) : Z := int_of_float (points * 12700)%float.
Arguments Inches inches%_float.
Arguments Pt points%_float.

(** [enumerate(l)], [range(n)], [s * n]. *)
Fixpoint enumerate_from {A} (i : Z) (l : list A) : list (Z * A) :=
  match l with
  | [] => []
  | x :: l' => (i, x) :: enumerate_from (i + 1) l'
  end.
Definition enumerate {A} (l : list A) : list (Z * A) := enumerate_from 0 l.

Definition range (n : nat) : list Z := map Z.of_nat (seq 0 n).

Fixpoint str_repeat (s : string) (n : nat) : string :=
  match n with
  | O => ""
  | S n' => s ++ str_repeat s n'
  end.

(* ================================================================== *)
(** ** [pptx.dml.color.RGBColor] *)

Record rgb_color : Type := mk_rgb { red : Z; green : Z; blue : Z }.

Definition channel_ok (v : Z) : bool := (0 <=? v) && (v <=? 255).

(** The constructor checks every channel and raises [ValueError] otherwise. *)
Definition RGBColor (r g b : Z) : exn + rgb_color :=
  if channel_ok r && channel_ok g && channel_ok b
  then inr (mk_rgb r g b)
  else inl (ValueError "RGBColor() takes three integer values 0-255").

Definition hex_digit (d : Z) : string :=
  match d with
  | 0 => "0" | 1 => "1" | 2 => "2" | 3 => "3" | 4 => "4" | 5 => "5"
  | 6 => "6" | 7 => "7" | 8 => "8" | 9 => "9" | 10 => "A" | 11 => "B"
  | 12 => "C" | 13 => "D" | 14 => "E" | _ => "F"
  end.
Definition hex2 (v : Z) : string := hex_digit (v / 16) ++ hex_digit (v mod 16).

(** [str(rgb)]: ['%02X%02X%02X']. *)
Definition rgb_str (c : rgb_color) : string :=
  hex2 (red c) ++ hex2 (green c) ++ hex2 (blue c).

(** Module-level brand colours (lines 15-20). *)
Definition AVEMO_ORANGE : rgb_color := mk_rgb 0xFF 0x79 0x32.
Definition AVEMO_BLACK : rgb_color := mk_rgb 0x1A 0x1A 0x1A.
Definition AVEMO_WHITE : rgb_color := mk_rgb 0xFF 0xFF 0xFF.
Definition AVEMO_GRAY_DARK : rgb_color := mk_rgb 0x33 0x33 0x33.
Definition AVEMO_GRAY_MID : rgb_color := mk_rgb 0x66 0x66 0x66.
Definition AVEMO_GRAY_LIGHT : rgb_color := mk_rgb 0xF5 0xF5 0xF5.

(** Slide dimensions, 16:9 (lines 23-24). *)
Definition SLIDE_WIDTH : Z := Inches 13.333.
Definition SLIDE_HEIGHT : Z := Inches 7.5.

(* ================================================================== *)
(** ** lxml element trees *)

Inductive element : Type :=
| Element (tag : string) (attrib : list (string * string)) (children : list element).

Inductive ns_prefix : Type := NS_a | NS_p.

Definition nsmap (pfx : ns_prefix) : string :=
  match pfx with
  | NS_a => "http://schemas.openxmlformats.org/drawingml/2006/main"
  | NS_p => "http://schemas.openxmlformats.org/presentationml/2006/main"
  end.

(** [pptx.oxml.ns.qn]: the Clark name of a prefixed tag. *)
Definition qn (pfx : ns_prefix) (tagroot : string) : string :=
  "{" ++ nsmap pfx ++ "}" ++ tagroot.

Module etree.

Definition tag (e : element) : string := let 'Element t _ _ := e in t.
Definition attrib (e : element) : list (string * string) := let 'Element _ a _ := e in a.
Definition children (e : element) : list element := let 'Element _ _ c := e in c.

Definition has_tag (t : string) (e : element) : bool := String.eqb (tag e) t.

(** [e.find(t)]: the first direct child tagged [t], if any. *)
Definition find (e : element) (t : string) : option element :=
  List.find (has_tag t) (children e).

(** [e.append(c)]: [c] becomes the last child. *)
Definition append (c : element) (e : element) : element :=
  Element (tag e) (attrib e) (children e ++ [c]).

(** [e.get(k)]. *)
Fixpoint assoc (k : string) (l : list (string * string)) : option string :=
  match l with
  | [] => None
  | (k', v) :: l' => if String.eqb k' k then Some v else assoc k l'
  end.
Definition get (e : element) (k : string) : option string := assoc k (attrib e).

(** [e.set(k, v)]: overwrite the attribute, or add it. *)
Fixpoint assoc_set (k v : string) (l : list (string * string)) : list (string * string) :=
  match l with
  | [] => [(k, v)]
  | (k', v') :: l' => if String.eqb k' k then (k, v) :: l' else (k', v') :: assoc_set k v l'
  end.
Definition set (k v : string) (e : element) : element :=
  Element (tag e) (assoc_set k v (attrib e)) (children e).

(** [del e.attrib[k]], when it is there. *)
Definition unset (k : string) (e : element) : element :=
  Element (tag e) (List.filter (fun kv => negb (String.eqb (fst kv) k)) (attrib e)) (children e).

(** A mutation made through the reference that [find] returned lands in
    the tree: the first child tagged [t] is replaced by its image. *)
Fixpoint alter_first (t : string) (f : element -> element) (cs : list element) : list element :=
  match cs with
  | [] => []
  | c :: cs' => if has_tag t c then f c :: cs' else c :: alter_first t f cs'
  end.
Definition update (t : string) (f : element -> element) (e : element) : element :=
  Element (tag e) (attrib e) (alter_first t f (children e)).

(** Removal of every child carrying one of the tags. *)
Definition tag_in (ts : list string) (e : element) : bool :=
  existsb (String.eqb (tag e)) ts.
Definition remove_all (ts : list string) (e : element) : element :=
  Element (tag e) (attrib e) (List.filter (fun c => negb (tag_in ts c)) (children e)).

(** [insert_element_before(c, *successors)]: [c] is placed before the first
    child that is one of the successors, at the end when there is none. *)
Fixpoint insert_before (ts : list string) (c : element) (cs : list element) : list element :=
  match cs with
  | [] => [c]
  | x :: cs' => if tag_in ts x then c :: x :: cs' else x :: insert_before ts c cs'
  end.
Definition insert_element_before (c : element) (ts : list string) (e : element) : element :=
  Element (tag e) (attrib e) (insert_before ts c (children e)).

End etree.

(** [parse_xml] of the alpha literal of lines 101, 126, ...:
    [<a:alpha xmlns:a="..." val="..."/>]. *)
Definition parse_alpha (val : string) : element :=
  Element (qn NS_a "alpha") [("val", val)] [].

(* ================================================================== *)
(** ** Shapes as python-pptx builds them *)

Inductive MSO_SHAPE : Type := RECTANGLE | OVAL | ROUNDED_RECTANGLE.

(** The preset-geometry name written for an auto shape type. *)
Definition prst (k : MSO_SHAPE) : string :=
  match k with
  | RECTANGLE => "rect"
  | OVAL => "ellipse"
  | ROUNDED_RECTANGLE => "roundRect"
  end.

Inductive PP_ALIGN : Type := LEFT | CENTER | RIGHT | JUSTIFY.

(** The first paragraph of a text frame, by what its properties read back. *)
Record paragraph : Type := mk_paragraph {
  text : string;
  font_size : option Z;
  font_color_rgb : option rgb_color;
  font_bold : option bool;
  font_name : option string;
  alignment : option PP_ALIGN
}.

Record text_frame : Type := mk_text_frame {
  word_wrap : bool;
  paragraphs : list paragraph
}.

(** A shape proxy: its [<p:spPr>] element ([shape._element.spPr]) and, for
    a text box, its text frame. *)
Record shape : Type := mk_shape {
  spPr : element;
  txBody : option text_frame
}.

Definition xfrm_element (left top width height : Z) : element :=
  Element (qn NS_a "xfrm") []
    [ Element (qn NS_a "off") [("x", str left); ("y", str top)] [];
      Element (qn NS_a "ext") [("cx", str width); ("cy", str height)] [] ].

(** [CT_Shape.new_autoshape_sp]: the XML template filled in with [%d]. *)
Definition new_autoshape_sp (k : MSO_SHAPE) (left top width height : Z) : shape :=
  {| spPr := Element (qn NS_p "spPr") []
       [ xfrm_element left top width height;
         Element (qn NS_a "prstGeom") [("prst", prst k)] [Element (qn NS_a "avLst") [] []] ];
     txBody := None |}.

(** [CT_Shape.new_textbox_sp]: a rectangle with no fill and one empty
    paragraph, wrapping off. *)
Definition new_textbox_sp (left top width height : Z) : shape :=
  {| spPr := Element (qn NS_p "spPr") []
       [ xfrm_element left top width height;
         Element (qn NS_a "prstGeom") [("prst", "rect")] [Element (qn NS_a "avLst") [] []];
         Element (qn NS_a "noFill") [] [] ];
     txBody := Some (mk_text_frame false [mk_paragraph "" None None None None None]) |}.

(** [shape.left], [shape.top], [shape.width], [shape.height]: read back from
    [<a:xfrm>]. *)
Definition xfrm_attr (child key : string) (sh : shape) : option Z :=
  xfrm ← etree.find (spPr sh) (qn NS_a "xfrm");
  c ← etree.find xfrm (qn NS_a child);
  v ← etree.get c key;
  int_of_str v.

Definition shape_left : shape -> option Z := xfrm_attr "off" "x".
Definition shape_top : shape -> option Z := xfrm_attr "off" "y".
Definition shape_width : shape -> option Z := xfrm_attr "ext" "cx".
Definition shape_height : shape -> option Z := xfrm_attr "ext" "cy".

(** *** Fill and line formatting, on the [<p:spPr>] or [<a:ln>] element *)

Definition fill_tags : list string :=
  map (qn NS_a) ["noFill"; "solidFill"; "gradFill"; "blipFill"; "pattFill"; "grpFill"].

Definition color_tags : list string :=
  map (qn NS_a) ["scrgbClr"; "srgbClr"; "hslClr"; "sysClr"; "schemeClr"; "prstClr"].

Definition spPr_fill_successors : list string :=
  map (qn NS_a) ["ln"; "effectLst"; "effectDag"; "scene3d"; "sp3d"; "extLst"].

Definition spPr_ln_successors : list string :=
  map (qn NS_a) ["effectLst"; "effectDag"; "scene3d"; "sp3d"; "extLst"].

Definition ln_fill_successors : list string :=
  map (qn NS_a) ["prstDash"; "custDash"; "round"; "bevel"; "miter"; "headEnd"; "tailEnd"; "extLst"].

(** [xPr.get_or_change_to_solidFill()] / [..._noFill()]: keep the child when
    it is there, otherwise drop whatever fill there is and insert it. *)
Definition get_or_change_to (fill : string) (successors : list string) (xPr : element) : element :=
  match etree.find xPr (qn NS_a fill) with
  | Some _ => xPr
  | None =>
      etree.insert_element_before (Element (qn NS_a fill) [] []) successors
        (etree.remove_all fill_tags xPr)
  end.

(** [solidFill.get_or_change_to_srgbClr()]. *)
Definition get_or_change_to_srgbClr (solidFill : element) : element :=
  match etree.find solidFill (qn NS_a "srgbClr") with
  | Some _ => solidFill
  | None =>
      etree.append (Element (qn NS_a "srgbClr") [] []) (etree.remove_all color_tags solidFill)
  end.

(** The library's name for the kind of fill an element has, by its fill
    child. *)
Definition fill_class (xPr : element) : string :=
  match List.find (etree.tag_in fill_tags) (etree.children xPr) with
  | Some f =>
      if etree.has_tag (qn NS_a "noFill") f then "_NoFill"
      else if etree.has_tag (qn NS_a "solidFill") f then "_SolidFill"
      else if etree.has_tag (qn NS_a "gradFill") f then "_GradFill"
      else if etree.has_tag (qn NS_a "blipFill") f then "_BlipFill"
      else if etree.has_tag (qn NS_a "pattFill") f then "_PattFill"
      else "_GrpFill"
  | None => "_NoneFill"
  end.

(** [pattFill.get_or_add_fgClr()]. *)
Definition get_or_add_fgClr (pattFill : element) : element :=
  match etree.find pattFill (qn NS_a "fgClr") with
  | Some _ => pattFill
  | None =>
      etree.insert_element_before (Element (qn NS_a "fgClr") [] []) [qn NS_a "bgClr"] pattFill
  end.

(** [fill.fore_color.rgb = c]: a solid fill has a foreground colour, and so
    has a pattern fill, in its [<a:fgClr>]; no other fill has one. *)
Definition fore_color_rgb_set (c : rgb_color) (xPr : element) : exn + element :=
  match etree.find xPr (qn NS_a "solidFill") with
  | Some _ =>
      inr (etree.update (qn NS_a "solidFill")
             (fun solidFill =>
                etree.update (qn NS_a "srgbClr") (etree.set "val" (rgb_str c))
                  (get_or_change_to_srgbClr solidFill))
             xPr)
  | None =>
      match etree.find xPr (qn NS_a "pattFill") with
      | Some _ =>
          inr (etree.update (qn NS_a "pattFill")
                 (fun pattFill =>
                    etree.update (qn NS_a "fgClr")
                      (fun fgClr =>
                         etree.update (qn NS_a "srgbClr") (etree.set "val" (rgb_str c))
                           (get_or_change_to_srgbClr fgClr))
                      (get_or_add_fgClr pattFill))
                 xPr)
      | None =>
          inl (TypeError ("fill type " ++ fill_class xPr
                          ++ " has no foreground color, call .solid() or .patterned() first"))
      end
  end.

(** [spPr.get_or_add_ln()]. *)
Definition get_or_add_ln (e : element) : element :=
  match etree.find e (qn NS_a "ln") with
  | Some _ => e
  | None => etree.insert_element_before (Element (qn NS_a "ln") [] []) spPr_ln_successors e
  end.

Definition on_ln (f : element -> element) (e : element) : element :=
  etree.update (qn NS_a "ln") f (get_or_add_ln e).

(** [line.width = w]: validated as [ST_LineWidth]; the default 0 is stored
    as an absent attribute. *)
Definition ln_w_set (w : Z) (ln : element) : element :=
  if w =? 0 then etree.unset "w" ln else etree.set "w" (str w) ln.

(** *** Rotation and adjustments, on [<a:xfrm>] and [<a:prstGeom>] *)

Definition spPr_xfrm_successors : list string :=
  map (qn NS_a) ["custGeom"; "prstGeom"; "noFill"; "solidFill"; "gradFill"; "blipFill";
                 "pattFill"; "grpFill"; "ln"; "effectLst"; "effectDag"; "scene3d"; "sp3d";
                 "extLst"].

(** [spPr.get_or_add_xfrm()]. *)
Definition get_or_add_xfrm (e : element) : element :=
  match etree.find e (qn NS_a "xfrm") with
  | Some _ => e
  | None => etree.insert_element_before (Element (qn NS_a "xfrm") [] []) spPr_xfrm_successors e
  end.

(** [xfrm.rot = deg], an [ST_Angle]: 60000ths of a degree, normalised to
    one turn; the default 0 is stored as an absent attribute.  The script
    assigns whole degrees. *)
Definition rot_set (deg : Z) (xfrm : element) : element :=
  if deg =? 0 then etree.unset "rot" xfrm
  else etree.set "rot" (str ((deg * 60000) mod 21600000)) xfrm.

(** The adjustment handles of a preset geometry, with their default values
    in 100000ths.  Of the three shape types the script draws only the
    rounded rectangle has one, its corner radius. *)
Definition adjustment_defaults (prst : string) : list (string * Z) :=
  if String.eqb prst "roundRect" then [("adj", 16667)] else [].

(** The guides written in [<a:avLst>]: [<a:gd name="adj" fmla="val 10000"/>]. *)
Definition gd_element (g : string * Z) : element :=
  Element (qn NS_a "gd") [("name", fst g); ("fmla", "val " ++ str (snd g))] [].

Definition gd_value (gd : element) : option (string * Z) :=
  name ← etree.get gd "name";
  fmla ← etree.get gd "fmla";
  val ← int_of_str (String.substring 4 (String.length fmla - 4) fmla);
  Some (name, val).

Definition gd_lst (prstGeom : element) : list (string * Z) :=
  match etree.find prstGeom (qn NS_a "avLst") with
  | Some avLst =>
      omap gd_value (List.filter (etree.has_tag (qn NS_a "gd")) (etree.children avLst))
  | None => []
  end.

(** The value a guide list gives an adjustment: the last guide of that
    name, if any. *)
Definition actual (name : string) (gds : list (string * Z)) : option Z :=
  snd <$> List.find (fun g => String.eqb (fst g) name) (rev gds).

(** [prstGeom.rewrite_guides(guides)]: the [<a:avLst>] is replaced. *)
Definition rewrite_guides (guides : list (string * Z)) (prstGeom : element) : element :=
  etree.append (Element (qn NS_a "avLst") [] (map gd_element guides))
    (etree.remove_all [qn NS_a "avLst"] prstGeom).

(** [adjustments[i] = v] seen from the [<a:prstGeom>]: adjustment [i] takes
    [int(v * 100000.0)], and every adjustment that has an actual value is
    written back as a guide. *)
Definition adjustment_set (i : nat) (v : float) (prstGeom : element) : exn + element :=
  let defaults := adjustment_defaults (default "" (etree.get prstGeom "prst")) in
  match defaults !! i with
  | Some (name, _) =>
      let guides :=
        omap (fun d : string * Z =>
                if String.eqb (fst d) name
                then Some (fst d, int_of_float (v * 100000.0)%float)
                else (fun a => (fst d, a)) <$> actual (fst d) (gd_lst prstGeom))
             defaults in
      inr (rewrite_guides guides prstGeom)
  | None => inl (IndexError "list index out of range")
  end.

(* ================================================================== *)
(** ** The presentation under construction *)

Record slide : Type := mk_slide { shapes : list shape }.

(** A slide layout, as far as [add_slide] uses it: the placeholders it
    hands down to a new slide. *)
Record slide_layout : Type := mk_layout {
  layout_name : string;
  cloneable_placeholders : list shape
}.

Record presentation : Type := mk_presentation {
  slide_width : Z;
  slide_height : Z;
  slide_layouts : list slide_layout;
  slides : list slide
}.

Definition placeholder_sp : shape :=
  {| spPr := Element (qn NS_p "spPr") [] []; txBody := None |}.

(** [Presentation()]: the library's default 4:3 template, no slide yet.
    Layout 6 is the blank one; the placeholders' text is not modelled. *)
Definition Presentation : presentation :=
  {| slide_width := 9144000;
     slide_height := 6858000;
     slide_layouts :=
       [ mk_layout "Title Slide" (repeat placeholder_sp 2);
         mk_layout "Title and Content" (repeat placeholder_sp 2);
         mk_layout "Section Header" (repeat placeholder_sp 2);
         mk_layout "Two Content" (repeat placeholder_sp 3);
         mk_layout "Comparison" (repeat placeholder_sp 5);
         mk_layout "Title Only" (repeat placeholder_sp 1);
         mk_layout "Blank" [];
         mk_layout "Content with Caption" (repeat placeholder_sp 3);
         mk_layout "Picture with Caption" (repeat placeholder_sp 3);
         mk_layout "Title and Vertical Text" (repeat placeholder_sp 2);
         mk_layout "Vertical Title and Text" (repeat placeholder_sp 2) ];
     slides := [] |}.

(** The builder monad: the presentation is threaded through, an exception
    ends the run. *)
Definition B (A : Type) : Type := presentation -> exn + (A * presentation).

Definition ret {A} (x : A) : B A := fun s => inr (x, s).

Definition bind {A C} (m : B A) (k : A -> B C) : B C :=
  fun s => match m s with
           | inl e => inl e
           | inr (x, s') => k x s'
           end.

Definition lift {A} (r : exn + A) : B A :=
  fun s => match r with
           | inl e => inl e
           | inr x => inr (x, s)
           end.

Declare Scope build_scope.
Delimit Scope build_scope with B.
Notation "x <- m ;; k" := (bind m (fun x => k))
  (at level 100, m at next level, right associativity) : build_scope.
Notation "m ;; k" := (bind m (fun _ => k))
  (at level 100, right associativity) : build_scope.

(** [l[i]], with Python's negative indices. *)
Definition getitem {A} (l : list A) (i : Z) : exn + A :=
  let j := if i <? 0 then i + Z.of_nat (length l) else i in
  if j <? 0 then inl (IndexError "list index out of range")
  else match nth_error l (Z.to_nat j) with
       | Some x => inr x
       | None => inl (IndexError "list index out of range")
       end.

(** A [for] loop over a list. *)
Fixpoint for_ {A} (l : list A) (body : A -> B unit) : B unit :=
  match l with
  | [] => ret tt
  | x :: l' => (body x ;; for_ l' body)%B
  end.

(** Object references: a slide is the position it was added at, a shape
    the position in its slide's shape tree. *)
Abbreviation slide_handle := nat (only parsing).
Abbreviation shape_handle := (nat * nat)%type (only parsing).

Definition lookup_shape (h : shape_handle) (s : presentation) : option shape :=
  sl ← slides s !! fst h; shapes sl !! snd h.

Definition with_slides (s : presentation) (sls : list slide) : presentation :=
  {| slide_width := slide_width s; slide_height := slide_height s;
     slide_layouts := slide_layouts s; slides := sls |}.

Definition with_spPr (sh : shape) (e : element) : shape :=
  {| spPr := e; txBody := txBody sh |}.

Definition store_shape (h : shape_handle) (sh : shape) (s : presentation) : presentation :=
  with_slides s (alter (fun sl => mk_slide (<[snd h := sh]> (shapes sl))) (fst h) (slides s)).

(** A mutation through a shape reference; it may raise. *)
Definition mutate_shape (f : shape -> exn + shape) (h : shape_handle) : B unit :=
  fun s => match lookup_shape h s with
           | Some sh =>
               match f sh with
               | inl e => inl e
               | inr sh' => inr (tt, store_shape h sh' s)
               end
           | None => inr (tt, s)
           end.

Definition mutate_spPr (f : element -> element) : shape_handle -> B unit :=
  mutate_shape (fun sh => inr (with_spPr sh (f (spPr sh)))).

(** [prs.slide_width = w], [prs.slide_height = h]: an
    [ST_SlideSizeCoordinate], 1 to 56 inches. *)
Definition slide_size_ok (v : Z) : bool := (914400 <=? v) && (v <=? 51206400).

Definition slide_size_error (v : Z) : exn :=
  ValueError ("value must be in range(914400, 51206400) (1-56 inches), got " ++ str v).

Definition slide_width_set (w : Z) : B unit :=
  fun s => if slide_size_ok w
           then inr (tt, {| slide_width := w; slide_height := slide_height s;
                            slide_layouts := slide_layouts s; slides := slides s |})
           else inl (slide_size_error w).
Definition slide_height_set (h : Z) : B unit :=
  fun s => if slide_size_ok h
           then inr (tt, {| slide_width := slide_width s; slide_height := h;
                            slide_layouts := slide_layouts s; slides := slides s |})
           else inl (slide_size_error h).

(** [prs.slide_layouts[i]]. *)
Definition slide_layouts_getitem (i : nat) : B slide_layout :=
  fun s => match slide_layouts s !! i with
           | Some l => inr (l, s)
           | None => inl (IndexError "slide layout index out of range")
           end.

(** [prs.slides.add_slide(layout)]. *)
Definition add_slide (layout : slide_layout) : B slide_handle :=
  fun s => inr (length (slides s),
                with_slides s (slides s ++ [mk_slide (cloneable_placeholders layout)])).

(** Appending to a slide's shape tree; the new shape's reference is returned. *)
Definition add_sp (sl : slide_handle) (sh : shape) : B shape_handle :=
  fun s => inr ((sl, from_option (fun x => length (shapes x)) O (slides s !! sl)),
                with_slides s (alter (fun x => mk_slide (shapes x ++ [sh])) sl (slides s))).

(** [slide.shapes.add_shape(kind, left, top, width, height)]. *)
Definition add_shape (sl : slide_handle) (k : MSO_SHAPE) (left top width height : Z) : B shape_handle :=
  add_sp sl (new_autoshape_sp k left top width height).

(** [slide.shapes.add_textbox(left, top, width, height)]. *)
Definition add_textbox (sl : slide_handle) (left top width height : Z) : B shape_handle :=
  add_sp sl (new_textbox_sp left top width height).

(** [shape.fill.solid()], [shape.fill.background()], [shape.fill.fore_color.rgb = c]. *)
Definition fill_solid : shape_handle -> B unit :=
  mutate_spPr (get_or_change_to "solidFill" spPr_fill_successors).
Definition fill_background : shape_handle -> B unit :=
  mutate_spPr (get_or_change_to "noFill" spPr_fill_successors).
Definition fill_fore_color_rgb (c : rgb_color) : shape_handle -> B unit :=
  mutate_shape (fun sh => match fore_color_rgb_set c (spPr sh) with
                          | inl e => inl e
                          | inr e' => inr (with_spPr sh e')
                          end).

(** [shape.line.fill.background()]. *)
Definition line_fill_background : shape_handle -> B unit :=
  mutate_spPr (on_ln (get_or_change_to "noFill" ln_fill_successors)).

(** [shape.line.color.rgb = c]: the line becomes solid first if it is not. *)
Definition line_color_rgb (c : rgb_color) : shape_handle -> B unit :=
  mutate_shape (fun sh =>
    let e := on_ln (get_or_change_to "solidFill" ln_fill_successors) (spPr sh) in
    inr (with_spPr sh
           (etree.update (qn NS_a "ln")
              (fun ln => match fore_color_rgb_set c ln with
                         | inl _ => ln
                         | inr ln' => ln'
                         end) e))).

(** [shape.line.width = w]. *)
Definition line_width (w : Z) : shape_handle -> B unit :=
  mutate_shape (fun sh =>
    if (0 <=? w) && (w <=? 20116800)
    then inr (with_spPr sh (on_ln (ln_w_set w) (spPr sh)))
    else inl (ValueError ("value must be in range 0 to 20116800 inclusive, got " ++ str w))).

(** [shape.rotation = deg]. *)
Definition rotation_set (deg : Z) : shape_handle -> B unit :=
  mutate_spPr (fun e => etree.update (qn NS_a "xfrm") (rot_set deg) (get_or_add_xfrm e)).

(** [shape.adjustments[i] = v]: a shape without preset geometry, or with
    fewer adjustments, has no item [i]. *)
Definition adjustments_setitem (i : nat) (v : float) : shape_handle -> B unit :=
  mutate_shape (fun sh =>
    match etree.find (spPr sh) (qn NS_a "prstGeom") with
    | Some prstGeom =>
        match adjustment_set i v prstGeom with
        | inl e => inl e
        | inr prstGeom' =>
            inr (with_spPr sh (etree.update (qn NS_a "prstGeom") (fun _ => prstGeom') (spPr sh)))
        end
    | None => inl (IndexError "list index out of range")
    end).

Arguments adjustments_setitem i%_nat v%_float _.

(** Text frame access: [tf.word_wrap = b] and the fields of [tf.paragraphs[0]]. *)
Definition mutate_text_frame (f : text_frame -> text_frame) : shape_handle -> B unit :=
  mutate_shape (fun sh => inr {| spPr := spPr sh; txBody := f <$> txBody sh |}).
Definition word_wrap_set (b : bool) : shape_handle -> B unit :=
  mutate_text_frame (fun tf => mk_text_frame b (paragraphs tf)).
Definition mutate_paragraph0 (f : paragraph -> paragraph) : shape_handle -> B unit :=
  mutate_text_frame (fun tf => mk_text_frame (word_wrap tf) (alter f O (paragraphs tf))).

(** [p.text = t]: the text is cut at line feeds and vertical tabs into runs
    with an [<a:br/>] between them, and inside a run the other control
    characters, tab and carriage return apart, are written as [_xHHHH_].
    [p.text] reads a line break back as a vertical tab. *)
Definition paragraph_char (a : ascii) : string :=
  let n := Z.of_nat (nat_of_ascii a) in
  if (n =? 10) || (n =? 11) then String (ascii_of_nat 11) ""
  else if (n <=? 8) || (n =? 12) || ((14 <=? n) && (n <=? 31))
       then "_x00" ++ hex2 n ++ "_"
       else String a "".

Fixpoint paragraph_text (t : string) : string :=
  match t with
  | EmptyString => ""
  | String a t' => paragraph_char a ++ paragraph_text t'
  end.

Definition p_text_set (t : string) := mutate_paragraph0 (fun p =>
  mk_paragraph (paragraph_text t) (font_size p) (font_color_rgb p) (font_bold p) (font_name p)
    (alignment p)).

(** [p.font.size = emu]: kept in whole hundredths of a point, [emu // 127],
    which must be an [ST_TextFontSize], 100 to 400000 (1 pt to 4000 pt);
    [p.font.size] reads it back in EMU. *)
Definition centipoints (emu : Z) : Z := emu / 127.

Definition font_size_ok (emu : Z) : bool :=
  (100 <=? centipoints emu) && (centipoints emu <=? 400000).

Definition font_size_stored (emu : Z) : Z := centipoints emu * 127.

Definition p_font_size_set (sz : Z) : shape_handle -> B unit :=
  mutate_shape (fun sh =>
    if font_size_ok sz
    then inr {| spPr := spPr sh;
                txBody :=
                  (fun tf =>
                     mk_text_frame (word_wrap tf)
                       (alter (fun p =>
                                 mk_paragraph (text p) (Some (font_size_stored sz))
                                   (font_color_rgb p) (font_bold p) (font_name p) (alignment p))
                              O (paragraphs tf)))
                  <$> txBody sh |}
    else inl (ValueError ("value must be in range 100 to 400000 inclusive, got "
                          ++ str (centipoints sz)))).
Definition p_font_color_rgb_set (c : rgb_color) := mutate_paragraph0 (fun p =>
  mk_paragraph (text p) (font_size p) (Some c) (font_bold p) (font_name p) (alignment p)).
Definition p_font_bold_set (b : bool) := mutate_paragraph0 (fun p =>
  mk_paragraph (text p) (font_size p) (font_color_rgb p) (Some b) (font_name p) (alignment p)).

(** lxml takes a string as an attribute value only when it is XML
    compatible: a control character other than tab, line feed and carriage
    return makes it raise. *)
Definition xml_char (a : ascii) : bool :=
  let n := nat_of_ascii a in
  ((32 <=? n) || (n =? 9) || (n =? 10) || (n =? 13))%nat.

Fixpoint xml_compatible (t : string) : bool :=
  match t with
  | EmptyString => true
  | String a t' => xml_char a && xml_compatible t'
  end.

(** [p.font.name = n]: the name becomes the [typeface] attribute of
    [<a:latin>]. *)
Definition p_font_name_set (n : string) : shape_handle -> B unit :=
  mutate_shape (fun sh =>
    if xml_compatible n
    then inr {| spPr := spPr sh;
                txBody :=
                  (fun tf =>
                     mk_text_frame (word_wrap tf)
                       (alter (fun p =>
                                 mk_paragraph (text p) (font_size p) (font_color_rgb p)
                                   (font_bold p) (Some n) (alignment p))
                              O (paragraphs tf)))
                  <$> txBody sh |}
    else inl (ValueError
      "All strings must be XML compatible: Unicode or ASCII, no NULL bytes or control characters")).

Definition p_alignment_set (a : PP_ALIGN) := mutate_paragraph0 (fun p =>
  mk_paragraph (text p) (font_size p) (font_color_rgb p) (font_bold p) (font_name p) (Some a)).

(* ================================================================== *)
(** ** The script's helpers *)

(** The transparency snippet the script repeats after a shape it wants
    translucent (lines 96-102, 121-127, 168-174, ...), with the literal
    [val] of the alpha element as parameter: an [<a:alpha>] child is
    appended to the [<a:srgbClr>] of the shape's [<a:solidFill>], when both
    are found. *)
Definition append_alpha (val : string) (spPr : element) : element :=
  match etree.find spPr (qn NS_a "solidFill") with
  | Some solidFill =>
      match etree.find solidFill (qn NS_a "srgbClr") with
      | Some srgbClr =>
          let alpha := parse_alpha val in
          etree.update (qn NS_a "solidFill")
            (etree.update (qn NS_a "srgbClr") (etree.append alpha)) spPr
      | None => spPr
      end
  | None => spPr
  end.

Definition set_opacity (h : shape_handle) (val : string) : B unit :=
  mutate_spPr (append_alpha val) h.

(** The alpha children on a shape's fill colour node, and their values. *)
Definition alpha_children (sh : shape) : list element :=
  match etree.find (spPr sh) (qn NS_a "solidFill") with
  | Some solidFill =>
      match etree.find solidFill (qn NS_a "srgbClr") with
      | Some srgbClr => List.filter (etree.has_tag (qn NS_a "alpha")) (etree.children srgbClr)
      | None => []
      end
  | None => []
  end.

Definition alpha_vals (sh : shape) : list (option string) :=
  map (fun a => etree.get a "val") (alpha_children sh).

(** [add_shape_with_opacity] (lines 36-46).  [opacity] has the default 1.0
    and [line_color] the default [None]; a colour object is always truthy. *)
Definition add_shape_with_opacity (slide : slide_handle) (shape_type : MSO_SHAPE)
    (left top width height : Z) (fill_color : rgb_color) (opacity : float)
    (line_color : option rgb_color) : B shape_handle :=
  (shape <- add_shape slide shape_type left top width height ;;
   fill_solid shape ;;
   fill_fore_color_rgb fill_color shape ;;
   match line_color with
   | Some c => line_color_rgb c shape ;; line_width (Pt 1) shape
   | None => line_fill_background shape
   end ;;
   ret shape)%B.

(** [add_text_box] (lines 49-61).  Defaults: [bold=False],
    [font_name="Arial"], [align=PP_ALIGN.LEFT]. *)
Definition add_text_box (slide : slide_handle) (left top width height : Z)
    (text : string) (font_size : Z) (font_color : rgb_color)
    (bold : bool) (font_name : string) (align : PP_ALIGN) : B shape_handle :=
  (txBox <- add_textbox slide left top width height ;;
   word_wrap_set true txBox ;;
   p_text_set text txBox ;;
   p_font_size_set font_size txBox ;;
   p_font_color_rgb_set font_color txBox ;;
   p_font_bold_set bold txBox ;;
   p_font_name_set font_name txBox ;;
   p_alignment_set align txBox ;;
   ret txBox)%B.

(* ================================================================== *)
(** ** The five designs

    Each [create_presentation_N] is one straight-line function in the
    script; here its body is cut at the [add_slide] calls into one builder
    per slide.  Local names are the script's. *)

(** DESIGN 1: Cinematic Dark with Orange Glow, Slide 1: Title (from line 77). *)
Definition design1_slide1 : B unit :=
  (layout <- slide_layouts_getitem 6 ;;
   slide <- add_slide layout ;;
   bg <- add_shape slide RECTANGLE 0 0 SLIDE_WIDTH SLIDE_HEIGHT ;;
   fill_solid bg ;;
   c <- lift (RGBColor 0x0D 0x0D 0x0D) ;;
   fill_fore_color_rgb c bg ;;
   line_fill_background bg ;;
   top_bar <- add_shape slide RECTANGLE 0 0 SLIDE_WIDTH (Inches 0.15) ;;
   fill_solid top_bar ;;
   fill_fore_color_rgb AVEMO_ORANGE top_bar ;;
   line_fill_background top_bar ;;
   glow <- add_shape slide OVAL (Inches 8) (Inches 1) (Inches 6) (Inches 6) ;;
   fill_solid glow ;;
   c <- lift (RGBColor 0xFF 0x79 0x32) ;;
   fill_fore_color_rgb c glow ;;
   set_opacity glow "15000" ;;
   line_fill_background glow ;;
   title <- add_text_box slide (Inches 0.8) (Inches 2.2) (Inches 10) (Inches 1.5) "Fahrersoftware" (Pt 96) AVEMO_WHITE true "Arial" LEFT ;;
   p_font_name_set "Arial Black" title ;;
   subtitle <- add_text_box slide (Inches 0.8) (Inches 4) (Inches 8) (Inches 0.8) "Die Zukunft der Fahrzeugdisposition" (Pt 32) AVEMO_ORANGE true "Arial" LEFT ;;
   card <- add_shape slide ROUNDED_RECTANGLE (Inches 0.8) (Inches 5.2) (Inches 7) (Inches 1.5) ;;
   fill_solid card ;;
   c <- lift (RGBColor 0x1A 0x1A 0x1A) ;;
   fill_fore_color_rgb c card ;;
   c <- lift (RGBColor 0xFF 0x79 0x32) ;;
   line_color_rgb c card ;;
   line_width (Pt 2) card ;;
   set_opacity card "70000" ;;
   card_text <- add_text_box slide (Inches 1) (Inches 5.5) (Inches 6.6) (Inches 1) "Eine Software für alle Standorte" (Pt 20) AVEMO_WHITE false "Arial" LEFT ;;
   ret tt)%B.

(** DESIGN 1: Cinematic Dark with Orange Glow, Slide 2: Problem - Cinematic split (from line 133). *)
Definition design1_slide2 : B unit :=
  (layout <- slide_layouts_getitem 6 ;;
   slide <- add_slide layout ;;
   bg <- add_shape slide RECTANGLE 0 0 SLIDE_WIDTH SLIDE_HEIGHT ;;
   fill_solid bg ;;
   c <- lift (RGBColor 0x0D 0x0D 0x0D) ;;
   fill_fore_color_rgb c bg ;;
   line_fill_background bg ;;
   left_panel <- add_shape slide RECTANGLE 0 0 (Inches 5) SLIDE_HEIGHT ;;
   fill_solid left_panel ;;
   c <- lift (RGBColor 0x14 0x14 0x14) ;;
   fill_fore_color_rgb c left_panel ;;
   line_fill_background left_panel ;;
   add_text_box slide (Inches 0.5) (Inches 0.8) (Inches 4) (Inches 0.6) "DAS PROBLEM" (Pt 14) AVEMO_ORANGE true "Arial" LEFT ;;
   add_text_box slide (Inches 0.5) (Inches 1.5) (Inches 4) (Inches 1) "Aktuelle Herausforderungen" (Pt 36) AVEMO_WHITE true "Arial" LEFT ;;
   let problems :=
     [ ("Isolierte Standorte", "Keine Vernetzung zwischen den Niederlassungen");
       ("Manuelle Prozesse", "Excel, Outlook & Kalender führen zu Chaos");
       ("Fehlende Daten", "Keine KPIs, keine Optimierung möglich");
       ("Hohe Leerlaufzeit", "2,5 Stunden täglich pro Fahrzeug") ] in
   for_ (enumerate problems) (fun '(i, (title, desc)) =>
     let y_pos := Inches (float_of_int (3 + (i * 1))) in
     card <- add_shape slide ROUNDED_RECTANGLE (Inches 0.5) y_pos (Inches 4) (Inches 0.85) ;;
     fill_solid card ;;
     c <- lift (RGBColor 0x22 0x22 0x22) ;;
     fill_fore_color_rgb c card ;;
     c <- lift (RGBColor 0xFF 0x79 0x32) ;;
     line_color_rgb c card ;;
     line_width (Pt 1) card ;;
     set_opacity card "60000" ;;
     add_text_box slide (Inches 0.7) (y_pos + Inches 0.15) (Inches 3.6) (Inches 0.3) title (Pt 16) AVEMO_WHITE true "Arial" LEFT ;;
     c <- lift (RGBColor 0xAA 0xAA 0xAA) ;;
     add_text_box slide (Inches 0.7) (y_pos + Inches 0.45) (Inches 3.6) (Inches 0.3) desc (Pt 11) c false "Arial" LEFT ;;
     ret tt) ;;
   add_text_box slide (Inches 5.5) (Inches 3) (Inches 7) (Inches 2) "30 Tage" (Pt 120) AVEMO_ORANGE true "Arial" CENTER ;;
   add_text_box slide (Inches 5.5) (Inches 5) (Inches 7) (Inches 0.5) "durchschnittliche Wartezeit auf Fahrzeuge" (Pt 20) AVEMO_WHITE false "Arial" CENTER ;;
   ret tt)%B.

(** DESIGN 1: Cinematic Dark with Orange Glow, Slide 3: Solution (from line 188). *)
Definition design1_slide3 : B unit :=
  (layout <- slide_layouts_getitem 6 ;;
   slide <- add_slide layout ;;
   bg <- add_shape slide RECTANGLE 0 0 SLIDE_WIDTH SLIDE_HEIGHT ;;
   fill_solid bg ;;
   c <- lift (RGBColor 0x0D 0x0D 0x0D) ;;
   fill_fore_color_rgb c bg ;;
   line_fill_background bg ;;
   diagonal <- add_shape slide RECTANGLE (Inches (-2)) (Inches 5) (Inches 20) (Inches 4) ;;
   fill_solid diagonal ;;
   c <- lift (RGBColor 0xFF 0x79 0x32) ;;
   fill_fore_color_rgb c diagonal ;;
   rotation_set (-15) diagonal ;;
   line_fill_background diagonal ;;
   set_opacity diagonal "20000" ;;
   add_text_box slide (Inches 0.8) (Inches 0.8) (Inches 5) (Inches 0.6) "DIE LÖSUNG" (Pt 14) AVEMO_ORANGE true "Arial" LEFT ;;
   add_text_box slide (Inches 0.8) (Inches 1.5) (Inches 10) (Inches 1) "Eine Software für alle Standorte" (Pt 44) AVEMO_WHITE true "Arial" LEFT ;;
   let benefits :=
     [ ("Synergien nutzen", "Vernetzung aller Standorte");
       ("Effizienz steigern", "Optimierte Fahrzeugnutzung");
       ("Automatisierung", "Weniger manuelle Arbeit");
       ("Kosteneinsparung", "Potenzial von 260.000 € pro Jahr") ] in
   for_ (enumerate benefits) (fun '(i, (title, desc)) =>
     let x_pos := Inches (0.8 + (float_of_int ((i mod 2) * 6))) in
     let y_pos := Inches (3 + (float_of_int (i / 2) * 1.8)) in
     bar <- add_shape slide RECTANGLE x_pos y_pos (Inches 0.08) (Inches 1.2) ;;
     fill_solid bar ;;
     fill_fore_color_rgb AVEMO_ORANGE bar ;;
     line_fill_background bar ;;
     add_text_box slide (x_pos + Inches 0.2) (y_pos + Inches 0.1) (Inches 5) (Inches 0.4) title (Pt 22) AVEMO_WHITE true "Arial" LEFT ;;
     c <- lift (RGBColor 0xBB 0xBB 0xBB) ;;
     add_text_box slide (x_pos + Inches 0.2) (y_pos + Inches 0.55) (Inches 5) (Inches 0.5) desc (Pt 14) c false "Arial" LEFT ;;
     ret tt) ;;
   ret tt)%B.

(** DESIGN 1: Cinematic Dark with Orange Glow, Slide 4: MVP Features (from line 236). *)
Definition design1_slide4 : B unit :=
  (layout <- slide_layouts_getitem 6 ;;
   slide <- add_slide layout ;;
   bg <- add_shape slide RECTANGLE 0 0 SLIDE_WIDTH SLIDE_HEIGHT ;;
   fill_solid bg ;;
   c <- lift (RGBColor 0x0D 0x0D 0x0D) ;;
   fill_fore_color_rgb c bg ;;
   line_fill_background bg ;;
   add_text_box slide (Inches 0.8) (Inches 0.6) (Inches 6) (Inches 0.5) "MINIMUM VIABLE PRODUCT" (Pt 12) AVEMO_ORANGE true "Arial" LEFT ;;
   add_text_box slide (Inches 0.8) (Inches 1.2) (Inches 10) (Inches 0.8) "Die Kernfunktionen" (Pt 40) AVEMO_WHITE true "Arial" LEFT ;;
   let features :=
     [ "Optimierter Planungs- algorithmus";
       "Intuitive Driver App";
       "Modernes Web- Backoffice";
       "Integration externer Dienstleister";
       "Live-Monitoring Dashboard";
       "Automatisiertes Reporting" ] in
   for_ (enumerate features) (fun '(i, feature) =>
     let col := i mod 3 in
     let row := i / 3 in
     let x_pos := Inches (0.8 + float_of_int (col * 4)) in
     let y_pos := Inches (2.5 + (float_of_int row * 2.2)) in
     card <- add_shape slide ROUNDED_RECTANGLE x_pos y_pos (Inches 3.6) (Inches 1.8) ;;
     fill_solid card ;;
     c <- lift (RGBColor 0x1A 0x1A 0x1A) ;;
     fill_fore_color_rgb c card ;;
     c <- lift (RGBColor 0xFF 0x79 0x32) ;;
     line_color_rgb c card ;;
     line_width (Pt 1.5) card ;;
     set_opacity card "50000" ;;
     num <- add_text_box slide (x_pos + Inches 0.2) (y_pos + Inches 0.15) (Inches 0.5) (Inches 0.5) ("0" ++ str (i + 1)) (Pt 28) AVEMO_ORANGE true "Arial" LEFT ;;
     add_text_box slide (x_pos + Inches 0.2) (y_pos + Inches 0.7) (Inches 3.2) (Inches 0.9) feature (Pt 18) AVEMO_WHITE true "Arial" LEFT ;;
     ret tt) ;;
   ret tt)%B.

(** DESIGN 1: Cinematic Dark with Orange Glow, Slide 5: Closing (from line 285). *)
Definition design1_slide5 : B unit :=
  (layout <- slide_layouts_getitem 6 ;;
   slide <- add_slide layout ;;
   bg <- add_shape slide RECTANGLE 0 0 SLIDE_WIDTH SLIDE_HEIGHT ;;
   fill_solid bg ;;
   c <- lift (RGBColor 0x0D 0x0D 0x0D) ;;
   fill_fore_color_rgb c bg ;;
   line_fill_background bg ;;
   circle <- add_shape slide OVAL (Inches 7) (Inches (-2)) (Inches 10) (Inches 12) ;;
   fill_solid circle ;;
   c <- lift (RGBColor 0xFF 0x79 0x32) ;;
   fill_fore_color_rgb c circle ;;
   line_fill_background circle ;;
   set_opacity circle "20000" ;;
   add_text_box slide (Inches 0.8) (Inches 2.5) (Inches 10) (Inches 1.2) "Bereit für die" (Pt 48) AVEMO_WHITE true "Arial" LEFT ;;
   add_text_box slide (Inches 0.8) (Inches 3.5) (Inches 10) (Inches 1.5) "Zukunft?" (Pt 96) AVEMO_ORANGE true "Arial" LEFT ;;
   c <- lift (RGBColor 0xCC 0xCC 0xCC) ;;
   add_text_box slide (Inches 0.8) (Inches 5.5) (Inches 6) (Inches 1) "Gemeinsam gestalten wir die digitale Transformation Ihrer Fahrzeugdisposition." (Pt 18) c false "Arial" LEFT ;;
   line <- add_shape slide RECTANGLE (Inches 0.8) (Inches 6.8) (Inches 2) (Inches 0.06) ;;
   fill_solid line ;;
   fill_fore_color_rgb AVEMO_ORANGE line ;;
   line_fill_background line ;;
   ret tt)%B.

(** [create_presentation_1], up to the save (lines 64-320). *)
Definition build_presentation_1 : B unit :=
  (slide_width_set SLIDE_WIDTH ;;
   slide_height_set SLIDE_HEIGHT ;;
   design1_slide1 ;;
   design1_slide2 ;;
   design1_slide3 ;;
   design1_slide4 ;;
   design1_slide5)%B.

(** DESIGN 2: Clean Minimal with Liquid Glass, Slide 1: Title (from line 336). *)
Definition design2_slide1 : B unit :=
  (layout <- slide_layouts_getitem 6 ;;
   slide <- add_slide layout ;;
   bg <- add_shape slide RECTANGLE 0 0 SLIDE_WIDTH SLIDE_HEIGHT ;;
   fill_solid bg ;;
   fill_fore_color_rgb AVEMO_WHITE bg ;;
   line_fill_background bg ;;
   shape <- add_shape slide RECTANGLE (Inches (-1)) (Inches (-1)) (Inches 8) (Inches 10) ;;
   fill_solid shape ;;
   fill_fore_color_rgb AVEMO_GRAY_LIGHT shape ;;
   line_fill_background shape ;;
   card <- add_shape slide ROUNDED_RECTANGLE (Inches 1) (Inches 2) (Inches 8) (Inches 3.5) ;;
   fill_solid card ;;
   fill_fore_color_rgb AVEMO_WHITE card ;;
   c <- lift (RGBColor 0xE0 0xE0 0xE0) ;;
   line_color_rgb c card ;;
   line_width (Pt 1) card ;;
   set_opacity card "85000" ;;
   dot <- add_shape slide OVAL (Inches 1.5) (Inches 2.5) (Inches 0.3) (Inches 0.3) ;;
   fill_solid dot ;;
   fill_fore_color_rgb AVEMO_ORANGE dot ;;
   line_fill_background dot ;;
   add_text_box slide (Inches 2) (Inches 2.4) (Inches 6) (Inches 0.5) "Fahrersoftware" (Pt 14) AVEMO_GRAY_MID true "Arial" LEFT ;;
   add_text_box slide (Inches 1.5) (Inches 3.2) (Inches 7) (Inches 1.2) "Die Zukunft der Fahrzeugdisposition" (Pt 48) AVEMO_BLACK true "Arial" LEFT ;;
   add_text_box slide (Inches 1.5) (Inches 4.5) (Inches 6) (Inches 0.6) "Eine Software für alle Standorte" (Pt 20) AVEMO_GRAY_MID false "Arial" LEFT ;;
   line <- add_shape slide RECTANGLE (Inches 1.5) (Inches 5.3) (Inches 1.5) (Inches 0.05) ;;
   fill_solid line ;;
   fill_fore_color_rgb AVEMO_ORANGE line ;;
   line_fill_background line ;;
   ret tt)%B.

(** DESIGN 2: Clean Minimal with Liquid Glass, Slide 2: Problem (from line 384). *)
Definition design2_slide2 : B unit :=
  (layout <- slide_layouts_getitem 6 ;;
   slide <- add_slide layout ;;
   bg <- add_shape slide RECTANGLE 0 0 SLIDE_WIDTH SLIDE_HEIGHT ;;
   fill_solid bg ;;
   fill_fore_color_rgb AVEMO_WHITE bg ;;
   line_fill_background bg ;;
   add_text_box slide (Inches 0.8) (Inches 0.6) (Inches 4) (Inches 0.4) "Aktuelle Situation" (Pt 32) AVEMO_BLACK true "Arial" LEFT ;;
   underline <- add_shape slide RECTANGLE (Inches 0.8) (Inches 1.1) (Inches 1.2) (Inches 0.06) ;;
   fill_solid underline ;;
   fill_fore_color_rgb AVEMO_ORANGE underline ;;
   line_fill_background underline ;;
   let problems :=
     [ ("Isolierte Standorte", "Keine Vernetzung zwischen den Niederlassungen führt zu Ineffizienz");
       ("Manuelle Prozesse", "Abhängig von Excel, Outlook und Kalendern");
       ("Fehlende Transparenz", "Keine KPIs für datengesteuerte Entscheidungen");
       ("Hohe Leerlaufzeiten", "Durchschnittlich 2,5 Stunden pro Fahrzeug täglich");
       ("Lange Wartezeiten", "30 Tage durchschnittlich auf Fahrzeuge warten") ] in
   for_ (enumerate problems) (fun '(i, (title, desc)) =>
     let y_pos := Inches (1.6 + (float_of_int i * 1.1)) in
     num_bg <- add_shape slide OVAL (Inches 0.8) y_pos (Inches 0.5) (Inches 0.5) ;;
     fill_solid num_bg ;;
     fill_fore_color_rgb (if i =? 0 then AVEMO_ORANGE else AVEMO_GRAY_LIGHT) num_bg ;;
     line_fill_background num_bg ;;
     add_text_box slide (Inches 0.95) (y_pos + Inches 0.08) (Inches 0.3) (Inches 0.3) (str (i + 1)) (Pt 14) (if i =? 0 then AVEMO_WHITE else AVEMO_GRAY_MID) true "Arial" CENTER ;;
     card <- add_shape slide ROUNDED_RECTANGLE (Inches 1.5) (y_pos - Inches 0.1) (Inches 11) (Inches 0.9) ;;
     fill_solid card ;;
     fill_fore_color_rgb AVEMO_WHITE card ;;
     c <- lift (RGBColor 0xE8 0xE8 0xE8) ;;
     line_color_rgb c card ;;
     line_width (Pt 1) card ;;
     set_opacity card "90000" ;;
     add_text_box slide (Inches 1.7) (y_pos + Inches 0.05) (Inches 3) (Inches 0.4) title (Pt 18) AVEMO_BLACK true "Arial" LEFT ;;
     add_text_box slide (Inches 1.7) (y_pos + Inches 0.4) (Inches 10) (Inches 0.4) desc (Pt 13) AVEMO_GRAY_MID false "Arial" LEFT ;;
     ret tt) ;;
   ret tt)%B.

(** DESIGN 2: Clean Minimal with Liquid Glass, Slide 3: Solution (from line 440). *)
Definition design2_slide3 : B unit :=
  (layout <- slide_layouts_getitem 6 ;;
   slide <- add_slide layout ;;
   bg <- add_shape slide RECTANGLE 0 0 SLIDE_WIDTH SLIDE_HEIGHT ;;
   fill_solid bg ;;
   fill_fore_color_rgb AVEMO_WHITE bg ;;
   line_fill_background bg ;;
   orange_shape <- add_shape slide RECTANGLE (Inches 8) (Inches 0) (Inches 6) SLIDE_HEIGHT ;;
   fill_solid orange_shape ;;
   fill_fore_color_rgb AVEMO_ORANGE orange_shape ;;
   line_fill_background orange_shape ;;
   add_text_box slide (Inches 0.8) (Inches 0.8) (Inches 6) (Inches 0.5) "Unsere Lösung" (Pt 14) AVEMO_ORANGE true "Arial" LEFT ;;
   add_text_box slide (Inches 0.8) (Inches 1.5) (Inches 6) (Inches 1) "Eine Software für alle Standorte" (Pt 36) AVEMO_BLACK true "Arial" LEFT ;;
   let solutions :=
     [ ("Synergien", "Alle Standorte vernetzt");
       ("Effizienz", "Optimierte Prozesse");
       ("Automatisierung", "Weniger manuelle Arbeit");
       ("Einsparung", "260.000 € jährlich") ] in
   for_ (enumerate solutions) (fun '(i, (title, desc)) =>
     let y_pos := Inches (3 + (float_of_int i * 1.1)) in
     icon <- add_shape slide OVAL (Inches 0.8) y_pos (Inches 0.6) (Inches 0.6) ;;
     fill_solid icon ;;
     fill_fore_color_rgb AVEMO_ORANGE icon ;;
     line_fill_background icon ;;
     add_text_box slide (Inches 1.6) (y_pos + Inches 0.1) (Inches 2.5) (Inches 0.4) title (Pt 22) AVEMO_BLACK true "Arial" LEFT ;;
     add_text_box slide (Inches 1.6) (y_pos + Inches 0.5) (Inches 5) (Inches 0.4) desc (Pt 14) AVEMO_GRAY_MID false "Arial" LEFT ;;
     ret tt) ;;
   add_text_box slide (Inches 8.5) (Inches 3) (Inches 4) (Inches 3) "Transformieren Sie Ihre Fahrzeugdisposition mit moderner Technologie" (Pt 24) AVEMO_WHITE true "Arial" LEFT ;;
   ret tt)%B.

(** DESIGN 2: Clean Minimal with Liquid Glass, Slide 4: MVP (from line 485). *)
Definition design2_slide4 : B unit :=
  (layout <- slide_layouts_getitem 6 ;;
   slide <- add_slide layout ;;
   bg <- add_shape slide RECTANGLE 0 0 SLIDE_WIDTH SLIDE_HEIGHT ;;
   fill_solid bg ;;
   fill_fore_color_rgb AVEMO_WHITE bg ;;
   line_fill_background bg ;;
   add_text_box slide (Inches 0.8) (Inches 0.6) (Inches 6) (Inches 0.4) "Minimum Viable Product" (Pt 14) AVEMO_ORANGE true "Arial" LEFT ;;
   add_text_box slide (Inches 0.8) (Inches 1.2) (Inches 10) (Inches 0.8) "Die Kernfunktionen" (Pt 40) AVEMO_BLACK true "Arial" LEFT ;;
   let features :=
     [ "Planungsalgorithmus";
       "Driver App";
       "Web-Backoffice";
       "Externe Dienstleister";
       "Monitoring";
       "Reporting" ] in
   for_ (enumerate features) (fun '(i, feature) =>
     let row := i / 3 in
     let col := i mod 3 in
     let x := Inches (0.8 + (float_of_int col * 4.1)) in
     let y := Inches (2.5 + (float_of_int row * 2.2)) in
     card <- add_shape slide ROUNDED_RECTANGLE x y (Inches 3.8) (Inches 1.9) ;;
     fill_solid card ;;
     fill_fore_color_rgb AVEMO_WHITE card ;;
     c <- lift (RGBColor 0xDD 0xDD 0xDD) ;;
     line_color_rgb c card ;;
     line_width (Pt 1) card ;;
     bar <- add_shape slide RECTANGLE x y (Inches 3.8) (Inches 0.08) ;;
     fill_solid bar ;;
     fill_fore_color_rgb AVEMO_ORANGE bar ;;
     line_fill_background bar ;;
     add_text_box slide (x + Inches 0.3) (y + Inches 0.5) (Inches 3.2) (Inches 1) feature (Pt 20) AVEMO_BLACK true "Arial" LEFT ;;
     add_text_box slide (x + Inches 0.3) (y + Inches 0.25) (Inches 0.5) (Inches 0.3) ("0" ++ str (i + 1)) (Pt 12) AVEMO_ORANGE true "Arial" LEFT ;;
     ret tt) ;;
   ret tt)%B.

(** DESIGN 2: Clean Minimal with Liquid Glass, Slide 5: Closing (from line 533). *)
Definition design2_slide5 : B unit :=
  (layout <- slide_layouts_getitem 6 ;;
   slide <- add_slide layout ;;
   bg <- add_shape slide RECTANGLE 0 0 SLIDE_WIDTH SLIDE_HEIGHT ;;
   fill_solid bg ;;
   fill_fore_color_rgb AVEMO_WHITE bg ;;
   line_fill_background bg ;;
   for_ [(2%float, 1%float); (10%float, 5%float); (11%float, 0.5%float); (1%float, 6%float)] (fun pos =>
     circle <- add_shape slide OVAL (Inches (fst pos)) (Inches (snd pos)) (Inches 0.3) (Inches 0.3) ;;
     fill_solid circle ;;
     fill_fore_color_rgb AVEMO_ORANGE circle ;;
     line_fill_background circle ;;
     set_opacity circle "30000" ;;
     ret tt) ;;
   add_text_box slide (Inches 0.8) (Inches 2.8) (Inches 10) (Inches 1) "Bereit für die" (Pt 36) AVEMO_GRAY_MID false "Arial" LEFT ;;
   add_text_box slide (Inches 0.8) (Inches 3.5) (Inches 10) (Inches 1.2) "Zukunft?" (Pt 72) AVEMO_BLACK true "Arial" LEFT ;;
   underline <- add_shape slide RECTANGLE (Inches 0.8) (Inches 4.7) (Inches 3) (Inches 0.08) ;;
   fill_solid underline ;;
   fill_fore_color_rgb AVEMO_ORANGE underline ;;
   line_fill_background underline ;;
   add_text_box slide (Inches 0.8) (Inches 5.2) (Inches 8) (Inches 0.8) "Gemeinsam gestalten wir die digitale Transformation." (Pt 18) AVEMO_GRAY_MID false "Arial" LEFT ;;
   ret tt)%B.

(** [create_presentation_2], up to the save (lines 323-569). *)
Definition build_presentation_2 : B unit :=
  (slide_width_set SLIDE_WIDTH ;;
   slide_height_set SLIDE_HEIGHT ;;
   design2_slide1 ;;
   design2_slide2 ;;
   design2_slide3 ;;
   design2_slide4 ;;
   design2_slide5)%B.

(** DESIGN 3: Bold Typographic with Orange Blocks, Slide 1: Title (from line 585). *)
Definition design3_slide1 : B unit :=
  (layout <- slide_layouts_getitem 6 ;;
   slide <- add_slide layout ;;
   bg <- add_shape slide RECTANGLE 0 0 SLIDE_WIDTH SLIDE_HEIGHT ;;
   fill_solid bg ;;
   fill_fore_color_rgb AVEMO_BLACK bg ;;
   line_fill_background bg ;;
   add_text_box slide (Inches (-0.2)) (Inches 1.5) (Inches 14) (Inches 2) "FAHRER" (Pt 140) AVEMO_WHITE true "Arial" LEFT ;;
   orange_block <- add_shape slide RECTANGLE (Inches 5.5) (Inches 3.3) (Inches 8) (Inches 1.8) ;;
   fill_solid orange_block ;;
   fill_fore_color_rgb AVEMO_ORANGE orange_block ;;
   line_fill_background orange_block ;;
   add_text_box slide (Inches 5.7) (Inches 3.4) (Inches 7) (Inches 1.6) "SOFTWARE" (Pt 100) AVEMO_BLACK true "Arial" LEFT ;;
   add_text_box slide (Inches 0.8) (Inches 5.8) (Inches 8) (Inches 0.6) "Die Zukunft der Fahrzeugdisposition" (Pt 24) AVEMO_WHITE false "Arial" LEFT ;;
   ret tt)%B.

(** DESIGN 3: Bold Typographic with Orange Blocks, Slide 2: Problem (from line 609). *)
Definition design3_slide2 : B unit :=
  (layout <- slide_layouts_getitem 6 ;;
   slide <- add_slide layout ;;
   left <- add_shape slide RECTANGLE 0 0 (Inches 4) SLIDE_HEIGHT ;;
   fill_solid left ;;
   fill_fore_color_rgb AVEMO_ORANGE left ;;
   line_fill_background left ;;
   right <- add_shape slide RECTANGLE (Inches 4) 0 (Inches 9.333) SLIDE_HEIGHT ;;
   fill_solid right ;;
   fill_fore_color_rgb AVEMO_WHITE right ;;
   line_fill_background right ;;
   add_text_box slide (Inches 0.5) (Inches 2.5) (Inches 3) (Inches 2) "01" (Pt 120) AVEMO_BLACK true "Arial" LEFT ;;
   add_text_box slide (Inches 0.8) (Inches 5) (Inches 3) (Inches 1) "PROBLEM" (Pt 18) AVEMO_BLACK true "Arial" LEFT ;;
   add_text_box slide (Inches 4.5) (Inches 0.8) (Inches 8) (Inches 0.6) "Aktuelle Herausforderungen" (Pt 32) AVEMO_BLACK true "Arial" LEFT ;;
   let problems :=
     [ "Isolierte Standorte";
       "Manuelle Prozesse";
       "Fehlende KPIs";
       "2,5h Leerlauf";
       "30 Tage Wartezeit" ] in
   for_ (enumerate problems) (fun '(i, problem) =>
     let y := Inches (1.8 + float_of_int (i * 1)) in
     line <- add_shape slide RECTANGLE (Inches 4.5) (y + Inches 0.15) (Inches 0.4) (Inches 0.04) ;;
     fill_solid line ;;
     fill_fore_color_rgb AVEMO_BLACK line ;;
     line_fill_background line ;;
     add_text_box slide (Inches 5.1) y (Inches 7) (Inches 0.5) problem (Pt 22) AVEMO_BLACK true "Arial" LEFT ;;
     ret tt) ;;
   ret tt)%B.

(** DESIGN 3: Bold Typographic with Orange Blocks, Slide 3: Solution (from line 654). *)
Definition design3_slide3 : B unit :=
  (layout <- slide_layouts_getitem 6 ;;
   slide <- add_slide layout ;;
   bg <- add_shape slide RECTANGLE 0 0 SLIDE_WIDTH SLIDE_HEIGHT ;;
   fill_solid bg ;;
   fill_fore_color_rgb AVEMO_BLACK bg ;;
   line_fill_background bg ;;
   white_block <- add_shape slide RECTANGLE (Inches 2) (Inches 1.5) (Inches 9) (Inches 4.5) ;;
   fill_solid white_block ;;
   fill_fore_color_rgb AVEMO_WHITE white_block ;;
   line_fill_background white_block ;;
   add_text_box slide (Inches 2.5) (Inches 1.8) (Inches 8) (Inches 0.5) "DIE LÖSUNG" (Pt 14) AVEMO_ORANGE true "Arial" LEFT ;;
   add_text_box slide (Inches 2.5) (Inches 2.4) (Inches 8) (Inches 1) "Eine Software für alle Standorte" (Pt 36) AVEMO_BLACK true "Arial" LEFT ;;
   let solutions :=
     [ ("Synergien", "Vernetzung aller Standorte");
       ("Effizienz", "Optimierte Fahrzeugnutzung");
       ("Automatisierung", "Reduzierung manueller Arbeit");
       ("Kosten", "260.000 € Einsparung") ] in
   for_ (enumerate solutions) (fun '(i, (title, desc)) =>
     let y := Inches (3.6 + (float_of_int i * 0.6)) in
     add_text_box slide (Inches 2.5) y (Inches 3) (Inches 0.4) title (Pt 16) AVEMO_ORANGE true "Arial" LEFT ;;
     add_text_box slide (Inches 5) y (Inches 5) (Inches 0.4) desc (Pt 14) AVEMO_GRAY_MID false "Arial" LEFT ;;
     ret tt) ;;
   ret tt)%B.

(** DESIGN 3: Bold Typographic with Orange Blocks, Slide 4: MVP Features (from line 687). *)
Definition design3_slide4 : B unit :=
  (layout <- slide_layouts_getitem 6 ;;
   slide <- add_slide layout ;;
   bg <- add_shape slide RECTANGLE 0 0 SLIDE_WIDTH SLIDE_HEIGHT ;;
   fill_solid bg ;;
   fill_fore_color_rgb AVEMO_WHITE bg ;;
   line_fill_background bg ;;
   c <- lift (RGBColor 0xF0 0xF0 0xF0) ;;
   add_text_box slide (Inches (-1)) (Inches 5.5) (Inches 20) (Inches 2) "MVP" (Pt 200) c true "Arial" LEFT ;;
   add_text_box slide (Inches 0.8) (Inches 0.6) (Inches 6) (Inches 0.5) "MINIMUM VIABLE PRODUCT" (Pt 14) AVEMO_ORANGE true "Arial" LEFT ;;
   let features :=
     [ ("Planungs- algorithmus", "Optimierte Tourenplanung");
       ("Driver App", "Intuitive Bedienung");
       ("Web- Backoffice", "Moderne Oberfläche");
       ("Monitoring", "Echtzeit-Übersicht");
       ("Reporting", "Automatisierte Reports");
       ("Integration", "Externe Dienstleister") ] in
   for_ (enumerate features) (fun '(i, (title, desc)) =>
     let col := i mod 3 in
     let row := i / 3 in
     let x := Inches (0.8 + (float_of_int col * 4.1)) in
     let y := Inches (1.5 + (float_of_int row * 2.8)) in
     add_text_box slide x y (Inches 1) (Inches 0.8) ("0" ++ str (i + 1)) (Pt 48) AVEMO_ORANGE true "Arial" LEFT ;;
     add_text_box slide x (y + Inches 0.8) (Inches 3.8) (Inches 0.6) title (Pt 20) AVEMO_BLACK true "Arial" LEFT ;;
     add_text_box slide x (y + Inches 1.3) (Inches 3.8) (Inches 0.5) desc (Pt 13) AVEMO_GRAY_MID false "Arial" LEFT ;;
     ret tt) ;;
   ret tt)%B.

(** DESIGN 3: Bold Typographic with Orange Blocks, Slide 5: Closing (from line 725). *)
Definition design3_slide5 : B unit :=
  (layout <- slide_layouts_getitem 6 ;;
   slide <- add_slide layout ;;
   bg <- add_shape slide RECTANGLE 0 0 SLIDE_WIDTH SLIDE_HEIGHT ;;
   fill_solid bg ;;
   fill_fore_color_rgb AVEMO_BLACK bg ;;
   line_fill_background bg ;;
   diag <- add_shape slide RECTANGLE (Inches 6) (Inches (-2)) (Inches 4) (Inches 12) ;;
   fill_solid diag ;;
   fill_fore_color_rgb AVEMO_ORANGE diag ;;
   rotation_set (-25) diag ;;
   line_fill_background diag ;;
   add_text_box slide (Inches 0.8) (Inches 2.5) (Inches 8) (Inches 1) "Bereit für" (Pt 36) AVEMO_WHITE false "Arial" LEFT ;;
   add_text_box slide (Inches 0.8) (Inches 3.3) (Inches 8) (Inches 1.2) "die Zukunft?" (Pt 60) AVEMO_ORANGE true "Arial" LEFT ;;
   add_text_box slide (Inches 0.8) (Inches 4.8) (Inches 7) (Inches 1) "Gemeinsam transformieren wir Ihre Fahrzeugdisposition." (Pt 16) AVEMO_GRAY_MID false "Arial" LEFT ;;
   ret tt)%B.

(** [create_presentation_3], up to the save (lines 572-748). *)
Definition build_presentation_3 : B unit :=
  (slide_width_set SLIDE_WIDTH ;;
   slide_height_set SLIDE_HEIGHT ;;
   design3_slide1 ;;
   design3_slide2 ;;
   design3_slide3 ;;
   design3_slide4 ;;
   design3_slide5)%B.

(** DESIGN 4: Modern Asymmetric Editorial, Slide 1: Title with asymmetric layout (from line 764). *)
Definition design4_slide1 : B unit :=
  (layout <- slide_layouts_getitem 6 ;;
   slide <- add_slide layout ;;
   bg <- add_shape slide RECTANGLE 0 0 SLIDE_WIDTH SLIDE_HEIGHT ;;
   fill_solid bg ;;
   c <- lift (RGBColor 0xF8 0xF9 0xFA) ;;
   fill_fore_color_rgb c bg ;;
   line_fill_background bg ;;
   shape <- add_shape slide ROUNDED_RECTANGLE (Inches 7) (Inches (-1)) (Inches 7) (Inches 10) ;;
   fill_solid shape ;;
   fill_fore_color_rgb AVEMO_ORANGE shape ;;
   line_fill_background shape ;;
   adjustments_setitem 0 0.1 shape ;;
   add_text_box slide (Inches 1) (Inches 2.5) (Inches 5) (Inches 1) "Fahrersoftware" (Pt 52) AVEMO_BLACK true "Arial" LEFT ;;
   add_text_box slide (Inches 1) (Inches 3.6) (Inches 5) (Inches 0.8) "Die Zukunft der Fahrzeugdisposition" (Pt 20) AVEMO_GRAY_MID false "Arial" LEFT ;;
   line <- add_shape slide RECTANGLE (Inches 1) (Inches 4.6) (Inches 2) (Inches 0.04) ;;
   fill_solid line ;;
   fill_fore_color_rgb AVEMO_ORANGE line ;;
   line_fill_background line ;;
   add_text_box slide (Inches 7.5) (Inches 3) (Inches 5) (Inches 2) "Eine Software für alle Standorte" (Pt 28) AVEMO_WHITE true "Arial" LEFT ;;
   ret tt)%B.

(** DESIGN 4: Modern Asymmetric Editorial, Slide 2: Problem (from line 798). *)
Definition design4_slide2 : B unit :=
  (layout <- slide_layouts_getitem 6 ;;
   slide <- add_slide layout ;;
   bg <- add_shape slide RECTANGLE 0 0 SLIDE_WIDTH SLIDE_HEIGHT ;;
   fill_solid bg ;;
   fill_fore_color_rgb AVEMO_WHITE bg ;;
   line_fill_background bg ;;
   header_bg <- add_shape slide RECTANGLE 0 0 SLIDE_WIDTH (Inches 1.5) ;;
   fill_solid header_bg ;;
   fill_fore_color_rgb AVEMO_ORANGE header_bg ;;
   line_fill_background header_bg ;;
   add_text_box slide (Inches 0.8) (Inches 0.5) (Inches 10) (Inches 0.6) "Aktuelle Herausforderungen" (Pt 32) AVEMO_WHITE true "Arial" LEFT ;;
   let problems :=
     [ ("Isolierte Standorte", "Keine Vernetzung zwischen den Niederlassungen", 0.8%float, 1.8%float);
       ("Manuelle Prozesse", "Abhängigkeit von Excel und Outlook", 4.5%float, 1.8%float);
       ("Fehlende Daten", "Keine KPIs für Entscheidungen", 8.2%float, 1.8%float);
       ("Hohe Leerlaufzeit", "2,5 Stunden pro Fahrzeug täglich", 2.6%float, 4.2%float);
       ("Lange Wartezeiten", "30 Tage durchschnittlich", 6.3%float, 4.2%float) ] in
   for_ problems (fun '(title, desc, x, y) =>
     card <- add_shape slide ROUNDED_RECTANGLE (Inches x) (Inches y) (Inches 3.5) (Inches 2) ;;
     fill_solid card ;;
     c <- lift (RGBColor 0xF8 0xF9 0xFA) ;;
     fill_fore_color_rgb c card ;;
     line_fill_background card ;;
     adjustments_setitem 0 0.15 card ;;
     add_text_box slide (Inches (x + 0.2)) (Inches (y + 0.3)) (Inches 3.1) (Inches 0.6) title (Pt 18) AVEMO_BLACK true "Arial" LEFT ;;
     add_text_box slide (Inches (x + 0.2)) (Inches (y + 1)) (Inches 3.1) (Inches 0.8) desc (Pt 13) AVEMO_GRAY_MID false "Arial" LEFT ;;
     ret tt) ;;
   ret tt)%B.

(** DESIGN 4: Modern Asymmetric Editorial, Slide 3: Solution (from line 836). *)
Definition design4_slide3 : B unit :=
  (layout <- slide_layouts_getitem 6 ;;
   slide <- add_slide layout ;;
   bg <- add_shape slide RECTANGLE 0 0 SLIDE_WIDTH SLIDE_HEIGHT ;;
   fill_solid bg ;;
   c <- lift (RGBColor 0xF8 0xF9 0xFA) ;;
   fill_fore_color_rgb c bg ;;
   line_fill_background bg ;;
   main_card <- add_shape slide ROUNDED_RECTANGLE (Inches 0.8) (Inches 0.8) (Inches 11.7) (Inches 6) ;;
   fill_solid main_card ;;
   fill_fore_color_rgb AVEMO_WHITE main_card ;;
   line_fill_background main_card ;;
   adjustments_setitem 0 0.05 main_card ;;
   add_text_box slide (Inches 1.3) (Inches 1.3) (Inches 6) (Inches 0.5) "Die Lösung" (Pt 14) AVEMO_ORANGE true "Arial" LEFT ;;
   add_text_box slide (Inches 1.3) (Inches 1.9) (Inches 10) (Inches 0.8) "Eine Software für alle Standorte" (Pt 36) AVEMO_BLACK true "Arial" LEFT ;;
   let solutions :=
     [ ("Synergien nutzen", "Vernetzung aller Standorte für maximale Effizienz");
       ("Effizienz steigern", "Optimale Nutzung jedes Fahrzeugs");
       ("Automatisierung", "Reduzierung manueller Prozesse");
       ("Kosteneinsparung", "Potenzial von 260.000 € jährlich") ] in
   for_ (enumerate solutions) (fun '(i, (title, desc)) =>
     let y := Inches (3 + (float_of_int i * 0.9)) in
     circle <- add_shape slide OVAL (Inches 1.3) y (Inches 0.4) (Inches 0.4) ;;
     fill_solid circle ;;
     fill_fore_color_rgb AVEMO_ORANGE circle ;;
     line_fill_background circle ;;
     add_text_box slide (Inches 2) y (Inches 3) (Inches 0.4) title (Pt 18) AVEMO_BLACK true "Arial" LEFT ;;
     add_text_box slide (Inches 5) y (Inches 6) (Inches 0.4) desc (Pt 14) AVEMO_GRAY_MID false "Arial" LEFT ;;
     ret tt) ;;
   ret tt)%B.

(** DESIGN 4: Modern Asymmetric Editorial, Slide 4: MVP (from line 877). *)
Definition design4_slide4 : B unit :=
  (layout <- slide_layouts_getitem 6 ;;
   slide <- add_slide layout ;;
   bg <- add_shape slide RECTANGLE 0 0 SLIDE_WIDTH SLIDE_HEIGHT ;;
   fill_solid bg ;;
   fill_fore_color_rgb AVEMO_WHITE bg ;;
   line_fill_background bg ;;
   add_text_box slide (Inches 0.8) (Inches 0.6) (Inches 8) (Inches 0.5) "Minimum Viable Product" (Pt 14) AVEMO_ORANGE true "Arial" LEFT ;;
   add_text_box slide (Inches 0.8) (Inches 1.2) (Inches 8) (Inches 0.7) "Die Kernfunktionen" (Pt 36) AVEMO_BLACK true "Arial" LEFT ;;
   let features :=
     [ "Planungsalgorithmus";
       "Driver App";
       "Web-Backoffice";
       "Externe Dienstleister";
       "Monitoring";
       "Reporting" ] in
   let positions :=
     [ (0.8%float, 2.2%float);
       (4.5%float, 2.2%float);
       (0.8%float, 4%float);
       (4.5%float, 4%float);
       (8.2%float, 4%float);
       (4.5%float, 5.8%float) ] in
   for_ (enumerate features) (fun '(i, feature) =>
     x_y <- lift (getitem positions i) ;;
     let '(x, y) := x_y in
     pill <- add_shape slide ROUNDED_RECTANGLE (Inches x) (Inches y) (Inches 3.3) (Inches 1.4) ;;
     fill_solid pill ;;
     c <- (if (i mod 2) =? 0 then lift (RGBColor 0xF8 0xF9 0xFA) else ret AVEMO_ORANGE) ;;
     fill_fore_color_rgb c pill ;;
     line_fill_background pill ;;
     adjustments_setitem 0 0.5 pill ;;
     let text_color := if (i mod 2) =? 0 then AVEMO_BLACK else AVEMO_WHITE in
     add_text_box slide (Inches (x + 0.3)) (Inches (y + 0.45)) (Inches 2.7) (Inches 0.6) feature (Pt 18) text_color true "Arial" LEFT ;;
     ret tt) ;;
   ret tt)%B.

(** DESIGN 4: Modern Asymmetric Editorial, Slide 5: Closing (from line 920). *)
Definition design4_slide5 : B unit :=
  (layout <- slide_layouts_getitem 6 ;;
   slide <- add_slide layout ;;
   bg1 <- add_shape slide RECTANGLE 0 0 SLIDE_WIDTH (Inches 3.75) ;;
   fill_solid bg1 ;;
   fill_fore_color_rgb AVEMO_BLACK bg1 ;;
   line_fill_background bg1 ;;
   bg2 <- add_shape slide RECTANGLE 0 (Inches 3.75) SLIDE_WIDTH (Inches 3.75) ;;
   fill_solid bg2 ;;
   fill_fore_color_rgb AVEMO_ORANGE bg2 ;;
   line_fill_background bg2 ;;
   add_text_box slide (Inches 0.8) (Inches 1.2) (Inches 10) (Inches 1) "Bereit für die" (Pt 36) AVEMO_WHITE false "Arial" LEFT ;;
   add_text_box slide (Inches 0.8) (Inches 2.1) (Inches 10) (Inches 1) "Zukunft?" (Pt 72) AVEMO_WHITE true "Arial" LEFT ;;
   add_text_box slide (Inches 0.8) (Inches 4.5) (Inches 10) (Inches 1) "Gemeinsam gestalten wir die digitale Transformation Ihrer Fahrzeugdisposition." (Pt 18) AVEMO_BLACK false "Arial" LEFT ;;
   ret tt)%B.

(** [create_presentation_4], up to the save (lines 751-943). *)
Definition build_presentation_4 : B unit :=
  (slide_width_set SLIDE_WIDTH ;;
   slide_height_set SLIDE_HEIGHT ;;
   design4_slide1 ;;
   design4_slide2 ;;
   design4_slide3 ;;
   design4_slide4 ;;
   design4_slide5)%B.

(** DESIGN 5: Data-Driven Dashboard Style, Slide 1: Title (from line 959). *)
Definition design5_slide1 : B unit :=
  (layout <- slide_layouts_getitem 6 ;;
   slide <- add_slide layout ;;
   bg <- add_shape slide RECTANGLE 0 0 SLIDE_WIDTH SLIDE_HEIGHT ;;
   fill_solid bg ;;
   c <- lift (RGBColor 0x0A 0x0E 0x17) ;;
   fill_fore_color_rgb c bg ;;
   line_fill_background bg ;;
   for_ (range 15) (fun i =>
     let x := Inches (float_of_int i * 0.9) in
     line <- add_shape slide RECTANGLE x 0 (Inches 0.01) SLIDE_HEIGHT ;;
     fill_solid line ;;
     c <- lift (RGBColor 0x1A 0x1F 0x2E) ;;
     fill_fore_color_rgb c line ;;
     line_fill_background line ;;
     set_opacity line "50000" ;;
     ret tt) ;;
   card <- add_shape slide ROUNDED_RECTANGLE (Inches 1) (Inches 1.5) (Inches 11) (Inches 4.5) ;;
   fill_solid card ;;
   c <- lift (RGBColor 0x11 0x18 0x27) ;;
   fill_fore_color_rgb c card ;;
   c <- lift (RGBColor 0xFF 0x79 0x32) ;;
   line_color_rgb c card ;;
   line_width (Pt 2) card ;;
   set_opacity card "80000" ;;
   bar <- add_shape slide RECTANGLE (Inches 1) (Inches 1.5) (Inches 0.2) (Inches 4.5) ;;
   fill_solid bar ;;
   fill_fore_color_rgb AVEMO_ORANGE bar ;;
   line_fill_background bar ;;
   add_text_box slide (Inches 1.5) (Inches 1.8) (Inches 10) (Inches 1.2) "Fahrersoftware" (Pt 64) AVEMO_WHITE true "Arial" LEFT ;;
   c <- lift (RGBColor 0x8A 0x9A 0xB0) ;;
   add_text_box slide (Inches 1.5) (Inches 3.2) (Inches 10) (Inches 0.6) "Die Zukunft der Fahrzeugdisposition" (Pt 24) c false "Arial" LEFT ;;
   add_text_box slide (Inches 1.5) (Inches 4.2) (Inches 10) (Inches 0.6) "Eine Software für alle Standorte" (Pt 20) AVEMO_ORANGE true "Arial" LEFT ;;
   let stats :=
     [ ("260K€", "Einsparung");
       ("30", "Tage gespart");
       ("2.5h", "Weniger Leerlauf") ] in
   for_ (enumerate stats) (fun '(i, (num, label)) =>
     let x := Inches (1.5 + (float_of_int i * 3.5)) in
     add_text_box slide x (Inches 6.2) (Inches 3) (Inches 0.6) num (Pt 32) AVEMO_ORANGE true "Arial" LEFT ;;
     c <- lift (RGBColor 0x8A 0x9A 0xB0) ;;
     add_text_box slide x (Inches 6.8) (Inches 3) (Inches 0.4) label (Pt 12) c false "Arial" LEFT ;;
     ret tt) ;;
   ret tt)%B.

(** DESIGN 5: Data-Driven Dashboard Style, Slide 2: Problem (from line 1021). *)
Definition design5_slide2 : B unit :=
  (layout <- slide_layouts_getitem 6 ;;
   slide <- add_slide layout ;;
   bg <- add_shape slide RECTANGLE 0 0 SLIDE_WIDTH SLIDE_HEIGHT ;;
   fill_solid bg ;;
   c <- lift (RGBColor 0x0A 0x0E 0x17) ;;
   fill_fore_color_rgb c bg ;;
   line_fill_background bg ;;
   header <- add_shape slide RECTANGLE 0 0 SLIDE_WIDTH (Inches 1.2) ;;
   fill_solid header ;;
   c <- lift (RGBColor 0x11 0x18 0x27) ;;
   fill_fore_color_rgb c header ;;
   line_fill_background header ;;
   add_text_box slide (Inches 0.8) (Inches 0.35) (Inches 10) (Inches 0.6) "SYSTEM STATUS: PROBLEME ERKANNT" (Pt 18) AVEMO_ORANGE true "Arial" LEFT ;;
   let problems :=
     [ ("Standorte", "5", "Isoliert", "CRITICAL");
       ("Prozesse", "100%", "Manuell", "WARNING");
       ("Leerlauf", "2.5h", "Pro Tag", "WARNING");
       ("Wartezeit", "30", "Tage", "CRITICAL") ] in
   for_ (enumerate problems) (fun '(i, (title, value, unit, status)) =>
     let row := i / 2 in
     let col := i mod 2 in
     let x := Inches (0.8 + float_of_int (col * 6)) in
     let y := Inches (1.6 + (float_of_int row * 2.8)) in
     card <- add_shape slide ROUNDED_RECTANGLE x y (Inches 5.5) (Inches 2.4) ;;
     fill_solid card ;;
     c <- lift (RGBColor 0x11 0x18 0x27) ;;
     fill_fore_color_rgb c card ;;
     c <- (if String.eqb status "CRITICAL" then lift (RGBColor 0xFF 0x79 0x32) else lift (RGBColor 0x33 0x44 0x66)) ;;
     line_color_rgb c card ;;
     line_width (Pt 1.5) card ;;
     c <- lift (RGBColor 0x8A 0x9A 0xB0) ;;
     add_text_box slide (x + Inches 0.3) (y + Inches 0.2) (Inches 3) (Inches 0.4) title (Pt 14) c false "Arial" LEFT ;;
     add_text_box slide (x + Inches 0.3) (y + Inches 0.7) (Inches 3) (Inches 0.8) value (Pt 48) AVEMO_WHITE true "Arial" LEFT ;;
     c <- lift (RGBColor 0x8A 0x9A 0xB0) ;;
     add_text_box slide (x + Inches 0.3) (y + Inches 1.5) (Inches 3) (Inches 0.4) unit (Pt 14) c false "Arial" LEFT ;;
     status_color <- (if String.eqb status "CRITICAL" then ret AVEMO_ORANGE else lift (RGBColor 0xFF 0xC1 0x07)) ;;
     indicator <- add_shape slide OVAL (x + Inches 4.5) (y + Inches 0.3) (Inches 0.5) (Inches 0.5) ;;
     fill_solid indicator ;;
     fill_fore_color_rgb status_color indicator ;;
     line_fill_background indicator ;;
     add_text_box slide (x + Inches 4.2) (y + Inches 0.9) (Inches 1) (Inches 0.4) status (Pt 10) status_color true "Arial" LEFT ;;
     ret tt) ;;
   ret tt)%B.

(** DESIGN 5: Data-Driven Dashboard Style, Slide 3: Solution (from line 1077). *)
Definition design5_slide3 : B unit :=
  (layout <- slide_layouts_getitem 6 ;;
   slide <- add_slide layout ;;
   bg <- add_shape slide RECTANGLE 0 0 SLIDE_WIDTH SLIDE_HEIGHT ;;
   fill_solid bg ;;
   c <- lift (RGBColor 0x0A 0x0E 0x17) ;;
   fill_fore_color_rgb c bg ;;
   line_fill_background bg ;;
   header <- add_shape slide RECTANGLE 0 0 SLIDE_WIDTH (Inches 1.2) ;;
   fill_solid header ;;
   c <- lift (RGBColor 0x11 0x18 0x27) ;;
   fill_fore_color_rgb c header ;;
   line_fill_background header ;;
   add_text_box slide (Inches 0.8) (Inches 0.35) (Inches 10) (Inches 0.6) "SYSTEM UPGRADE: LÖSUNG BEREIT" (Pt 18) AVEMO_ORANGE true "Arial" LEFT ;;
   main_card <- add_shape slide ROUNDED_RECTANGLE (Inches 0.8) (Inches 1.6) (Inches 7) (Inches 5.4) ;;
   fill_solid main_card ;;
   c <- lift (RGBColor 0x11 0x18 0x27) ;;
   fill_fore_color_rgb c main_card ;;
   line_color_rgb AVEMO_ORANGE main_card ;;
   line_width (Pt 2) main_card ;;
   add_text_box slide (Inches 1.1) (Inches 1.9) (Inches 6) (Inches 0.8) "Eine Software für alle Standorte" (Pt 28) AVEMO_WHITE true "Arial" LEFT ;;
   let benefits :=
     [ ("Synergien", "Vernetzung aller Standorte");
       ("Effizienz", "Optimale Nutzung");
       ("Automatisierung", "Weniger manuelle Arbeit");
       ("Einsparung", "260.000 € jährlich") ] in
   for_ (enumerate benefits) (fun '(i, (title, desc)) =>
     let y := Inches (3 + (float_of_int i * 0.9)) in
     check <- add_shape slide OVAL (Inches 1.1) (y + Inches 0.05) (Inches 0.3) (Inches 0.3) ;;
     fill_solid check ;;
     fill_fore_color_rgb AVEMO_ORANGE check ;;
     line_fill_background check ;;
     add_text_box slide (Inches 1.6) y (Inches 2) (Inches 0.4) title (Pt 16) AVEMO_ORANGE true "Arial" LEFT ;;
     c <- lift (RGBColor 0x8A 0x9A 0xB0) ;;
     add_text_box slide (Inches 3.2) y (Inches 4) (Inches 0.4) desc (Pt 14) c false "Arial" LEFT ;;
     ret tt) ;;
   panel <- add_shape slide ROUNDED_RECTANGLE (Inches 8) (Inches 1.6) (Inches 4.5) (Inches 5.4) ;;
   fill_solid panel ;;
   c <- lift (RGBColor 0x11 0x18 0x27) ;;
   fill_fore_color_rgb c panel ;;
   line_fill_background panel ;;
   add_text_box slide (Inches 8.3) (Inches 1.9) (Inches 4) (Inches 0.5) "PROJEKTIERTE METRIKEN" (Pt 12) AVEMO_ORANGE true "Arial" LEFT ;;
   let metrics :=
     [ ("ROI", "< 12 Monate");
       ("Effizienz", "+ 40%");
       ("Transparenz", "100%");
       ("Standorte", "Verbindung") ] in
   for_ (enumerate metrics) (fun '(i, (label, value)) =>
     let y := Inches (2.6 + (float_of_int i * 1.1)) in
     c <- lift (RGBColor 0x8A 0x9A 0xB0) ;;
     add_text_box slide (Inches 8.3) y (Inches 2) (Inches 0.4) label (Pt 14) c false "Arial" LEFT ;;
     add_text_box slide (Inches 8.3) (y + Inches 0.4) (Inches 4) (Inches 0.5) value (Pt 24) AVEMO_WHITE true "Arial" LEFT ;;
     ret tt) ;;
   ret tt)%B.

(** DESIGN 5: Data-Driven Dashboard Style, Slide 4: MVP (from line 1146). *)
Definition design5_slide4 : B unit :=
  (layout <- slide_layouts_getitem 6 ;;
   slide <- add_slide layout ;;
   bg <- add_shape slide RECTANGLE 0 0 SLIDE_WIDTH SLIDE_HEIGHT ;;
   fill_solid bg ;;
   c <- lift (RGBColor 0x0A 0x0E 0x17) ;;
   fill_fore_color_rgb c bg ;;
   line_fill_background bg ;;
   header <- add_shape slide RECTANGLE 0 0 SLIDE_WIDTH (Inches 1.2) ;;
   fill_solid header ;;
   c <- lift (RGBColor 0x11 0x18 0x27) ;;
   fill_fore_color_rgb c header ;;
   line_fill_background header ;;
   add_text_box slide (Inches 0.8) (Inches 0.35) (Inches 10) (Inches 0.6) "MODULE: MINIMUM VIABLE PRODUCT" (Pt 18) AVEMO_ORANGE true "Arial" LEFT ;;
   let features :=
     [ ("ALGORITHM", "Planungs-Engine");
       ("MOBILE", "Driver App");
       ("WEB", "Backoffice");
       ("INTEGRATION", "Externe APIs");
       ("MONITOR", "Live-Dashboard");
       ("ANALYTICS", "Reporting") ] in
   for_ (enumerate features) (fun '(i, (code, name)) =>
     let col := i mod 3 in
     let row := i / 3 in
     let x := Inches (0.8 + (float_of_int col * 4.1)) in
     let y := Inches (1.6 + (float_of_int row * 2.8)) in
     card <- add_shape slide ROUNDED_RECTANGLE x y (Inches 3.8) (Inches 2.4) ;;
     fill_solid card ;;
     c <- lift (RGBColor 0x11 0x18 0x27) ;;
     fill_fore_color_rgb c card ;;
     c <- lift (RGBColor 0x33 0x44 0x66) ;;
     line_color_rgb c card ;;
     line_width (Pt 1) card ;;
     add_text_box slide (x + Inches 0.2) (y + Inches 0.2) (Inches 3.4) (Inches 0.35) code (Pt 11) AVEMO_ORANGE true "Arial" LEFT ;;
     add_text_box slide (x + Inches 0.2) (y + Inches 0.8) (Inches 3.4) (Inches 0.8) name (Pt 22) AVEMO_WHITE true "Arial" LEFT ;;
     c <- lift (RGBColor 0x8A 0x9A 0xB0) ;;
     add_text_box slide (x + Inches 3) (y + Inches 1.9) (Inches 0.6) (Inches 0.4) ("M0" ++ str (i + 1)) (Pt 10) c false "Arial" LEFT ;;
     ret tt) ;;
   ret tt)%B.

(** DESIGN 5: Data-Driven Dashboard Style, Slide 5: Closing (from line 1195). *)
Definition design5_slide5 : B unit :=
  (layout <- slide_layouts_getitem 6 ;;
   slide <- add_slide layout ;;
   bg <- add_shape slide RECTANGLE 0 0 SLIDE_WIDTH SLIDE_HEIGHT ;;
   fill_solid bg ;;
   c <- lift (RGBColor 0x0A 0x0E 0x17) ;;
   fill_fore_color_rgb c bg ;;
   line_fill_background bg ;;
   card <- add_shape slide ROUNDED_RECTANGLE (Inches 2) (Inches 1.5) (Inches 9.3) (Inches 4.5) ;;
   fill_solid card ;;
   c <- lift (RGBColor 0x11 0x18 0x27) ;;
   fill_fore_color_rgb c card ;;
   line_color_rgb AVEMO_ORANGE card ;;
   line_width (Pt 3) card ;;
   for_ [0.02%float; 0.04%float] (fun offset =>
     border <- add_shape slide ROUNDED_RECTANGLE (Inches (2 - offset)) (Inches (1.5 - offset)) (Inches (9.3 + (offset * 2))) (Inches (4.5 + (offset * 2))) ;;
     fill_background border ;;
     line_color_rgb AVEMO_ORANGE border ;;
     line_width (Pt 1) border ;;
     (* spPr = border._element.spPr: a read, nothing follows it *)
     ret tt) ;;
   add_text_box slide (Inches 2.5) (Inches 2.2) (Inches 8) (Inches 1) "SYSTEM READY" (Pt 18) AVEMO_ORANGE true "Arial" LEFT ;;
   add_text_box slide (Inches 2.5) (Inches 3) (Inches 8) (Inches 1) "Bereit für die Zukunft?" (Pt 44) AVEMO_WHITE true "Arial" LEFT ;;
   c <- lift (RGBColor 0x8A 0x9A 0xB0) ;;
   add_text_box slide (Inches 2.5) (Inches 4.2) (Inches 8) (Inches 0.8) "Gemeinsam transformieren wir Ihre Fahrzeugdisposition." (Pt 16) c false "Arial" LEFT ;;
   ret tt)%B.

(** [create_presentation_5], up to the save (lines 946-1229). *)
Definition build_presentation_5 : B unit :=
  (slide_width_set SLIDE_WIDTH ;;
   slide_height_set SLIDE_HEIGHT ;;
   design5_slide1 ;;
   design5_slide2 ;;
   design5_slide3 ;;
   design5_slide4 ;;
   design5_slide5)%B.


(* ================================================================== *)
(** ** The outside world: saving and printing *)

(** [save_fault] is the environment's answer to a write at a path: [None]
    when it goes through; otherwise the exception the library raises, and
    whether the file had been opened for writing by then.  [written] are
    the complete files written, [truncated] the paths at which a failed
    write left a truncated file, [stdout] the lines printed. *)
Record world : Type := mk_world {
  save_fault : string -> option (exn * bool);
  written : list (string * presentation);
  truncated : list string;
  stdout : list string
}.

Definition IO (A : Type) : Type := world -> (exn + A) * world.

Definition ret_io {A} (x : A) : IO A := fun w => (inr x, w).

Definition bind_io {A C} (m : IO A) (k : A -> IO C) : IO C :=
  fun w => match m w with
           | (inl e, w') => (inl e, w')
           | (inr x, w') => k x w'
           end.

Declare Scope io_scope.
Delimit Scope io_scope with IO.
Notation "x <- m ;; k" := (bind_io m (fun x => k))
  (at level 100, m at next level, right associativity) : io_scope.
Notation "m ;; k" := (bind_io m (fun _ => k))
  (at level 100, right associativity) : io_scope.

(** [print(s)]. *)
Definition print (s : string) : IO unit :=
  fun w => (inr tt, {| save_fault := save_fault w; written := written w;
                       truncated := truncated w; stdout := stdout w ++ [s] |}).

(** [prs.save(path)]: the library opens the file for writing, then writes
    the package into it.  When the open fails nothing is touched; when a
    later write fails, what was written so far stays at the path. *)
Definition save (prs : presentation) (path : string) : IO unit :=
  fun w => match save_fault w path with
           | Some (e, opened) =>
               (inl e, {| save_fault := save_fault w;
                          written := written w;
                          truncated := truncated w ++ (if opened then [path] else []);
                          stdout := stdout w |})
           | None => (inr tt, {| save_fault := save_fault w;
                                 written := written w ++ [(path, prs)];
                                 truncated := truncated w;
                                 stdout := stdout w |})
           end.

(** [prs = Presentation()] followed by the builder statements: the object
    is local, so an exception inside the builder leaves the world as it was. *)
Definition construct (build : B unit) : IO presentation :=
  fun w => match build Presentation with
           | inl e => (inl e, w)
           | inr (_, prs) => (inr prs, w)
           end.

(** The common frame of the five functions: build, save, acknowledge. *)
Definition build_and_save (build : B unit) (path ack : string) : IO unit :=
  (prs <- construct build ;;
   save prs path ;;
   print ack)%IO.

Definition create_presentation_1 : IO unit :=
  build_and_save build_presentation_1
    "/root/fahrerplanung/presentations/design-1-cinematic-dark.pptx"
    "Created: design-1-cinematic-dark.pptx".

Definition create_presentation_2 : IO unit :=
  build_and_save build_presentation_2
    "/root/fahrerplanung/presentations/design-2-minimal-glass.pptx"
    "Created: design-2-minimal-glass.pptx".

Definition create_presentation_3 : IO unit :=
  build_and_save build_presentation_3
    "/root/fahrerplanung/presentations/design-3-bold-editorial.pptx"
    "Created: design-3-bold-editorial.pptx".

Definition create_presentation_4 : IO unit :=
  build_and_save build_presentation_4
    "/root/fahrerplanung/presentations/design-4-asymmetric-modern.pptx"
    "Created: design-4-asymmetric-modern.pptx".

Definition create_presentation_5 : IO unit :=
  build_and_save build_presentation_5
    "/root/fahrerplanung/presentations/design-5-dashboard-tech.pptx"
    "Created: design-5-dashboard-tech.pptx".

(** The [__main__] block (lines 1232-1241). *)
Definition main : IO unit :=
  (print "Creating 5 sophisticated AVEMO presentations..." ;;
   print (str_repeat "=" 60) ;;
   create_presentation_1 ;;
   create_presentation_2 ;;
   create_presentation_3 ;;
   create_presentation_4 ;;
   create_presentation_5 ;;
   print (str_repeat "=" 60) ;;
   print "All presentations created successfully!")%IO.

(* ================================================================== *)
(** ** Observations used in the statements *)

(** A builder step raises in a given state. *)
Definition raises {A} (m : B A) (s : presentation) : Prop :=
  exists e, m s = inl e.

(** The presentation a builder leaves behind when started on the default
    template. *)
Definition built (build : B unit) : option presentation :=
  match build Presentation with
  | inr (_, prs) => Some prs
  | inl _ => None
  end.

(** A shape has a solid fill carrying an sRGB colour node. *)
Definition has_srgb_fill (sh : shape) : bool :=
  match etree.find (spPr sh) (qn NS_a "solidFill") with
  | Some solidFill => bool_decide (is_Some (etree.find solidFill (qn NS_a "srgbClr")))
  | None => false
  end.

(** A blank slide holding one orange rectangle made by
    [add_shape_with_opacity]; its reference is [(0, 0)]. *)
Definition one_card : B shape_handle :=
  (layout <- slide_layouts_getitem 6 ;;
   slide <- add_slide layout ;;
   add_shape_with_opacity slide ROUNDED_RECTANGLE (Inches 1) (Inches 1) (Inches 4) (Inches 2)
     AVEMO_ORANGE 1 None)%B.

Definition one_card_state : presentation :=
  match one_card Presentation with
  | inr (_, s) => s
  | inl _ => Presentation
  end.

(** A builder step that returns normally whatever the state. *)
Definition returns {A} (m : B A) : Prop :=
  forall s, exists x s', m s = inr (x, s').

(** The canvas dimensions, and builder steps that leave them alone,
    whatever they were. *)
Definition canvas (s : presentation) : Z * Z := (slide_width s, slide_height s).

Definition keeps_canvas {A} (m : B A) : Prop :=
  forall s, match m s with
            | inr (_, s') => canvas s' = canvas s
            | inl _ => True
            end.

(** The slide builders of the five designs, design by design. *)
Definition slide_builders : list (list (B unit)) :=
  [ [design1_slide1; design1_slide2; design1_slide3; design1_slide4; design1_slide5];
    [design2_slide1; design2_slide2; design2_slide3; design2_slide4; design2_slide5];
    [design3_slide1; design3_slide2; design3_slide3; design3_slide4; design3_slide5];
    [design4_slide1; design4_slide2; design4_slide3; design4_slide4; design4_slide5];
    [design5_slide1; design5_slide2; design5_slide3; design5_slide4; design5_slide5] ].

Definition deck_builders : list (B unit) :=
  [ build_presentation_1; build_presentation_2; build_presentation_3;
    build_presentation_4; build_presentation_5 ].

(** The deck each design hands to [save], and the five artifacts in the
    order [main] writes them. *)
Definition deck_of (build : B unit) : presentation :=
  default Presentation (built build).

Definition artifacts : list (string * presentation) :=
  [ ("/root/fahrerplanung/presentations/design-1-cinematic-dark.pptx",
     deck_of build_presentation_1);
    ("/root/fahrerplanung/presentations/design-2-minimal-glass.pptx",
     deck_of build_presentation_2);
    ("/root/fahrerplanung/presentations/design-3-bold-editorial.pptx",
     deck_of build_presentation_3);
    ("/root/fahrerplanung/presentations/design-4-asymmetric-modern.pptx",
     deck_of build_presentation_4);
    ("/root/fahrerplanung/presentations/design-5-dashboard-tech.pptx",
     deck_of build_presentation_5) ].

Definition acknowledgements : list string :=
  [ "Created: design-1-cinematic-dark.pptx";
    "Created: design-2-minimal-glass.pptx";
    "Created: design-3-bold-editorial.pptx";
    "Created: design-4-asymmetric-modern.pptx";
    "Created: design-5-dashboard-tech.pptx" ].

Definition banner : list string :=
  [ "Creating 5 sophisticated AVEMO presentations..."; str_repeat "=" 60 ].

Definition creators : list (IO unit) :=
  [ create_presentation_1; create_presentation_2; create_presentation_3;
    create_presentation_4; create_presentation_5 ].

(** A world in which every write goes through, with nothing written yet. *)
Definition quiet_world : world :=
  {| save_fault := fun _ => None; written := []; truncated := []; stdout := [] |}.

(** A world whose disk fills up while the third artifact is written. *)
Definition third_write_fails : world :=
  {| save_fault := fun path =>
       if String.eqb path "/root/fahrerplanung/presentations/design-3-bold-editorial.pptx"
       then Some (OSError "No space left on device", true)
       else None;
     written := [];
     truncated := [];
     stdout := [] |}.

(** *** Backgrounds *)

Definition bounds (sh : shape) : option (Z * Z * Z * Z) :=
  l ← shape_left sh; t ← shape_top sh; w ← shape_width sh; h ← shape_height sh;
  Some (l, t, w, h).

Definition bounds_are (sh : shape) (l t w h : Z) : bool :=
  match bounds sh with
  | Some (l', t', w', h') => (l' =? l) && (t' =? t) && (w' =? w) && (h' =? h)
  | None => false
  end.

Definition is_full_canvas (sh : shape) : bool :=
  bounds_are sh 0 0 SLIDE_WIDTH SLIDE_HEIGHT.

Definition full_canvas_count (sl : slide) : nat :=
  length (List.filter is_full_canvas (shapes sl)).

(** An opaque, solid-filled rectangle. *)
Definition is_opaque_rectangle (sh : shape) : bool :=
  has_srgb_fill sh
  && match alpha_vals sh with [] => true | _ :: _ => false end
  && match etree.find (spPr sh) (qn NS_a "prstGeom") ≫= (fun g => etree.get g "prst") with
     | Some p => String.eqb p "rect"
     | None => false
     end.

(** Two shapes that cut the canvas in a left and a right part, or in a top
    and a bottom part. *)
Definition tiles_left_right (a b : shape) : bool :=
  match bounds a, bounds b with
  | Some (la, ta, wa, ha), Some (lb, tb, wb, hb) =>
      (la =? 0) && (ta =? 0) && (ha =? SLIDE_HEIGHT)
      && (lb =? wa) && (tb =? 0) && (hb =? SLIDE_HEIGHT) && (wa + wb =? SLIDE_WIDTH)
  | _, _ => false
  end.

Definition tiles_top_bottom (a b : shape) : bool :=
  match bounds a, bounds b with
  | Some (la, ta, wa, ha), Some (lb, tb, wb, hb) =>
      (la =? 0) && (ta =? 0) && (wa =? SLIDE_WIDTH)
      && (lb =? 0) && (tb =? ha) && (wb =? SLIDE_WIDTH) && (ha + hb =? SLIDE_HEIGHT)
  | _, _ => false
  end.

Inductive background : Type :=
| FullCanvas       (* the first element covers the canvas, no other one does *)
| SplitLeftRight   (* the first two elements cut it left and right, none covers it *)
| SplitTopBottom.  (* the first two elements cut it top and bottom, none covers it *)

Definition background_of (sl : slide) : option background :=
  match shapes sl with
  | a :: rest =>
      if negb (is_opaque_rectangle a) then None
      else if is_full_canvas a then
        if (full_canvas_count sl =? 1)%nat then Some FullCanvas else None
      else
        match rest with
        | b :: _ =>
            if negb (is_opaque_rectangle b && (full_canvas_count sl =? 0)%nat) then None
            else if tiles_left_right a b then Some SplitLeftRight
            else if tiles_top_bottom a b then Some SplitTopBottom
            else None
        | [] => None
        end
  | [] => None
  end.

(* ================================================================== *)
(** ** Further observations *)

(** The presentation after one shape was appended to the slide [x] found
    at [sl]: nothing else differs. *)
Definition appended (s : presentation) (sl : slide_handle) (x : slide) (sh : shape)
  : presentation :=
  with_slides s (<[sl := mk_slide (shapes x ++ [sh])]> (slides s)).

(** The fill colour of a shape, and its outline: colour, width, absence. *)
Definition fill_color_val (sh : shape) : option string :=
  solidFill ← etree.find (spPr sh) (qn NS_a "solidFill");
  srgbClr ← etree.find solidFill (qn NS_a "srgbClr");
  etree.get srgbClr "val".

Definition line_color_val (sh : shape) : option string :=
  ln ← etree.find (spPr sh) (qn NS_a "ln");
  solidFill ← etree.find ln (qn NS_a "solidFill");
  srgbClr ← etree.find solidFill (qn NS_a "srgbClr");
  etree.get srgbClr "val".

Definition line_width_val (sh : shape) : option Z :=
  ln ← etree.find (spPr sh) (qn NS_a "ln");
  w ← etree.get ln "w";
  int_of_str w.

Definition line_is_background (sh : shape) : bool :=
  match etree.find (spPr sh) (qn NS_a "ln") with
  | Some ln => bool_decide (is_Some (etree.find ln (qn NS_a "noFill")))
               && bool_decide (etree.find ln (qn NS_a "solidFill") = None)
  | None => false
  end.

(** A shape with the alpha children of its fill colour node taken away:
    what is left is everything the transparency snippet cannot reach. *)
Definition without_alpha (sh : shape) : shape :=
  with_spPr sh
    (etree.update (qn NS_a "solidFill")
       (etree.update (qn NS_a "srgbClr") (etree.remove_all [qn NS_a "alpha"]))
       (spPr sh)).

(** Printable ASCII text: the library stores it and hands it back as it
    is. *)
Definition printable_char (a : ascii) : bool :=
  let n := nat_of_ascii a in ((32 <=? n) && (n <=? 126))%nat.

Fixpoint printable (t : string) : bool :=
  match t with
  | EmptyString => true
  | String a t' => printable_char a && printable t'
  end.

(** How many shapes each slide holds. *)
Definition shape_counts (s : presentation) : list nat :=
  map (fun sl => length (shapes sl)) (slides s).

(** The last two lines [main] prints. *)
Definition trailer : list string :=
  [ str_repeat "=" 60; "All presentations created successfully!" ].

(** The alpha discipline of a built deck: no shape carries more than one
    alpha child; a shape that carries one is an auto shape with a solid sRGB
    fill, never a text box; and its value is a whole number of thousandths
    of a percent between 0 and 100000. *)
Definition alpha_val_ok (v : option string) : bool :=
  match v ≫= int_of_str with
  | Some n => (0 <=? n) && (n <=? 100000)
  | None => false
  end.

Definition shape_alpha_ok (sh : shape) : bool :=
  match alpha_vals sh with
  | [] => true
  | [v] => alpha_val_ok v && has_srgb_fill sh && bool_decide (txBody sh = None)
  | _ :: _ :: _ => false
  end.

Definition deck_alpha_ok (prs : presentation) : bool :=
  forallb (fun sl => forallb shape_alpha_ok (shapes sl)) (slides prs).

(** How many shapes of a deck carry an alpha child. *)
Definition translucent_count (prs : presentation) : nat :=
  length (List.filter (fun sh => negb (bool_decide (alpha_vals sh = [])))
            (concat (map shapes (slides prs)))).

(* ================================================================== *)
(** ** The slide background

    [add_gradient_background] is the one helper the five designs never
    call.  It formats [slide.background], which lives outside the shape
    tree: the optional [<p:bg>] child of the slide.  That element is its
    whole state here. *)

Definition bgPr_fill_successors : list string :=
  [ qn NS_a "effectLst"; qn NS_a "effectDag"; qn NS_p "extLst" ].

(** The background the library installs when a slide has none of its own
    (or only a reference to the master's): no fill, no effects. *)
Definition noFill_bg : element :=
  Element (qn NS_p "bg") []
    [ Element (qn NS_p "bgPr") []
        [ Element (qn NS_a "noFill") [] []; Element (qn NS_a "effectLst") [] [] ] ].

(** [cSld.get_or_add_bgPr()]. *)
Definition get_or_add_bgPr (bg : option element) : element :=
  match bg with
  | Some b =>
      match etree.find b (qn NS_p "bgPr") with
      | Some _ => b
      | None => noFill_bg
      end
  | None => noFill_bg
  end.

(** [add_gradient_background] (lines 27-33); [direction] has the default
    ["vertical"].  Returns the slide's new [<p:bg>]. *)
Definition add_gradient_background (background : option element)
    (color1 color2 : rgb_color) (direction : string) : exn + element :=
  let bg := get_or_add_bgPr background in
  (* fill.solid() *)
  let bg := etree.update (qn NS_p "bgPr")
              (get_or_change_to "solidFill" bgPr_fill_successors) bg in
  (* fill.fore_color.rgb = color1 *)
  match etree.find bg (qn NS_p "bgPr") with
  | Some bgPr =>
      match fore_color_rgb_set color1 bgPr with
      | inl e => inl e
      | inr bgPr' => inr (etree.update (qn NS_p "bgPr") (fun _ => bgPr') bg)
      end
  | None => inr bg
  end.

(** The colour of a background. *)
Definition background_color (bg : element) : option string :=
  bgPr ← etree.find bg (qn NS_p "bgPr");
  solidFill ← etree.find bgPr (qn NS_a "solidFill");
  srgbClr ← etree.find solidFill (qn NS_a "srgbClr");
  etree.get srgbClr "val".

(* ================================================================== *)
(** ** Slides are built one after the other

    [grows n k m post]: run in a presentation that has at least [n] slides,
    the builder [m] leaves the first [n] slides as they are, adds [k] slides
    at the end, and returns a value satisfying [post]. *)
Definition grows {A} (n k : nat) (m : B A) (post : A -> Prop) : Prop :=
  forall s, (n <= length (slides s))%nat ->
    match m s with
    | inr (x, s') =>
        take n (slides s') = take n (slides s) /\
        length (slides s') = (k + length (slides s))%nat /\
        post x
    | inl _ => True
    end.
(* ================================================================== *)
(** ** Integers and their decimal text *)

Lemma to_int_not_nil (n : Z) : Z.to_int n <> Decimal.Pos Nil /\ Z.to_int n <> Decimal.Neg Nil.
Proof.
  destruct n as [|p|p]; cbn; split; try discriminate;
    intros H; injection H as H; exact (Unsigned.to_uint_nonnil p H).
Qed.

Lemma int_of_str_str (n : Z) : int_of_str (str n) = Some n.
Proof.
  unfold int_of_str, str.
  destruct (to_int_not_nil n) as [Hp Hn].
  rewrite (NilZero.isi _ Hp Hn). cbn. f_equal. apply DecimalZ.of_to.
Qed.

(* ================================================================== *)
(** ** Element trees *)

Lemma tag_append c e : etree.tag (etree.append c e) = etree.tag e.
Proof. reflexivity. Qed.

Lemma tag_update t f e : etree.tag (etree.update t f e) = etree.tag e.
Proof. reflexivity. Qed.

Lemma find_alter_first t f cs :
  (forall c, etree.has_tag t c = true -> etree.has_tag t (f c) = true) ->
  List.find (etree.has_tag t) (etree.alter_first t f cs) = f <$> List.find (etree.has_tag t) cs.
Proof.
  intros Hf. induction cs as [|c cs IH]; cbn; [reflexivity|].
  destruct (etree.has_tag t c) eqn:Hc; cbn.
  - now rewrite (Hf c Hc).
  - now rewrite Hc.
Qed.

Lemma find_update t f e :
  (forall c, etree.tag (f c) = etree.tag c) ->
  etree.find (etree.update t f e) t = f <$> etree.find e t.
Proof.
  intros Hf. destruct e as [tg at_ cs]. unfold etree.find, etree.update. cbn.
  apply find_alter_first. intros c. unfold etree.has_tag. now rewrite Hf.
Qed.

Lemma alter_first_absent t f cs :
  List.find (etree.has_tag t) cs = None -> etree.alter_first t f cs = cs.
Proof.
  induction cs as [|c cs IH]; cbn; [reflexivity|].
  destruct (etree.has_tag t c); [discriminate|]. intros H. now rewrite IH.
Qed.

Lemma update_absent t f e : etree.find e t = None -> etree.update t f e = e.
Proof.
  destruct e as [tg at_ cs]. unfold etree.find, etree.update. cbn.
  intros H. now rewrite alter_first_absent.
Qed.

(** The snippet seen from the colour node: with a solid sRGB fill the node
    gains the alpha child at its end. *)
Lemma append_alpha_found val e solidFill srgbClr :
  etree.find e (qn NS_a "solidFill") = Some solidFill ->
  etree.find solidFill (qn NS_a "srgbClr") = Some srgbClr ->
  exists solidFill',
    etree.find (append_alpha val e) (qn NS_a "solidFill") = Some solidFill' /\
    etree.find solidFill' (qn NS_a "srgbClr") = Some (etree.append (parse_alpha val) srgbClr).
Proof.
  intros H1 H2. unfold append_alpha. rewrite H1, H2.
  eexists. split.
  - rewrite find_update by (intros; apply tag_update). rewrite H1. reflexivity.
  - rewrite find_update by (intros; apply tag_append). now rewrite H2.
Qed.

Lemma append_alpha_absent val e :
  etree.find e (qn NS_a "solidFill") = None -> append_alpha val e = e.
Proof. intros H. unfold append_alpha. now rewrite H. Qed.

Lemma alpha_children_append_alpha val sh :
  has_srgb_fill sh = true ->
  has_srgb_fill (with_spPr sh (append_alpha val (spPr sh))) = true /\
  alpha_children (with_spPr sh (append_alpha val (spPr sh)))
  = (alpha_children sh ++ [parse_alpha val])%list.
Proof.
  unfold has_srgb_fill, alpha_children. cbn [spPr with_spPr].
  destruct (etree.find (spPr sh) (qn NS_a "solidFill")) as [sf|] eqn:H1; [|discriminate].
  destruct (etree.find sf (qn NS_a "srgbClr")) as [clr|] eqn:H2;
    [|intros H; apply bool_decide_eq_true in H; destruct H; discriminate].
  intros _.
  destruct (append_alpha_found val _ _ _ H1 H2) as (sf' & E1 & E2).
  rewrite E1, E2. split.
  - apply bool_decide_eq_true. eauto.
  - destruct clr as [tg at_ cs]. cbn. rewrite List.filter_app. reflexivity.
Qed.

(* ================================================================== *)
(** ** References into the presentation *)

Lemma lookup_shape_Some h s sh :
  lookup_shape h s = Some sh <->
  exists sl, slides s !! fst h = Some sl /\ shapes sl !! snd h = Some sh.
Proof.
  unfold lookup_shape. destruct (slides s !! fst h) as [sl|]; cbn.
  - split; [eauto | intros (? & [= <-] & ?); assumption].
  - split; [discriminate | intros (? & [=] & _)].
Qed.

Lemma lookup_store_same h sh sh' s :
  lookup_shape h s = Some sh -> lookup_shape h (store_shape h sh' s) = Some sh'.
Proof.
  intros (sl & Hsl & Hsh)%lookup_shape_Some. apply lookup_shape_Some.
  unfold store_shape. cbn [slides with_slides].
  exists (mk_slide (<[snd h := sh']> (shapes sl))). split.
  - rewrite list_lookup_alter_eq, Hsl. reflexivity.
  - cbn. apply list_lookup_insert_eq. eapply lookup_lt_Some, Hsh.
Qed.

Lemma store_same h sh s : lookup_shape h s = Some sh -> store_shape h sh s = s.
Proof.
  intros (sl & Hsl & Hsh)%lookup_shape_Some.
  unfold store_shape, with_slides. destruct s as [w hgt lays sls]. cbn in *. f_equal.
  apply list_eq. intros i. rewrite list_lookup_alter.
  destruct (decide (fst h = i)) as [<-|]; [|reflexivity].
  rewrite Hsl. cbn. f_equal. destruct sl as [shs]. cbn in *. f_equal.
  now apply list_insert_id.
Qed.

Lemma mutate_shape_Some f h s sh sh' :
  lookup_shape h s = Some sh -> f sh = inr sh' ->
  mutate_shape f h s = inr (tt, store_shape h sh' s).
Proof. intros H1 H2. unfold mutate_shape. now rewrite H1, H2. Qed.

Lemma mutate_shape_None f h s :
  lookup_shape h s = None -> mutate_shape f h s = inr (tt, s).
Proof. intros H. unfold mutate_shape. now rewrite H. Qed.

Lemma set_opacity_Some h val s sh :
  lookup_shape h s = Some sh ->
  set_opacity h val s
  = inr (tt, store_shape h (with_spPr sh (append_alpha val (spPr sh))) s).
Proof. intros H. unfold set_opacity, mutate_spPr. now apply (mutate_shape_Some _ h s sh). Qed.

Lemma bind_mutate_shape {C} f h (k : unit -> B C) s sh sh' :
  lookup_shape h s = Some sh -> f sh = inr sh' ->
  bind (mutate_shape f h) k s = k tt (store_shape h sh' s).
Proof. intros H1 H2. unfold bind. now rewrite (mutate_shape_Some f h s sh sh' H1 H2). Qed.

Lemma bind_mutate_shape_None {C} f h (k : unit -> B C) s :
  lookup_shape h s = None -> bind (mutate_shape f h) k s = k tt s.
Proof. intros H. unfold bind. now rewrite (mutate_shape_None f h s H). Qed.

Lemma with_slides_id s : with_slides s (slides s) = s.
Proof. now destruct s. Qed.

Lemma add_sp_Some sl sh s x :
  slides s !! sl = Some x ->
  exists s', add_sp sl sh s = inr ((sl, length (shapes x)), s') /\
             lookup_shape (sl, length (shapes x)) s' = Some sh.
Proof.
  intros Hx. eexists. split.
  - unfold add_sp. rewrite Hx. reflexivity.
  - apply lookup_shape_Some. cbn [fst snd slides with_slides].
    exists (mk_slide (shapes x ++ [sh])). split.
    + rewrite list_lookup_alter_eq, Hx. reflexivity.
    + cbn. rewrite lookup_app_r by reflexivity. now rewrite Nat.sub_diag.
Qed.

Lemma add_sp_None sl sh s :
  slides s !! sl = None ->
  add_sp sl sh s = inr ((sl, O), s) /\ lookup_shape (sl, O) s = None.
Proof.
  intros Hx. split.
  - unfold add_sp. rewrite Hx. cbn [from_option].
    replace (alter _ sl (slides s)) with (slides s).
    + now rewrite with_slides_id.
    + apply list_eq. intros i. rewrite list_lookup_alter.
      destruct (decide (sl = i)) as [<-|]; [now rewrite Hx | reflexivity].
  - unfold lookup_shape. cbn [fst snd]. now rewrite Hx.
Qed.

(* ================================================================== *)
(** ** The alpha injector *)

(** One injection into a shape with a solid sRGB fill, and two. *)
Lemma set_opacity_once (s : presentation) (h : shape_handle) (sh : shape) (p : string) :
  lookup_shape h s = Some sh ->
  has_srgb_fill sh = true ->
  exists s' sh',
    set_opacity h p s = inr (tt, s') /\
    lookup_shape h s' = Some sh' /\
    has_srgb_fill sh' = true /\
    alpha_vals sh' = (alpha_vals sh ++ [Some p])%list.
Proof.
  intros Hh Hfill.
  destruct (alpha_children_append_alpha p sh Hfill) as [Hfill1 Hp].
  eexists _, _. split; [apply (set_opacity_Some h p s sh Hh)|].
  split; [eapply lookup_store_same, Hh|]. split; [exact Hfill1|].
  unfold alpha_vals. now rewrite Hp, map_app.
Qed.

Lemma set_opacity_twice (s : presentation) (h : shape_handle) (sh : shape) (p q : string) :
  lookup_shape h s = Some sh ->
  has_srgb_fill sh = true ->
  exists s' sh',
    (set_opacity h p ;; set_opacity h q)%B s = inr (tt, s') /\
    lookup_shape h s' = Some sh' /\
    alpha_vals sh' = (alpha_vals sh ++ [Some p; Some q])%list.
Proof.
  intros Hh Hfill.
  destruct (set_opacity_once s h sh p Hh Hfill) as (s1 & sh1 & E1 & L1 & F1 & A1).
  destruct (set_opacity_once s1 h sh1 q L1 F1) as (s2 & sh2 & E2 & L2 & _ & A2).
  exists s2, sh2. split; [|split; [exact L2|]].
  - unfold bind. now rewrite E1.
  - rewrite A2, A1, <- app_assoc. reflexivity.
Qed.

(** C1, as the code has it: the injector appends.  On a shape with a solid
    sRGB fill, one [set_opacity h p] succeeds and leaves the fill colour
    node with one more alpha child; [set_opacity h p] followed by
    [set_opacity h q] succeeds and leaves it with two more, [p] then [q],
    after whatever alpha children it already had; and injecting the same
    value twice is not injecting it once. *)
Theorem set_opacity_twice_appends (s : presentation) (h : shape_handle) (sh : shape)
    (p q : string) :
  lookup_shape h s = Some sh ->
  has_srgb_fill sh = true ->
  (exists s' sh',
      set_opacity h p s = inr (tt, s') /\
      lookup_shape h s' = Some sh' /\
      alpha_vals sh' = (alpha_vals sh ++ [Some p])%list) /\
  (exists s' sh',
      (set_opacity h p ;; set_opacity h q)%B s = inr (tt, s') /\
      lookup_shape h s' = Some sh' /\
      alpha_vals sh' = (alpha_vals sh ++ [Some p; Some q])%list) /\
  (set_opacity h p ;; set_opacity h p)%B s <> set_opacity h p s.
Proof.
  intros Hh Hfill.
  destruct (set_opacity_once s h sh p Hh Hfill) as (s1 & sh1 & E1 & L1 & F1 & A1).
  destruct (set_opacity_twice s h sh p p Hh Hfill) as (s2 & sh2 & E2 & L2 & A2).
  split; [eauto|]. split; [apply (set_opacity_twice s h sh p q Hh Hfill)|].
  rewrite E1, E2. intros [= <-]. rewrite L1 in L2. injection L2 as <-.
  rewrite A1 in A2. apply (f_equal length) in A2. rewrite !length_app in A2.
  cbn in A2. lia.
Qed.

Lemma set_opacity_twice_appends_witness :
  exists s' sh',
    (set_opacity (0, 0)%nat "30000" ;; set_opacity (0, 0)%nat "70000")%B one_card_state
    = inr (tt, s') /\
    lookup_shape (0, 0)%nat s' = Some sh' /\
    alpha_vals sh' = [Some "30000"; Some "70000"].
Proof.
  refine (match lookup_shape (0, 0)%nat one_card_state as o
                return lookup_shape (0, 0)%nat one_card_state = o -> _ with
          | Some sh => fun E => _
          | None => fun E => _
          end eq_refl).
  - assert (Hv : alpha_vals sh = []).
    { vm_compute in E. injection E as <-. reflexivity. }
    assert (Hf : has_srgb_fill sh = true).
    { vm_compute in E. injection E as <-. reflexivity. }
    destruct (set_opacity_twice_appends one_card_state (0, 0)%nat sh "30000" "70000" E Hf)
      as (_ & (s' & sh' & H1 & H2 & H3) & _).
    rewrite Hv in H3. exists s', sh'. auto.
  - vm_compute in E. discriminate E.
Defined.

(** C1 as the specification words it fails: after two calls with different
    values the colour node holds both alpha children, not the last one alone,
    and two calls with one value are not one call. *)
Lemma set_opacity_overwrite_counterexample :
  (exists s' sh',
      (set_opacity (0, 0)%nat "30000" ;; set_opacity (0, 0)%nat "70000")%B one_card_state
      = inr (tt, s') /\
      lookup_shape (0, 0)%nat s' = Some sh' /\
      alpha_vals sh' = [Some "30000"; Some "70000"] /\
      alpha_vals sh' <> [Some "70000"]) /\
  (set_opacity (0, 0)%nat "70000" ;; set_opacity (0, 0)%nat "70000")%B one_card_state
  <> set_opacity (0, 0)%nat "70000" one_card_state.
Proof.
  split.
  - eexists _, _. split; [vm_compute; reflexivity|].
    split; [vm_compute; reflexivity|].
    split; [vm_compute; reflexivity | vm_compute; discriminate].
  - vm_compute. intros H. discriminate H.
Qed.

(** C4: on a shape whose [<p:spPr>] has no [<a:solidFill>] child (no fill,
    or an outline only) the injector returns normally and leaves the whole
    presentation, hence the shape, as it was; the shape carries no alpha
    child, so it stays fully opaque. *)
Theorem set_opacity_without_solid_fill (s : presentation) (h : shape_handle) (sh : shape)
    (val : string) :
  lookup_shape h s = Some sh ->
  etree.find (spPr sh) (qn NS_a "solidFill") = None ->
  set_opacity h val s = inr (tt, s) /\ alpha_vals sh = [].
Proof.
  intros Hh Hnone. split.
  - rewrite (set_opacity_Some h val s sh Hh), (append_alpha_absent val _ Hnone).
    replace (with_spPr sh (spPr sh)) with sh by (now destruct sh).
    now rewrite (store_same _ _ _ Hh).
  - unfold alpha_vals, alpha_children. now rewrite Hnone.
Qed.

(** The outline-only border of the closing slide of design 5 is such a shape. *)
Lemma set_opacity_without_solid_fill_witness :
  set_opacity (4, 2)%nat "50000" (deck_of build_presentation_5)
  = inr (tt, deck_of build_presentation_5) /\
  (lookup_shape (4, 2)%nat (deck_of build_presentation_5) ≫= fun sh => Some (alpha_vals sh))
  = Some [].
Proof.
  destruct (lookup_shape (4, 2)%nat (deck_of build_presentation_5)) as [sh|] eqn:E.
  - assert (Hnone : etree.find (spPr sh) (qn NS_a "solidFill") = None).
    { vm_compute in E. injection E as <-. vm_compute. reflexivity. }
    destruct (set_opacity_without_solid_fill (deck_of build_presentation_5) (4, 2)%nat sh
                "50000" E Hnone) as [H1 H2].
    split; [exact H1 | cbn; now rewrite H2].
  - vm_compute in E. discriminate E.
Defined.

(* ================================================================== *)
(** ** [add_shape_with_opacity] and [add_text_box] *)

Lemma bind_assoc {A C D} (m : B A) (k1 : A -> B C) (k2 : C -> B D) s :
  bind (bind m k1) k2 s = bind m (fun x => bind (k1 x) k2) s.
Proof. unfold bind. destruct (m s) as [e|[x s']]; reflexivity. Qed.

Lemma bind_ret_r {A} (m : B A) s : bind m ret s = m s.
Proof. unfold bind, ret. destruct (m s) as [e|[x s']]; reflexivity. Qed.

(** One mutation through a live reference, and the reference afterwards. *)
Ltac step_mutation :=
  lazymatch goal with
  | L : lookup_shape ?h ?s = Some ?sh |- context [bind (mutate_shape _ ?h) _ ?s] =>
      erewrite bind_mutate_shape;
        [ | exact L | lazy -[str rgb_str prst font_size_stored paragraph_text]; reflexivity ];
      cbv beta;
      lazymatch goal with
      | |- context [store_shape h ?sh' s] =>
          let L' := fresh "L" in
          pose proof (lookup_store_same h sh sh' s L) as L';
          clear L
      end
  end.

Ltac skip_mutation :=
  lazymatch goal with
  | L : lookup_shape ?h ?s = None |- context [bind (mutate_shape _ ?h) _ ?s] =>
      rewrite (bind_mutate_shape_None _ h _ s L); cbv beta
  end.

(** What [add_shape_with_opacity] leaves on an existing slide: the new
    shape is the last of the slide, it reports the geometry it was given
    and carries no alpha child. *)
Lemma add_shape_with_opacity_on_slide (s : presentation) (sl : slide_handle)
    (k : MSO_SHAPE) (left top width height : Z) (c : rgb_color) (o : float)
    (lc : option rgb_color) (x : slide) :
  slides s !! sl = Some x ->
  exists s' sh,
    add_shape_with_opacity sl k left top width height c o lc s
    = inr ((sl, length (shapes x)), s') /\
    lookup_shape (sl, length (shapes x)) s' = Some sh /\
    shape_left sh = Some left /\ shape_top sh = Some top /\
    shape_width sh = Some width /\ shape_height sh = Some height /\
    has_srgb_fill sh = true /\ alpha_vals sh = [].
Proof.
  intros Hx.
  destruct (add_sp_Some sl (new_autoshape_sp k left top width height) s x Hx)
    as (s1 & E1 & L).
  unfold add_shape_with_opacity, add_shape.
  unfold bind at 1. rewrite E1. clear E1.
  unfold fill_solid, fill_fore_color_rgb, mutate_spPr.
  do 2 step_mutation.
  destruct lc as [c'|].
  - unfold line_color_rgb, line_width. rewrite bind_assoc.
    do 2 step_mutation.
    eexists _, _. split; [reflexivity|]. split; [eassumption|].
    repeat split; cbv -[str int_of_str rgb_str prst font_size_stored paragraph_text]; try apply int_of_str_str; reflexivity.
  - unfold line_fill_background, mutate_spPr.
    step_mutation.
    eexists _, _. split; [reflexivity|]. split; [eassumption|].
    repeat split; cbv -[str int_of_str rgb_str prst font_size_stored paragraph_text]; try apply int_of_str_str; reflexivity.
Qed.

(** On a slide reference that points nowhere nothing is appended and the
    styling steps have nothing to act on. *)
Lemma add_shape_with_opacity_off_slide (s : presentation) (sl : slide_handle)
    (k : MSO_SHAPE) (left top width height : Z) (c : rgb_color) (o : float)
    (lc : option rgb_color) :
  slides s !! sl = None ->
  add_shape_with_opacity sl k left top width height c o lc s = inr ((sl, O), s) /\
  lookup_shape (sl, O) s = None.
Proof.
  intros Hx.
  destruct (add_sp_None sl (new_autoshape_sp k left top width height) s Hx) as [E1 L].
  split; [|exact L].
  unfold add_shape_with_opacity, add_shape.
  unfold bind at 1. rewrite E1.
  unfold fill_solid, fill_fore_color_rgb, mutate_spPr.
  do 2 skip_mutation.
  destruct lc as [c'|].
  - unfold line_color_rgb, line_width. rewrite bind_assoc.
    do 2 skip_mutation. reflexivity.
  - unfold line_fill_background, mutate_spPr. skip_mutation. reflexivity.
Qed.

Lemma add_shape_with_opacity_returns (s : presentation) (sl : slide_handle)
    (k : MSO_SHAPE) (left top width height : Z) (c : rgb_color) (o : float)
    (lc : option rgb_color) :
  exists hd s', add_shape_with_opacity sl k left top width height c o lc s = inr (hd, s').
Proof.
  destruct (slides s !! sl) as [x|] eqn:Hx.
  - destruct (add_shape_with_opacity_on_slide s sl k left top width height c o lc x Hx)
      as (s' & sh & E & _). eauto.
  - destruct (add_shape_with_opacity_off_slide s sl k left top width height c o lc Hx)
      as [E _]. eauto.
Qed.

(** A builder that returns normally from every state. *)
Lemma returns_bind {A C} (m : B A) (k : A -> B C) :
  returns m -> (forall x, returns (k x)) -> returns (bind m k).
Proof.
  intros Hm Hk s. destruct (Hm s) as (x & s' & E). destruct (Hk x s') as (y & s'' & E').
  exists y, s''. unfold bind. now rewrite E.
Qed.

Lemma returns_ret {A} (x : A) : returns (ret x).
Proof. intros s. now exists x, s. Qed.

Lemma returns_add_sp sl sh : returns (add_sp sl sh).
Proof. intros s. eexists _, _. reflexivity. Qed.

Lemma returns_mutate_shape f h :
  (forall sh, exists sh', f sh = inr sh') -> returns (mutate_shape f h).
Proof.
  intros Hf s. unfold mutate_shape. destruct (lookup_shape h s) as [sh|]; [|eauto].
  destruct (Hf sh) as [sh' ->]. eauto.
Qed.

Lemma returns_mutate_text_frame f h : returns (mutate_text_frame f h).
Proof. apply returns_mutate_shape. eauto. Qed.

(** The two checks on the way of a text box: the font size and the font
    name. *)
Lemma font_size_ok_spec sz : font_size_ok sz = true <-> 12700 <= sz <= 50800126.
Proof.
  unfold font_size_ok, centipoints. rewrite andb_true_iff, !Z.leb_le.
  pose proof (Z_div_mod_eq_full sz 127) as E.
  pose proof (Z.mod_pos_bound sz 127 eq_refl) as B.
  lia.
Qed.

Lemma printable_xml_compatible t : printable t = true -> xml_compatible t = true.
Proof.
  induction t as [|a t IH]; [reflexivity|]. cbn [printable xml_compatible].
  intros [Ha Ht]%andb_true_iff. rewrite (IH Ht), andb_true_r.
  unfold printable_char in Ha. apply andb_true_iff in Ha as [Ha _].
  unfold xml_char. now rewrite Ha.
Qed.

Lemma paragraph_text_printable t : printable t = true -> paragraph_text t = t.
Proof.
  induction t as [|a t IH]; [reflexivity|]. cbn [printable paragraph_text].
  intros [Ha Ht]%andb_true_iff. rewrite (IH Ht).
  unfold printable_char in Ha. apply andb_true_iff in Ha as [Ha _].
  apply Nat.leb_le in Ha. unfold paragraph_char.
  destruct (Z.eqb_spec (Z.of_nat (nat_of_ascii a)) 10); [lia|].
  destruct (Z.eqb_spec (Z.of_nat (nat_of_ascii a)) 11); [lia|].
  destruct (Z.leb_spec (Z.of_nat (nat_of_ascii a)) 8); [lia|].
  destruct (Z.eqb_spec (Z.of_nat (nat_of_ascii a)) 12); [lia|].
  destruct (Z.leb_spec (Z.of_nat (nat_of_ascii a)) 31); [lia|].
  now rewrite andb_false_r.
Qed.

Lemma add_text_box_returns slide left top width height text font_size font_color
    bold font_name align :
  font_size_ok font_size = true -> xml_compatible font_name = true ->
  returns (add_text_box slide left top width height text font_size font_color
             bold font_name align).
Proof.
  intros Hsz Hname.
  unfold add_text_box, add_textbox, p_font_size_set, p_font_name_set. rewrite Hsz, Hname.
  repeat first [ apply returns_bind; [|intros ?] | apply returns_ret | apply returns_add_sp
               | apply returns_mutate_text_frame | apply returns_mutate_shape; eauto ].
Qed.

(** With a font size the library refuses, [add_text_box] raises on a live
    slide: the box was added and its text assigned, then line 56 fails. *)
Lemma add_text_box_bad_size (s : presentation) (sl : slide_handle)
    (left top width height : Z) (text : string) (font_size : Z) (font_color : rgb_color)
    (bold : bool) (font_name : string) (align : PP_ALIGN) (x : slide) :
  slides s !! sl = Some x ->
  font_size_ok font_size = false ->
  add_text_box sl left top width height text font_size font_color bold font_name align s
  = inl (ValueError ("value must be in range 100 to 400000 inclusive, got "
                     ++ str (centipoints font_size))).
Proof.
  intros Hx Hsz.
  destruct (add_sp_Some sl (new_textbox_sp left top width height) s x Hx) as (s1 & E1 & L).
  unfold add_text_box, add_textbox. unfold bind at 1. rewrite E1. clear E1.
  unfold word_wrap_set, p_text_set, mutate_paragraph0, mutate_text_frame.
  do 2 step_mutation.
  unfold bind, p_font_size_set, mutate_shape. rewrite L, Hsz. reflexivity.
Qed.

(** C6: for positive width and height, [add_shape_with_opacity] on a live
    slide succeeds, and the shape it returns reports exactly the left, top,
    width and height it was given, whatever their relation to the canvas. *)
Theorem add_shape_with_opacity_reports_bounds (s : presentation) (sl : slide_handle)
    (k : MSO_SHAPE) (left top width height : Z) (c : rgb_color) (o : float)
    (lc : option rgb_color) :
  is_Some (slides s !! sl) -> 0 < width -> 0 < height ->
  exists hd s' sh,
    add_shape_with_opacity sl k left top width height c o lc s = inr (hd, s') /\
    lookup_shape hd s' = Some sh /\
    shape_left sh = Some left /\ shape_top sh = Some top /\
    shape_width sh = Some width /\ shape_height sh = Some height.
Proof.
  intros [x Hx] _ _.
  destruct (add_shape_with_opacity_on_slide s sl k left top width height c o lc x Hx)
    as (s' & sh & E & L & Hl & Ht & Hw & Hh & _).
  exists (sl, length (shapes x)), s', sh. auto 10.
Qed.

Lemma add_shape_with_opacity_reports_bounds_witness :
  exists hd s' sh,
    add_shape_with_opacity O OVAL (Inches (-2)) (Inches 7) (Inches 20) (Inches 12)
      AVEMO_ORANGE 0.2 (Some AVEMO_BLACK) one_card_state = inr (hd, s') /\
    lookup_shape hd s' = Some sh /\
    shape_left sh = Some (-1828800) /\ shape_top sh = Some 6400800 /\
    shape_width sh = Some 18288000 /\ shape_height sh = Some 10972800.
Proof.
  apply (add_shape_with_opacity_reports_bounds one_card_state O OVAL
           (Inches (-2)) (Inches 7) (Inches 20) (Inches 12) AVEMO_ORANGE 0.2 (Some AVEMO_BLACK)).
  - vm_compute. eauto.
  - reflexivity.
  - reflexivity.
Defined.

(** C10: the [opacity] argument of [add_shape_with_opacity] is never read.
    Two calls that differ in it only are the same computation, and the
    shape that comes back has no alpha child: it is fully opaque. *)
Theorem add_shape_with_opacity_ignores_opacity (s : presentation) (sl : slide_handle)
    (k : MSO_SHAPE) (left top width height : Z) (c : rgb_color) (o1 o2 : float)
    (lc : option rgb_color) :
  add_shape_with_opacity sl k left top width height c o1 lc s
  = add_shape_with_opacity sl k left top width height c o2 lc s /\
  forall hd s' sh,
    add_shape_with_opacity sl k left top width height c o1 lc s = inr (hd, s') ->
    lookup_shape hd s' = Some sh ->
    alpha_vals sh = [].
Proof.
  split; [reflexivity|].
  intros hd s' sh E L.
  destruct (slides s !! sl) as [x|] eqn:Hx.
  - destruct (add_shape_with_opacity_on_slide s sl k left top width height c o1 lc x Hx)
      as (s'' & sh' & E' & L' & _ & _ & _ & _ & _ & Ha).
    rewrite E' in E. injection E as <- <-. rewrite L' in L. now injection L as <-.
  - destruct (add_shape_with_opacity_off_slide s sl k left top width height c o1 lc Hx)
      as [E' L'].
    rewrite E' in E. injection E as <- <-. rewrite L' in L. discriminate L.
Qed.

Lemma add_shape_with_opacity_ignores_opacity_witness :
  add_shape_with_opacity O RECTANGLE 0 0 (Inches 4) (Inches 2) AVEMO_ORANGE 0.3 None
    one_card_state
  = add_shape_with_opacity O RECTANGLE 0 0 (Inches 4) (Inches 2) AVEMO_ORANGE 1 None
      one_card_state /\
  exists hd s' sh,
    add_shape_with_opacity O RECTANGLE 0 0 (Inches 4) (Inches 2) AVEMO_ORANGE 0.3 None
      one_card_state = inr (hd, s') /\
    lookup_shape hd s' = Some sh /\ alpha_vals sh = [].
Proof.
  pose proof (add_shape_with_opacity_ignores_opacity one_card_state O RECTANGLE
                0 0 (Inches 4) (Inches 2) AVEMO_ORANGE 0.3 1 None) as [Heq Hop].
  split; [exact Heq|].
  destruct (add_shape_with_opacity O RECTANGLE 0 0 (Inches 4) (Inches 2) AVEMO_ORANGE 0.3
              None one_card_state) as [e|[hd s']] eqn:E.
  - vm_compute in E. discriminate E.
  - destruct (lookup_shape hd s') as [sh|] eqn:L.
    + exists hd, s', sh. split; [reflexivity|]. split; [exact L|].
      exact (Hop hd s' sh eq_refl L).
    + vm_compute in E. injection E as <- <-. vm_compute in L. discriminate L.
Defined.

(** C2 as the specification words it fails: a negative width and height are
    accepted by both placement functions. *)
Lemma negative_size_accepted_counterexample :
  (-5 < 0) /\ (-7 < 0) /\
  ~ raises (add_shape_with_opacity O RECTANGLE 0 0 (-5) (-7) AVEMO_ORANGE 1 None)
      one_card_state /\
  ~ raises (add_text_box O 0 0 (-5) (-7) "Title" (Pt 12) AVEMO_WHITE false "Arial" LEFT)
      one_card_state.
Proof.
  split; [reflexivity|]. split; [reflexivity|].
  split; intros [e He]; vm_compute in He; discriminate He.
Qed.

Lemma channel_ok_spec v : channel_ok v = true <-> 0 <= v <= 255.
Proof. unfold channel_ok. rewrite andb_true_iff, !Z.leb_le. reflexivity. Qed.

Lemma RGBColor_raises_iff r g b :
  (exists e, RGBColor r g b = inl e) <->
  ~ (0 <= r <= 255 /\ 0 <= g <= 255 /\ 0 <= b <= 255).
Proof.
  unfold RGBColor.
  destruct (channel_ok r && channel_ok g && channel_ok b) eqn:E.
  - apply andb_true_iff in E as [E Eb]. apply andb_true_iff in E as [Er Eg].
    apply channel_ok_spec in Er, Eg, Eb.
    split; [intros [e He]; discriminate He | intros H; exfalso; apply H; auto].
  - split; [|eauto]. intros _ (Hr & Hg & Hb).
    apply channel_ok_spec in Hr, Hg, Hb. rewrite Hr, Hg, Hb in E. discriminate E.
Qed.

(** C2, as the code has it: neither placement function checks its
    geometry.  [add_shape_with_opacity] returns normally for every left,
    top, width and height, a negative width or height included, and for
    every colour; so does [add_text_box], for printable text and font name,
    whenever the font size is one the library takes, 1 pt to 4000 pt, that
    is 12700 to 50800126 EMU.  With any other font size [add_text_box]
    raises a [ValueError] on a live slide.  A colour only exists as an
    [RGBColor] value, and it is the constructor that raises, for a channel
    outside 0..255 and for nothing else.  And when a builder does raise, the
    function that runs it writes nothing. *)
Theorem placement_accepts_any_geometry :
  (forall slide shape_type left top width height fill_color opacity line_color,
      returns (add_shape_with_opacity slide shape_type left top width height
                 fill_color opacity line_color)) /\
  (forall slide left top width height text font_size font_color bold font_name align,
      12700 <= font_size <= 50800126 ->
      printable text = true -> printable font_name = true ->
      returns (add_text_box slide left top width height text font_size font_color
                 bold font_name align)) /\
  (forall s slide left top width height text font_size font_color bold font_name align,
      is_Some (slides s !! slide) ->
      ~ (12700 <= font_size <= 50800126) ->
      exists msg,
        add_text_box slide left top width height text font_size font_color
          bold font_name align s = inl (ValueError msg)) /\
  (forall r g b,
      (exists e, RGBColor r g b = inl e) <->
      ~ (0 <= r <= 255 /\ 0 <= g <= 255 /\ 0 <= b <= 255)) /\
  (forall build path ack w,
      match build Presentation with
      | inl e => build_and_save build path ack w = (inl e, w)
      | inr _ => True
      end).
Proof.
  split; [|split; [|split; [|split]]].
  - intros sl k l t w h c o lc s. apply add_shape_with_opacity_returns.
  - intros sl l t w h text sz c b name al Hsz _ Hname.
    apply add_text_box_returns;
      [now apply font_size_ok_spec | now apply printable_xml_compatible].
  - intros s sl l t w h text sz c b name al [x Hx] Hsz.
    eexists. apply (add_text_box_bad_size _ _ _ _ _ _ _ _ _ _ _ _ x Hx).
    destruct (font_size_ok sz) eqn:E; [|reflexivity].
    exfalso. apply Hsz. now apply font_size_ok_spec.
  - apply RGBColor_raises_iff.
  - intros build path ack w. destruct (build Presentation) as [e|[[] prs]] eqn:E; [|exact I].
    unfold build_and_save, bind_io, construct. now rewrite E.
Qed.

Lemma placement_accepts_any_geometry_witness :
  (exists x s',
      add_text_box O 0 0 (-5) (-7) "Title" (Pt 12) AVEMO_WHITE false "Arial" LEFT
        one_card_state = inr (x, s')) /\
  (exists msg,
      add_text_box O 0 0 (Inches 4) (Inches 1) "Title" (Pt 0.5) AVEMO_WHITE false "Arial" LEFT
        one_card_state = inl (ValueError msg)).
Proof.
  destruct placement_accepts_any_geometry as (_ & Hok & Hbad & _).
  split.
  - apply (Hok O 0 0 (-5) (-7) "Title" (Pt 12) AVEMO_WHITE false "Arial" LEFT);
      [vm_compute; split; discriminate | reflexivity | reflexivity].
  - apply (Hbad one_card_state O 0 0 (Inches 4) (Inches 1) "Title" (Pt 0.5) AVEMO_WHITE false
             "Arial" LEFT).
    + vm_compute. eauto.
    + vm_compute. intros [H _]. apply H. reflexivity.
Defined.

(* ================================================================== *)
(** ** The canvas is set once *)

Lemma keeps_ret {A} (x : A) : keeps_canvas (ret x).
Proof. intros s. reflexivity. Qed.

Lemma keeps_lift {A} (r : exn + A) : keeps_canvas (lift r).
Proof. intros s. unfold lift. destruct r; reflexivity. Qed.

Lemma keeps_bind {A C} (m : B A) (k : A -> B C) :
  keeps_canvas m -> (forall x, keeps_canvas (k x)) -> keeps_canvas (bind m k).
Proof.
  intros Hm Hk s. unfold bind. specialize (Hm s).
  destruct (m s) as [e|[x s']]; [exact I|].
  specialize (Hk x s'). destruct (k x s') as [e|[y s'']]; [exact I|]. congruence.
Qed.

Lemma keeps_for {A} (l : list A) (body : A -> B unit) :
  (forall x, keeps_canvas (body x)) -> keeps_canvas (for_ l body).
Proof.
  intros Hb. induction l as [|x l IH]; cbn.
  - apply keeps_ret.
  - apply keeps_bind; [apply Hb | intros _; exact IH].
Qed.

Lemma keeps_slide_layouts_getitem i : keeps_canvas (slide_layouts_getitem i).
Proof. intros s. unfold slide_layouts_getitem. destruct (slide_layouts s !! i); reflexivity. Qed.

Lemma keeps_add_slide layout : keeps_canvas (add_slide layout).
Proof. intros s. reflexivity. Qed.

Lemma keeps_add_sp sl sh : keeps_canvas (add_sp sl sh).
Proof. intros s. reflexivity. Qed.

Lemma keeps_mutate_shape f h : keeps_canvas (mutate_shape f h).
Proof.
  intros s. unfold mutate_shape. destruct (lookup_shape h s) as [sh|]; [|reflexivity].
  destruct (f sh); reflexivity.
Qed.

Create HintDb canvas.

#[local] Hint Resolve keeps_ret keeps_lift keeps_slide_layouts_getitem keeps_add_slide
  keeps_add_sp keeps_mutate_shape : canvas.

#[local] Hint Unfold add_shape add_textbox fill_solid fill_background fill_fore_color_rgb
  line_fill_background line_color_rgb line_width rotation_set adjustments_setitem
  mutate_spPr mutate_text_frame mutate_paragraph0 word_wrap_set p_text_set p_font_size_set
  p_font_color_rgb_set p_font_bold_set p_font_name_set p_alignment_set set_opacity : canvas.

(** Descends through a builder: sequencing, loops, branches and tuple
    patterns; the leaves are library calls. *)
Ltac keeps_canvas_tac :=
  repeat first
    [ apply keeps_bind; [|intros ?]
    | apply keeps_for; intros ?
    | progress cbv zeta
    | match goal with
      | |- keeps_canvas (match ?x with _ => _ end) => destruct x
      end
    | solve [autounfold with canvas; auto with canvas] ].

Lemma keeps_add_text_box slide left top width height text font_size font_color
    bold font_name align :
  keeps_canvas (add_text_box slide left top width height text font_size font_color
                  bold font_name align).
Proof. unfold add_text_box. keeps_canvas_tac. Qed.

Lemma keeps_add_shape_with_opacity slide shape_type left top width height fill_color
    opacity line_color :
  keeps_canvas (add_shape_with_opacity slide shape_type left top width height fill_color
                  opacity line_color).
Proof. unfold add_shape_with_opacity. keeps_canvas_tac. Qed.

#[local] Hint Resolve keeps_add_text_box keeps_add_shape_with_opacity : canvas.

Lemma slide_builders_keep_canvas : Forall (Forall keeps_canvas) slide_builders.
Proof.
  unfold slide_builders.
  repeat (apply List.Forall_cons; [|]); try apply List.Forall_nil.
  all: repeat (apply List.Forall_cons; [|]); try apply List.Forall_nil.
  all: lazymatch goal with |- keeps_canvas ?b => unfold b end; keeps_canvas_tac.
Qed.

Lemma keeps_five (a b c d e : B unit) :
  Forall keeps_canvas [a; b; c; d; e] -> keeps_canvas (a ;; b ;; c ;; d ;; e)%B.
Proof.
  rewrite !Forall_cons_iff. intros (Ha & Hb & Hc & Hd & He & _).
  repeat (apply keeps_bind; [assumption | intros _]). assumption.
Qed.

(** Once the two setters have run, a canvas-keeping remainder ends on the
    canvas they set. *)
Lemma canvas_after_setup (w h : Z) (rest : B unit) (prs : presentation) :
  keeps_canvas rest ->
  built (slide_width_set w ;; slide_height_set h ;; rest)%B = Some prs ->
  canvas prs = (w, h).
Proof.
  intros Hrest. unfold built, bind, slide_width_set, slide_height_set.
  destruct (slide_size_ok w); [|discriminate].
  destruct (slide_size_ok h); [|discriminate].
  match goal with |- context [rest ?s0] => specialize (Hrest s0); destruct (rest s0) as [e|[[] s']] end.
  - discriminate.
  - intros [= <-]. exact Hrest.
Qed.

(** Every design builds without an exception. *)
Lemma built_1 : built build_presentation_1 = Some (deck_of build_presentation_1).
Proof. vm_compute. reflexivity. Qed.
Lemma built_2 : built build_presentation_2 = Some (deck_of build_presentation_2).
Proof. vm_compute. reflexivity. Qed.
Lemma built_3 : built build_presentation_3 = Some (deck_of build_presentation_3).
Proof. vm_compute. reflexivity. Qed.
Lemma built_4 : built build_presentation_4 = Some (deck_of build_presentation_4).
Proof. vm_compute. reflexivity. Qed.
Lemma built_5 : built build_presentation_5 = Some (deck_of build_presentation_5).
Proof. vm_compute. reflexivity. Qed.

Lemma design_canvas (build a b c d e : B unit) :
  build = (slide_width_set SLIDE_WIDTH ;; slide_height_set SLIDE_HEIGHT ;;
           a ;; b ;; c ;; d ;; e)%B ->
  Forall keeps_canvas [a; b; c; d; e] ->
  built build = Some (deck_of build) ->
  (exists rest,
      build = (slide_width_set SLIDE_WIDTH ;; slide_height_set SLIDE_HEIGHT ;; rest)%B /\
      keeps_canvas rest) /\
  Forall keeps_canvas [a; b; c; d; e] /\
  exists prs, built build = Some prs /\ canvas prs = (SLIDE_WIDTH, SLIDE_HEIGHT).
Proof.
  intros Hb Hk Hd. pose proof (keeps_five a b c d e Hk) as Hrest.
  split; [eauto|]. split; [exact Hk|].
  exists (deck_of build). split; [exact Hd|].
  apply (canvas_after_setup _ _ _ _ Hrest). rewrite <- Hb. exact Hd.
Qed.

(** C9: each design sets the canvas to [SLIDE_WIDTH] by [SLIDE_HEIGHT], that
    is [Inches(13.333)] by [Inches(7.5)], as its first two statements;
    everything after them leaves the canvas as it finds it, whatever it is;
    and the deck that is built has exactly these dimensions. *)
Theorem canvas_set_once :
  SLIDE_WIDTH = 12191695 /\ SLIDE_HEIGHT = 6858000 /\
  Forall2
    (fun (build : B unit) (slides_of_design : list (B unit)) =>
       (exists rest,
           build = (slide_width_set SLIDE_WIDTH ;; slide_height_set SLIDE_HEIGHT ;; rest)%B /\
           keeps_canvas rest) /\
       Forall keeps_canvas slides_of_design /\
       exists prs,
         built build = Some prs /\ canvas prs = (SLIDE_WIDTH, SLIDE_HEIGHT))
    deck_builders slide_builders.
Proof.
  split; [reflexivity|]. split; [reflexivity|].
  pose proof slide_builders_keep_canvas as Hk.
  unfold slide_builders in *. unfold deck_builders.
  rewrite !(Forall_cons_iff (Forall keeps_canvas)) in Hk.
  destruct Hk as (K1 & K2 & K3 & K4 & K5 & _).
  apply List.Forall2_cons; [exact (design_canvas _ _ _ _ _ _ eq_refl K1 built_1)|].
  apply List.Forall2_cons; [exact (design_canvas _ _ _ _ _ _ eq_refl K2 built_2)|].
  apply List.Forall2_cons; [exact (design_canvas _ _ _ _ _ _ eq_refl K3 built_3)|].
  apply List.Forall2_cons; [exact (design_canvas _ _ _ _ _ _ eq_refl K4 built_4)|].
  apply List.Forall2_cons; [exact (design_canvas _ _ _ _ _ _ eq_refl K5 built_5)|].
  apply List.Forall2_nil.
Qed.

(* ================================================================== *)
(** ** Backgrounds *)

(** C5, as the code has it: every slide of every deck starts with an
    opaque, solid-filled rectangle at the canvas origin.  On 23 of the 25
    slides it covers the whole canvas and is the only element that does.
    Slide 2 of design 3 and slide 5 of design 4 have no element covering the
    canvas: their first two elements are opaque rectangles that cut it in a
    left part 4 inches and a right part 9.333 inches wide, resp. a top and a
    bottom part 3.75 inches high each. *)
Theorem slide_backgrounds :
  map (fun build => option_map (fun prs => map background_of (slides prs)) (built build))
    deck_builders
  = [ Some [Some FullCanvas; Some FullCanvas; Some FullCanvas; Some FullCanvas; Some FullCanvas];
      Some [Some FullCanvas; Some FullCanvas; Some FullCanvas; Some FullCanvas; Some FullCanvas];
      Some [Some FullCanvas; Some SplitLeftRight; Some FullCanvas; Some FullCanvas;
            Some FullCanvas];
      Some [Some FullCanvas; Some FullCanvas; Some FullCanvas; Some FullCanvas;
            Some SplitTopBottom];
      Some [Some FullCanvas; Some FullCanvas; Some FullCanvas; Some FullCanvas; Some FullCanvas] ] /\
  (prs ← built build_presentation_3;
   sl ← slides prs !! 1%nat;
   a ← shapes sl !! 0%nat;
   b ← shapes sl !! 1%nat;
   Some (bounds a, bounds b))
  = Some (Some (0, 0, Inches 4, SLIDE_HEIGHT), Some (Inches 4, 0, Inches 9.333, SLIDE_HEIGHT)) /\
  (prs ← built build_presentation_4;
   sl ← slides prs !! 4%nat;
   a ← shapes sl !! 0%nat;
   b ← shapes sl !! 1%nat;
   Some (bounds a, bounds b))
  = Some (Some (0, 0, SLIDE_WIDTH, Inches 3.75), Some (0, Inches 3.75, SLIDE_WIDTH, Inches 3.75)).
Proof. repeat split; vm_compute; reflexivity. Qed.

(** C5 as the specification words it fails on slide 2 of design 3: its first
    element is 4 inches wide, not the canvas width, and none of its fifteen
    elements covers the canvas. *)
Lemma split_background_counterexample :
  (prs ← built build_presentation_3;
   sl ← slides prs !! 1%nat;
   first ← shapes sl !! 0%nat;
   Some (shape_width first, is_full_canvas first, full_canvas_count sl, length (shapes sl)))
  = Some (Some 3657600, false, 0%nat, 15%nat) /\
  SLIDE_WIDTH = 12191695.
Proof. split; vm_compute; reflexivity. Qed.

(* ================================================================== *)
(** ** The run as a whole *)

Lemma build_and_save_written build path ack w prs :
  built build = Some prs ->
  save_fault w path = None ->
  build_and_save build path ack w
  = (inr tt, {| save_fault := save_fault w;
                written := written w ++ [(path, prs)];
                truncated := truncated w;
                stdout := stdout w ++ [ack] |}).
Proof.
  intros Hb Hs. unfold built in Hb. unfold build_and_save, bind_io, construct, save, print.
  destruct (build Presentation) as [e|[[] p]]; [discriminate Hb|].
  injection Hb as ->. cbn. now rewrite Hs.
Qed.

Lemma build_and_save_fault build path ack w prs e opened :
  built build = Some prs ->
  save_fault w path = Some (e, opened) ->
  build_and_save build path ack w
  = (inl e, {| save_fault := save_fault w;
               written := written w;
               truncated := truncated w ++ (if opened then [path] else []);
               stdout := stdout w |}).
Proof.
  intros Hb Hs. unfold built in Hb. unfold build_and_save, bind_io, construct, save.
  destruct (build Presentation) as [e'|[[] p]]; [discriminate Hb|].
  cbn. now rewrite Hs.
Qed.

Lemma bind_io_print {A} s (k : unit -> IO A) w :
  bind_io (print s) k w
  = k tt {| save_fault := save_fault w; written := written w; truncated := truncated w;
            stdout := stdout w ++ [s] |}.
Proof. reflexivity. Qed.

Lemma bind_io_ok {A C} (m : IO A) (k : A -> IO C) w x w' :
  m w = (inr x, w') -> bind_io m k w = k x w'.
Proof. intros H. unfold bind_io. now rewrite H. Qed.

Lemma bind_io_fault {A C} (m : IO A) (k : A -> IO C) w e w' :
  m w = (inl e, w') -> bind_io m k w = (inl e, w').
Proof. intros H. unfold bind_io. now rewrite H. Qed.

(** One design, run alone in any world whose disk takes its file: exactly
    its own artifact is added, and it is acknowledged. *)
Lemma creators_alone :
  Forall2
    (fun (create : IO unit) (a : (string * presentation) * string) =>
       forall w, save_fault w (fst (fst a)) = None ->
         create w = (inr tt, {| save_fault := save_fault w;
                                written := written w ++ [fst a];
                                truncated := truncated w;
                                stdout := stdout w ++ [snd a] |}))
    creators (zip artifacts acknowledgements).
Proof.
  unfold creators, artifacts, acknowledgements. cbn [zip zip_with].
  apply List.Forall2_cons;
    [intros w Hw; exact (build_and_save_written _ _ _ w _ built_1 Hw)|].
  apply List.Forall2_cons;
    [intros w Hw; exact (build_and_save_written _ _ _ w _ built_2 Hw)|].
  apply List.Forall2_cons;
    [intros w Hw; exact (build_and_save_written _ _ _ w _ built_3 Hw)|].
  apply List.Forall2_cons;
    [intros w Hw; exact (build_and_save_written _ _ _ w _ built_4 Hw)|].
  apply List.Forall2_cons;
    [intros w Hw; exact (build_and_save_written _ _ _ w _ built_5 Hw)|].
  apply List.Forall2_nil.
Qed.

Lemma artifacts_shape :
  map fst artifacts
  = [ "/root/fahrerplanung/presentations/design-1-cinematic-dark.pptx";
      "/root/fahrerplanung/presentations/design-2-minimal-glass.pptx";
      "/root/fahrerplanung/presentations/design-3-bold-editorial.pptx";
      "/root/fahrerplanung/presentations/design-4-asymmetric-modern.pptx";
      "/root/fahrerplanung/presentations/design-5-dashboard-tech.pptx" ] /\
  map (fun a => length (slides (snd a))) artifacts = [5; 5; 5; 5; 5]%nat.
Proof. split; vm_compute; reflexivity. Qed.

Lemma artifact_paths_distinct : List.NoDup (map fst artifacts).
Proof.
  rewrite (proj1 artifacts_shape).
  repeat (apply List.NoDup_cons; [cbn [In]; intuition discriminate|]).
  apply List.NoDup_nil.
Qed.

(** Steps of [main]: a print, a design that is written, a design whose
    write fails. *)
Ltac io_print := rewrite bind_io_print; cbv beta; cbn [save_fault written truncated stdout].

Ltac io_written Hbuilt Hsave :=
  erewrite bind_io_ok;
    [ | apply (fun ack => build_and_save_written _ _ ack _ _ Hbuilt); exact Hsave ];
  cbv beta; cbn [save_fault written truncated stdout].

Ltac io_fault Hbuilt Hsave :=
  erewrite bind_io_fault;
    [ | eapply (fun ack => build_and_save_fault _ _ ack _ _ _ _ Hbuilt); exact Hsave ];
  cbn [save_fault written truncated stdout].

Lemma app_assoc_cons {A} (l : list A) x m : ((l ++ [x]) ++ m = l ++ x :: m)%list.
Proof. now rewrite <- app_assoc. Qed.

(** C7: [main] builds five decks, one after the other, each from a fresh
    default presentation; each deck has five slides; each is saved once,
    under its own path; and what a design writes does not depend on the
    world it runs in, so nothing passes from one deck to the next. *)
Theorem five_independent_decks (w : world) :
  Forall (fun a => save_fault w (fst a) = None) artifacts ->
  main w
  = (inr tt,
     {| save_fault := save_fault w;
        written := (written w ++ artifacts)%list;
        truncated := truncated w;
        stdout := (stdout w ++ banner ++ acknowledgements
                   ++ [str_repeat "=" 60; "All presentations created successfully!"])%list |}) /\
  map (fun a => length (slides (snd a))) artifacts = [5; 5; 5; 5; 5]%nat /\
  List.NoDup (map fst artifacts) /\
  Forall2
    (fun (create : IO unit) (a : (string * presentation) * string) =>
       forall w0, save_fault w0 (fst (fst a)) = None ->
         create w0 = (inr tt, {| save_fault := save_fault w0;
                                 written := written w0 ++ [fst a];
                                 truncated := truncated w0;
                                 stdout := stdout w0 ++ [snd a] |}))
    creators (zip artifacts acknowledgements) /\
  Forall2 (fun build a => built build = Some (snd a)) deck_builders artifacts.
Proof.
  intros Hw. split; [|split; [|split; [|split]]].
  - unfold artifacts in Hw. rewrite !Forall_cons_iff in Hw.
    cbn [fst] in Hw. destruct Hw as (H1 & H2 & H3 & H4 & H5 & _).
    unfold main, create_presentation_1, create_presentation_2, create_presentation_3,
      create_presentation_4, create_presentation_5.
    do 2 io_print.
    io_written built_1 H1. io_written built_2 H2. io_written built_3 H3.
    io_written built_4 H4. io_written built_5 H5.
    io_print. unfold print. cbn [save_fault written truncated stdout].
    unfold artifacts, acknowledgements, banner.
    rewrite !app_assoc_cons. reflexivity.
  - exact (proj2 artifacts_shape).
  - exact artifact_paths_distinct.
  - exact creators_alone.
  - unfold deck_builders, artifacts.
    apply List.Forall2_cons; [exact built_1|].
    apply List.Forall2_cons; [exact built_2|].
    apply List.Forall2_cons; [exact built_3|].
    apply List.Forall2_cons; [exact built_4|].
    apply List.Forall2_cons; [exact built_5|].
    apply List.Forall2_nil.
Qed.

Lemma five_independent_decks_witness :
  fst (main quiet_world) = inr tt /\
  map fst (written (snd (main quiet_world))) = map fst artifacts.
Proof.
  assert (H : Forall (fun a => save_fault quiet_world (fst a) = None) artifacts).
  { unfold artifacts. repeat (apply List.Forall_cons; [reflexivity|]). apply List.Forall_nil. }
  destruct (five_independent_decks quiet_world H) as [E _].
  rewrite E. split; reflexivity.
Defined.

(** C3 as the specification words it fails: when the third artifact cannot
    be written, the fourth and fifth decks are never saved. *)
Lemma later_decks_not_built_counterexample :
  let '(r, w) := main third_write_fails in
  r = inl (OSError "No space left on device") /\
  map fst (written w)
  = [ "/root/fahrerplanung/presentations/design-1-cinematic-dark.pptx";
      "/root/fahrerplanung/presentations/design-2-minimal-glass.pptx" ] /\
  stdout w
  = [ "Creating 5 sophisticated AVEMO presentations...";
      "============================================================";
      "Created: design-1-cinematic-dark.pptx";
      "Created: design-2-minimal-glass.pptx" ].
Proof. vm_compute. repeat split; reflexivity. Qed.

(** C3, as the code has it: nothing in the script catches an exception.
    When the write of the [k]-th artifact fails, after the earlier ones went
    through, [main] ends there with exactly the exception the library
    raised: the earlier artifacts are written and acknowledged, and no later
    deck is saved or acknowledged.  Of the refused artifact there is at most
    a truncated file, when the write failed after the file was opened. *)
Theorem save_failure_ends_the_run (w : world) (k : nat) (a : string * presentation)
    (e : exn) (opened : bool) :
  artifacts !! k = Some a ->
  save_fault w (fst a) = Some (e, opened) ->
  Forall (fun b => save_fault w (fst b) = None) (take k artifacts) ->
  main w
  = (inl e,
     {| save_fault := save_fault w;
        written := (written w ++ take k artifacts)%list;
        truncated := (truncated w ++ (if opened then [fst a] else []))%list;
        stdout := (stdout w ++ banner ++ take k acknowledgements)%list |}).
Proof.
  intros Ha He Hprev.
  unfold main, create_presentation_1, create_presentation_2, create_presentation_3,
    create_presentation_4, create_presentation_5.
  do 2 io_print.
  unfold artifacts in Ha, Hprev.
  destruct k as [|[|[|[|[|k]]]]];
    cbv [lookup list_lookup] in Ha; try discriminate Ha;
    injection Ha as <-; cbn [fst] in He;
    cbv [take] in Hprev; rewrite ?Forall_cons_iff in Hprev; cbn [fst] in Hprev.
  - io_fault built_1 He.
    unfold artifacts, acknowledgements, banner. cbn [take fst].
    rewrite ?app_nil_r, ?app_assoc_cons. reflexivity.
  - destruct Hprev as (H1 & _).
    io_written built_1 H1. io_fault built_2 He.
    unfold artifacts, acknowledgements, banner. cbn [take fst].
    rewrite ?app_nil_r, ?app_assoc_cons. reflexivity.
  - destruct Hprev as (H1 & H2 & _).
    io_written built_1 H1. io_written built_2 H2. io_fault built_3 He.
    unfold artifacts, acknowledgements, banner. cbn [take fst].
    rewrite ?app_nil_r, ?app_assoc_cons. reflexivity.
  - destruct Hprev as (H1 & H2 & H3 & _).
    io_written built_1 H1. io_written built_2 H2. io_written built_3 H3.
    io_fault built_4 He.
    unfold artifacts, acknowledgements, banner. cbn [take fst].
    rewrite ?app_nil_r, ?app_assoc_cons. reflexivity.
  - destruct Hprev as (H1 & H2 & H3 & H4 & _).
    io_written built_1 H1. io_written built_2 H2. io_written built_3 H3.
    io_written built_4 H4. io_fault built_5 He.
    unfold artifacts, acknowledgements, banner. cbn [take fst].
    rewrite ?app_nil_r, ?app_assoc_cons. reflexivity.
Qed.

Lemma save_failure_ends_the_run_witness :
  main third_write_fails
  = (inl (OSError "No space left on device"),
     {| save_fault := save_fault third_write_fails;
        written := take 2 artifacts;
        truncated := ["/root/fahrerplanung/presentations/design-3-bold-editorial.pptx"];
        stdout := (banner ++ take 2 acknowledgements)%list |}).
Proof.
  refine (save_failure_ends_the_run third_write_fails 2
            ("/root/fahrerplanung/presentations/design-3-bold-editorial.pptx",
             deck_of build_presentation_3)
            (OSError "No space left on device") true _ _ _).
  - reflexivity.
  - reflexivity.
  - unfold artifacts. cbn [take].
    repeat (apply List.Forall_cons; [reflexivity|]). apply List.Forall_nil.
Defined.

(* ================================================================== *)
(** ** Appending to a slide *)

Lemma list_alter_insert {A} (f : A -> A) (l : list A) i x :
  l !! i = Some x -> alter f i l = <[i := f x]> l.
Proof.
  intros H. apply list_eq. intros j. rewrite list_lookup_alter.
  destruct (decide (i = j)) as [<-|Hne].
  - rewrite H. cbn. symmetry. apply list_lookup_insert_eq. eapply lookup_lt_Some, H.
  - now rewrite list_lookup_insert_ne.
Qed.

Lemma add_sp_appended sl sh s x :
  slides s !! sl = Some x ->
  add_sp sl sh s = inr ((sl, length (shapes x)), appended s sl x sh).
Proof.
  intros Hx. unfold add_sp, appended. rewrite Hx. cbn [from_option].
  now rewrite (list_alter_insert _ _ _ _ Hx).
Qed.

Lemma slides_appended s sl x sh :
  slides s !! sl = Some x ->
  slides (appended s sl x sh) !! sl = Some (mk_slide (shapes x ++ [sh])).
Proof.
  intros Hx. unfold appended. cbn [slides with_slides].
  apply list_lookup_insert_eq. eapply lookup_lt_Some, Hx.
Qed.

Lemma lookup_appended s sl x sh :
  slides s !! sl = Some x ->
  lookup_shape (sl, length (shapes x)) (appended s sl x sh) = Some sh.
Proof.
  intros Hx. apply lookup_shape_Some. cbn [fst snd].
  exists (mk_slide (shapes x ++ [sh])). split; [now apply slides_appended|].
  cbn. rewrite lookup_app_r by reflexivity. now rewrite Nat.sub_diag.
Qed.

Lemma store_appended s sl x sh sh' :
  slides s !! sl = Some x ->
  store_shape (sl, length (shapes x)) sh' (appended s sl x sh) = appended s sl x sh'.
Proof.
  intros Hx. unfold store_shape. cbn [fst snd].
  rewrite (list_alter_insert _ _ _ _ (slides_appended s sl x sh Hx)).
  unfold appended, with_slides. cbn [slides slide_width slide_height slide_layouts shapes].
  rewrite list_insert_insert_eq. do 2 f_equal.
  rewrite insert_app_r_alt by reflexivity. now rewrite Nat.sub_diag.
Qed.

(** A mutation of the shape just appended. *)
Lemma bind_mutate_appended {C} f (k : unit -> B C) s sl x sh sh' :
  slides s !! sl = Some x -> f sh = inr sh' ->
  bind (mutate_shape f (sl, length (shapes x))) k (appended s sl x sh)
  = k tt (appended s sl x sh').
Proof.
  intros Hx Hf.
  rewrite (bind_mutate_shape f _ k _ sh sh' (lookup_appended s sl x sh Hx) Hf).
  now rewrite (store_appended s sl x sh sh' Hx).
Qed.

Ltac step_appended Hx :=
  erewrite bind_mutate_appended;
    [ | exact Hx | lazy -[str rgb_str prst font_size_stored paragraph_text]; reflexivity ];
  cbv beta.

(** What is left of the presentation around an appended shape. *)
Lemma appended_frame s sl x sh :
  slides s !! sl = Some x ->
  canvas (appended s sl x sh) = canvas s /\
  slide_layouts (appended s sl x sh) = slide_layouts s /\
  length (slides (appended s sl x sh)) = length (slides s) /\
  (forall i, i <> sl -> slides (appended s sl x sh) !! i = slides s !! i) /\
  (forall j, (j < length (shapes x))%nat ->
     lookup_shape (sl, j) (appended s sl x sh) = shapes x !! j).
Proof.
  intros Hx. unfold appended. split; [reflexivity|]. split; [reflexivity|].
  cbn [slides with_slides]. split; [apply length_insert|]. split.
  - intros i Hi. now apply list_lookup_insert_ne.
  - intros j Hj. unfold lookup_shape. cbn [fst snd slides with_slides].
    rewrite list_lookup_insert_eq by (eapply lookup_lt_Some, Hx). cbn.
    now apply lookup_app_l.
Qed.

(** [add_shape_with_opacity] appends, and only appends: on a live slide the
    new shape becomes the last element of that slide, on top of the
    elements already there, which keep their place and content; the other
    slides, the canvas and the layouts are untouched; the returned reference
    is the position of the new shape. *)
Theorem add_shape_with_opacity_appends (s : presentation) (sl : slide_handle)
    (k : MSO_SHAPE) (left top width height : Z) (c : rgb_color) (o : float)
    (lc : option rgb_color) (x : slide) :
  slides s !! sl = Some x ->
  exists sh,
    add_shape_with_opacity sl k left top width height c o lc s
    = inr ((sl, length (shapes x)),
           with_slides s (<[sl := mk_slide (shapes x ++ [sh])]> (slides s))) /\
    bounds sh = Some (left, top, width, height).
Proof.
  intros Hx. fold (appended s sl x).
  unfold add_shape_with_opacity, add_shape.
  unfold bind at 1. rewrite (add_sp_appended _ _ _ _ Hx).
  unfold fill_solid, fill_fore_color_rgb, mutate_spPr.
  do 2 step_appended Hx.
  destruct lc as [c'|].
  - unfold line_color_rgb, line_width. rewrite bind_assoc.
    do 2 step_appended Hx.
    eexists. split; [reflexivity|].
    cbv -[str int_of_str rgb_str prst font_size_stored paragraph_text]. now rewrite !int_of_str_str.
  - unfold line_fill_background, mutate_spPr.
    step_appended Hx.
    eexists. split; [reflexivity|].
    cbv -[str int_of_str rgb_str prst font_size_stored paragraph_text]. now rewrite !int_of_str_str.
Qed.

Lemma add_shape_with_opacity_appends_witness :
  exists sh,
    add_shape_with_opacity O OVAL (Inches 8) (Inches 1) (Inches 6) (Inches 6)
      AVEMO_ORANGE 1 None one_card_state
    = inr ((O, 1%nat),
           with_slides one_card_state
             (<[O := mk_slide (shapes (default (mk_slide []) (slides one_card_state !! O))
                               ++ [sh])]> (slides one_card_state))) /\
    bounds sh = Some (7315200, 914400, 5486400, 5486400).
Proof.
  refine (add_shape_with_opacity_appends one_card_state O OVAL (Inches 8) (Inches 1)
            (Inches 6) (Inches 6) AVEMO_ORANGE 1 None
            (default (mk_slide []) (slides one_card_state !! O)) _).
  vm_compute. reflexivity.
Defined.

Lemma add_shape_with_opacity_style_on_slide (s : presentation) (sl : slide_handle)
    (k : MSO_SHAPE) (left top width height : Z) (c : rgb_color) (o : float)
    (lc : option rgb_color) :
  is_Some (slides s !! sl) ->
  exists hd s' sh,
    add_shape_with_opacity sl k left top width height c o lc s = inr (hd, s') /\
    lookup_shape hd s' = Some sh /\
    fill_color_val sh = Some (rgb_str c) /\
    match lc with
    | Some c' =>
        line_color_val sh = Some (rgb_str c') /\ line_width_val sh = Some 12700 /\
        line_is_background sh = false
    | None =>
        line_is_background sh = true /\ line_color_val sh = None /\
        line_width_val sh = None
    end.
Proof.
  intros [x Hx].
  unfold add_shape_with_opacity, add_shape.
  unfold bind at 1. rewrite (add_sp_appended _ _ _ _ Hx).
  unfold fill_solid, fill_fore_color_rgb, mutate_spPr.
  do 2 step_appended Hx.
  destruct lc as [c'|].
  - unfold line_color_rgb, line_width. rewrite bind_assoc.
    do 2 step_appended Hx.
    eexists _, _, _. split; [reflexivity|].
    split; [apply (lookup_appended _ _ _ _ Hx)|].
    repeat split; cbv -[str rgb_str prst font_size_stored paragraph_text]; reflexivity.
  - unfold line_fill_background, mutate_spPr.
    step_appended Hx.
    eexists _, _, _. split; [reflexivity|].
    split; [apply (lookup_appended _ _ _ _ Hx)|].
    repeat split; cbv -[str rgb_str prst font_size_stored paragraph_text]; reflexivity.
Qed.

(** The styling [add_shape_with_opacity] applies: the fill is solid with the
    given colour; with a line colour the outline is solid in that colour and
    one point (12700 EMU) wide; without one the outline is switched off. *)
Theorem add_shape_with_opacity_styles (s : presentation) (sl : slide_handle)
    (k : MSO_SHAPE) (left top width height : Z) (c : rgb_color) (o : float)
    (lc : option rgb_color) :
  is_Some (slides s !! sl) ->
  exists hd s' sh,
    add_shape_with_opacity sl k left top width height c o lc s = inr (hd, s') /\
    lookup_shape hd s' = Some sh /\
    fill_color_val sh = Some (rgb_str c) /\
    match lc with
    | Some c' =>
        line_color_val sh = Some (rgb_str c') /\ line_width_val sh = Some 12700 /\
        line_is_background sh = false
    | None =>
        line_is_background sh = true /\ line_color_val sh = None /\
        line_width_val sh = None
    end.
Proof. apply add_shape_with_opacity_style_on_slide. Qed.

Lemma add_shape_with_opacity_styles_witness :
  exists hd s' sh,
    add_shape_with_opacity O ROUNDED_RECTANGLE (Inches 1) (Inches 1) (Inches 4) (Inches 2)
      AVEMO_BLACK 0.7 (Some AVEMO_ORANGE) one_card_state = inr (hd, s') /\
    lookup_shape hd s' = Some sh /\
    fill_color_val sh = Some "1A1A1A" /\
    line_color_val sh = Some "FF7932" /\ line_width_val sh = Some 12700 /\
    line_is_background sh = false.
Proof.
  apply (add_shape_with_opacity_styles one_card_state O ROUNDED_RECTANGLE
           (Inches 1) (Inches 1) (Inches 4) (Inches 2) AVEMO_BLACK 0.7 (Some AVEMO_ORANGE)).
  vm_compute. eauto.
Defined.

(** [add_text_box] with a font size and a font name the library takes: the
    paragraph holds the text with its line breaks as the library reads them
    back, and the size cut to whole hundredths of a point. *)
Lemma add_text_box_on_slide (s : presentation) (sl : slide_handle)
    (left top width height : Z) (text : string) (font_size : Z) (font_color : rgb_color)
    (bold : bool) (font_name : string) (align : PP_ALIGN) (x : slide) :
  slides s !! sl = Some x ->
  font_size_ok font_size = true ->
  xml_compatible font_name = true ->
  exists sh,
    add_text_box sl left top width height text font_size font_color bold font_name align s
    = inr ((sl, length (shapes x)),
           with_slides s (<[sl := mk_slide (shapes x ++ [sh])]> (slides s))) /\
    bounds sh = Some (left, top, width, height) /\
    txBody sh
    = Some (mk_text_frame true
              [mk_paragraph (paragraph_text text) (Some (font_size_stored font_size))
                 (Some font_color) (Some bold) (Some font_name) (Some align)]) /\
    has_srgb_fill sh = false /\ fill_color_val sh = None /\ alpha_vals sh = [].
Proof.
  intros Hx Hsz Hname. fold (appended s sl x).
  unfold add_text_box, add_textbox.
  unfold bind at 1. rewrite (add_sp_appended _ _ _ _ Hx).
  unfold word_wrap_set, p_text_set, p_font_size_set, p_font_color_rgb_set, p_font_bold_set,
    p_font_name_set, p_alignment_set, mutate_paragraph0, mutate_text_frame.
  rewrite Hsz, Hname.
  do 7 step_appended Hx.
  eexists. split; [reflexivity|].
  repeat split; cbv -[str int_of_str rgb_str prst font_size_stored paragraph_text]; rewrite ?int_of_str_str; reflexivity.
Qed.

(** A text box that [add_text_box] returned, whatever the arguments, has
    no fill of its own. *)
Lemma add_text_box_no_fill (s : presentation) (sl : slide_handle)
    (left top width height : Z) (text : string) (font_size : Z) (font_color : rgb_color)
    (bold : bool) (font_name : string) (align : PP_ALIGN) (h : shape_handle)
    (s' : presentation) :
  add_text_box sl left top width height text font_size font_color bold font_name align s
  = inr (h, s') ->
  match lookup_shape h s' with
  | Some sh => has_srgb_fill sh = false
  | None => True
  end.
Proof.
  destruct (slides s !! sl) as [x|] eqn:Hx.
  - destruct (font_size_ok font_size) eqn:Hsz.
    + destruct (xml_compatible font_name) eqn:Hname.
      * destruct (add_text_box_on_slide s sl left top width height text font_size font_color
                    bold font_name align x Hx Hsz Hname) as (sh & E & _ & _ & Hfill & _).
        fold (appended s sl x sh) in E. rewrite E. intros [= <- <-].
        now rewrite (lookup_appended s sl x sh Hx).
      * unfold add_text_box, add_textbox.
        unfold bind at 1. rewrite (add_sp_appended _ _ _ _ Hx).
        unfold word_wrap_set, p_text_set, p_font_size_set, p_font_color_rgb_set,
          p_font_bold_set, p_font_name_set, mutate_paragraph0, mutate_text_frame.
        rewrite Hsz, Hname.
        do 5 step_appended Hx.
        unfold bind, mutate_shape. rewrite (lookup_appended _ _ _ _ Hx).
        intros E. discriminate E.
    + rewrite (add_text_box_bad_size s sl left top width height text font_size font_color
                 bold font_name align x Hx Hsz). intros E. discriminate E.
  - destruct (add_sp_None sl (new_textbox_sp left top width height) s Hx) as [E L].
    unfold add_text_box, add_textbox.
    unfold bind at 1. rewrite E.
    unfold word_wrap_set, p_text_set, p_font_size_set, p_font_color_rgb_set, p_font_bold_set,
      p_font_name_set, p_alignment_set, mutate_paragraph0, mutate_text_frame.
    do 7 skip_mutation. intros [= <- <-]. now rewrite L.
Qed.

(** [add_text_box] on a live slide, with printable text and font name and a
    font size of 1 pt to 4000 pt: the text box becomes the last element of
    the slide and nothing else changes; it has the geometry given and one
    paragraph with the text, colour, bold flag, font and alignment passed,
    wrapping on; the size is the one passed cut down to whole hundredths of
    a point (127 EMU).  It has no fill of its own and no alpha child. *)
Theorem add_text_box_appends (s : presentation) (sl : slide_handle)
    (left top width height : Z) (text : string) (font_size : Z) (font_color : rgb_color)
    (bold : bool) (font_name : string) (align : PP_ALIGN) (x : slide) :
  slides s !! sl = Some x ->
  12700 <= font_size <= 50800126 ->
  printable text = true -> printable font_name = true ->
  exists sh,
    add_text_box sl left top width height text font_size font_color bold font_name align s
    = inr ((sl, length (shapes x)),
           with_slides s (<[sl := mk_slide (shapes x ++ [sh])]> (slides s))) /\
    bounds sh = Some (left, top, width, height) /\
    txBody sh
    = Some (mk_text_frame true
              [mk_paragraph text (Some (font_size / 127 * 127)) (Some font_color) (Some bold)
                 (Some font_name) (Some align)]) /\
    has_srgb_fill sh = false /\ fill_color_val sh = None /\ alpha_vals sh = [].
Proof.
  intros Hx Hsz Htext Hname.
  apply font_size_ok_spec in Hsz. apply printable_xml_compatible in Hname.
  destruct (add_text_box_on_slide s sl left top width height text font_size font_color
              bold font_name align x Hx Hsz Hname) as (sh & E & Hb & Ht & Hrest).
  rewrite (paragraph_text_printable text Htext) in Ht.
  exists sh. auto.
Qed.

Lemma add_text_box_appends_witness :
  exists sh,
    add_text_box O (Inches 1) (Inches 5.5) (Inches 6.6) (Inches 1)
      "Eine Software" (Pt 20) AVEMO_WHITE false "Arial" LEFT one_card_state
    = inr ((O, 1%nat),
           with_slides one_card_state
             (<[O := mk_slide (shapes (default (mk_slide []) (slides one_card_state !! O))
                               ++ [sh])]> (slides one_card_state))) /\
    bounds sh = Some (914400, 5029200, 6035040, 914400) /\
    txBody sh
    = Some (mk_text_frame true
              [mk_paragraph "Eine Software" (Some 254000) (Some AVEMO_WHITE) (Some false)
                 (Some "Arial") (Some LEFT)]) /\
    has_srgb_fill sh = false /\ fill_color_val sh = None /\ alpha_vals sh = [].
Proof.
  refine (add_text_box_appends one_card_state O (Inches 1) (Inches 5.5) (Inches 6.6)
            (Inches 1) "Eine Software" (Pt 20) AVEMO_WHITE false "Arial" LEFT
            (default (mk_slide []) (slides one_card_state !! O)) _ _ _ _).
  - vm_compute. reflexivity.
  - vm_compute. split; discriminate.
  - reflexivity.
  - reflexivity.
Defined.

(* ================================================================== *)
(** ** More on the alpha injector *)

(** The second guard of the snippet: a solid fill whose colour is not an
    sRGB node (no colour set yet, or a theme colour) is left alone, without
    an error. *)
Theorem set_opacity_without_srgb_colour (s : presentation) (h : shape_handle) (sh : shape)
    (solidFill : element) (val : string) :
  lookup_shape h s = Some sh ->
  etree.find (spPr sh) (qn NS_a "solidFill") = Some solidFill ->
  etree.find solidFill (qn NS_a "srgbClr") = None ->
  set_opacity h val s = inr (tt, s) /\ alpha_vals sh = [].
Proof.
  intros Hh H1 H2. split.
  - rewrite (set_opacity_Some h val s sh Hh). unfold append_alpha. rewrite H1, H2.
    replace (with_spPr sh (spPr sh)) with sh by (now destruct sh).
    now rewrite (store_same _ _ _ Hh).
  - unfold alpha_vals, alpha_children. now rewrite H1, H2.
Qed.

Lemma set_opacity_without_srgb_colour_witness :
  exists s,
    (layout <- slide_layouts_getitem 6 ;;
     slide <- add_slide layout ;;
     glow <- add_shape slide OVAL (Inches 8) (Inches 1) (Inches 6) (Inches 6) ;;
     fill_solid glow)%B Presentation = inr (tt, s) /\
    set_opacity (O, O) "15000" s = inr (tt, s).
Proof.
  eexists. split; [vm_compute; reflexivity|].
  refine (proj1 (set_opacity_without_srgb_colour _ (O, O) _ _ "15000" _ _ _));
    vm_compute; reflexivity.
Defined.

Lemma find_alter_first_other t t' f cs :
  t <> t' ->
  (forall c, etree.tag (f c) = etree.tag c) ->
  List.find (etree.has_tag t') (etree.alter_first t f cs) = List.find (etree.has_tag t') cs.
Proof.
  intros Hne Hf. induction cs as [|c cs IH]; cbn; [reflexivity|].
  destruct (etree.has_tag t c) eqn:Hc; cbn.
  - unfold etree.has_tag. rewrite Hf.
    unfold etree.has_tag in Hc. apply String.eqb_eq in Hc.
    destruct (String.eqb_spec (etree.tag c) t') as [E|E]; [congruence|reflexivity].
  - now rewrite IH.
Qed.

Lemma find_update_other t t' f e :
  t <> t' ->
  (forall c, etree.tag (f c) = etree.tag c) ->
  etree.find (etree.update t f e) t' = etree.find e t'.
Proof.
  intros Hne Hf. destruct e as [tg at_ cs]. unfold etree.find, etree.update. cbn.
  now apply find_alter_first_other.
Qed.

(** The snippet touches nothing but the children of the colour node. *)
Lemma append_alpha_find_other val e t :
  t <> qn NS_a "solidFill" ->
  etree.find (append_alpha val e) t = etree.find e t.
Proof.
  intros Hne. unfold append_alpha.
  destruct (etree.find e (qn NS_a "solidFill")) as [sf|]; [|reflexivity].
  destruct (etree.find sf (qn NS_a "srgbClr")); [|reflexivity].
  apply find_update_other; [congruence | intros; apply tag_update].
Qed.

Lemma append_alpha_keeps_colour val sh :
  fill_color_val (with_spPr sh (append_alpha val (spPr sh))) = fill_color_val sh.
Proof.
  unfold fill_color_val. cbn [spPr with_spPr].
  destruct (etree.find (spPr sh) (qn NS_a "solidFill")) as [sf|] eqn:H1.
  - destruct (etree.find sf (qn NS_a "srgbClr")) as [clr|] eqn:H2.
    + destruct (append_alpha_found val _ _ _ H1 H2) as (sf' & E1 & E2).
      rewrite E1. cbn [mbind option_bind]. rewrite E2, H2. reflexivity.
    + unfold append_alpha. rewrite H1, H2, H1. cbn [mbind option_bind]. now rewrite H2.
  - rewrite (append_alpha_absent val _ H1), H1. reflexivity.
Qed.

Lemma append_alpha_keeps_bounds val sh :
  bounds (with_spPr sh (append_alpha val (spPr sh))) = bounds sh.
Proof.
  unfold bounds, shape_left, shape_top, shape_width, shape_height, xfrm_attr.
  cbn [spPr with_spPr].
  rewrite append_alpha_find_other by (vm_compute; discriminate). reflexivity.
Qed.

Lemma lookup_store_other h h' sh' s :
  h' <> h -> lookup_shape h' (store_shape h sh' s) = lookup_shape h' s.
Proof.
  intros Hne. destruct h as [i j], h' as [i' j'].
  unfold lookup_shape, store_shape. cbn [fst snd slides with_slides].
  rewrite list_lookup_alter.
  destruct (decide (i = i')) as [<-|Hi]; [|reflexivity].
  destruct (slides s !! i) as [x|]; [|reflexivity]. cbn.
  apply list_lookup_insert_ne. congruence.
Qed.

Lemma shape_counts_store h sh' s : shape_counts (store_shape h sh' s) = shape_counts s.
Proof.
  unfold shape_counts, store_shape. cbn [slides with_slides].
  apply list_eq. intros i. rewrite !list_lookup_fmap, list_lookup_alter.
  destruct (decide (fst h = i)) as [<-|]; [|reflexivity].
  destruct (slides s !! fst h) as [x|]; [|reflexivity]. cbn.
  now rewrite length_insert.
Qed.

Lemma alter_first_alter_first t f g cs :
  (forall c, etree.tag (g c) = etree.tag c) ->
  etree.alter_first t f (etree.alter_first t g cs) = etree.alter_first t (fun c => f (g c)) cs.
Proof.
  intros Hg. induction cs as [|c cs IH]; cbn; [reflexivity|].
  destruct (etree.has_tag t c) eqn:Hc; cbn.
  - unfold etree.has_tag in *. now rewrite Hg, Hc.
  - now rewrite Hc, IH.
Qed.

Lemma update_update t f g e :
  (forall c, etree.tag (g c) = etree.tag c) ->
  etree.update t f (etree.update t g e) = etree.update t (fun c => f (g c)) e.
Proof.
  intros Hg. destruct e as [tg at_ cs]. unfold etree.update. cbn.
  now rewrite alter_first_alter_first.
Qed.

Lemma alter_first_ext t f g cs :
  (forall c, f c = g c) -> etree.alter_first t f cs = etree.alter_first t g cs.
Proof.
  intros H. induction cs as [|c cs IH]; cbn; [reflexivity|].
  destruct (etree.has_tag t c); [now rewrite H | now rewrite IH].
Qed.

Lemma update_ext t f g e :
  (forall c, f c = g c) -> etree.update t f e = etree.update t g e.
Proof. intros H. unfold etree.update. now rewrite (alter_first_ext t f g _ H). Qed.

Lemma remove_alpha_append val c :
  etree.remove_all [qn NS_a "alpha"] (etree.append (parse_alpha val) c)
  = etree.remove_all [qn NS_a "alpha"] c.
Proof.
  destruct c as [tg at_ cs]. unfold etree.remove_all, etree.append.
  cbn [etree.tag etree.attrib etree.children]. rewrite List.filter_app.
  cbn [List.filter]. change (etree.tag_in [qn NS_a "alpha"] (parse_alpha val)) with true.
  cbn [negb]. now rewrite app_nil_r.
Qed.

(** Seen without the alpha children of the fill colour node, the snippet
    changes nothing at all. *)
Lemma without_alpha_append_alpha val sh :
  without_alpha (with_spPr sh (append_alpha val (spPr sh))) = without_alpha sh.
Proof.
  unfold without_alpha, with_spPr. cbn [spPr txBody]. f_equal.
  unfold append_alpha.
  destruct (etree.find (spPr sh) (qn NS_a "solidFill")) as [sf|]; [|reflexivity].
  destruct (etree.find sf (qn NS_a "srgbClr")); [|reflexivity].
  rewrite update_update by (intros; apply tag_update).
  apply update_ext. intros c.
  rewrite update_update by (intros; apply tag_append).
  apply update_ext. intros d. apply remove_alpha_append.
Qed.

(** The injector is local and never raises: whatever the state and the
    reference, it returns normally; the canvas, the layouts and the number
    of elements on every slide stay as they were; every other shape is
    unchanged; and of the shape itself nothing but the alpha children of
    its fill colour node can differ: with these taken away it is the shape
    it was, geometry, rotation, adjustments, fill, outline and text. *)
Theorem set_opacity_is_local (s : presentation) (h : shape_handle) (val : string) :
  exists s',
    set_opacity h val s = inr (tt, s') /\
    canvas s' = canvas s /\
    slide_layouts s' = slide_layouts s /\
    shape_counts s' = shape_counts s /\
    (forall h', h' <> h -> lookup_shape h' s' = lookup_shape h' s) /\
    (forall sh, lookup_shape h s = Some sh ->
       exists sh',
         lookup_shape h s' = Some sh' /\
         without_alpha sh' = without_alpha sh).
Proof.
  destruct (lookup_shape h s) as [sh|] eqn:Hh.
  - eexists. split; [apply (set_opacity_Some h val s sh Hh)|].
    split; [reflexivity|]. split; [reflexivity|].
    split; [apply shape_counts_store|].
    split; [intros h' Hne; now apply lookup_store_other|].
    intros sh0 [= <-]. eexists. split; [eapply lookup_store_same, Hh|].
    apply without_alpha_append_alpha.
  - exists s. split; [apply mutate_shape_None, Hh|].
    repeat split; congruence.
Qed.

Lemma set_opacity_is_local_witness :
  exists s' sh',
    set_opacity (O, O) "70000" one_card_state = inr (tt, s') /\
    lookup_shape (O, O) s' = Some sh' /\
    Some (without_alpha sh') = without_alpha <$> lookup_shape (O, O) one_card_state /\
    alpha_vals sh' = [Some "70000"] /\
    shape_counts s' = [1%nat].
Proof.
  destruct (set_opacity_is_local one_card_state (O, O) "70000")
    as (s' & E & _ & _ & Hc & _ & Hsh).
  destruct (lookup_shape (O, O) one_card_state) as [sh|] eqn:L;
    [|vm_compute in L; discriminate L].
  destruct (Hsh sh eq_refl) as (sh' & L' & Hw).
  exists s', sh'. split; [exact E|]. split; [exact L'|].
  split; [now rewrite Hw|].
  split.
  - assert (E' : set_opacity (O, O) "70000" one_card_state
                 = inr (tt, store_shape (O, O)
                              (with_spPr sh (append_alpha "70000" (spPr sh))) one_card_state))
      by (apply set_opacity_Some, L).
    rewrite E' in E. injection E as <-.
    rewrite (lookup_store_same _ _ _ _ L) in L'. injection L' as <-.
    vm_compute in L. injection L as <-. vm_compute. reflexivity.
  - rewrite Hc. vm_compute. reflexivity.
Defined.

(** Injecting in a loop accumulates: after the values [vals] were injected
    one by one into a shape with a solid sRGB fill, its colour node has one
    more alpha child per value, in injection order. *)
Theorem set_opacity_accumulates (vals : list string) (s : presentation) (h : shape_handle)
    (sh : shape) :
  lookup_shape h s = Some sh ->
  has_srgb_fill sh = true ->
  exists s' sh',
    for_ vals (fun val => set_opacity h val) s = inr (tt, s') /\
    lookup_shape h s' = Some sh' /\
    alpha_vals sh' = (alpha_vals sh ++ map Some vals)%list.
Proof.
  revert s sh. induction vals as [|v vals IH]; intros s sh Hh Hfill.
  - exists s, sh. cbn. rewrite app_nil_r. auto.
  - destruct (alpha_children_append_alpha v sh Hfill) as [Hfill1 Hv].
    set (sh1 := with_spPr sh (append_alpha v (spPr sh))) in *.
    pose proof (lookup_store_same h sh sh1 s Hh) as H1.
    destruct (IH _ sh1 H1 Hfill1) as (s' & sh' & E & L & Ha).
    exists s', sh'. split; [|split; [exact L|]].
    + cbn [for_]. unfold bind. rewrite (set_opacity_Some h v s sh Hh). exact E.
    + rewrite Ha. unfold alpha_vals at 1. rewrite Hv, map_app. cbn.
      rewrite <- app_assoc. reflexivity.
Qed.

Lemma set_opacity_accumulates_witness :
  exists s' sh',
    for_ ["15000"; "70000"; "60000"] (fun val => set_opacity (O, O) val) one_card_state
    = inr (tt, s') /\
    lookup_shape (O, O) s' = Some sh' /\
    alpha_vals sh' = [Some "15000"; Some "70000"; Some "60000"].
Proof.
  destruct (lookup_shape (O, O) one_card_state) as [sh|] eqn:L;
    [|vm_compute in L; discriminate L].
  assert (Hf : has_srgb_fill sh = true /\ alpha_vals sh = []).
  { vm_compute in L. injection L as <-. split; reflexivity. }
  destruct Hf as [Hf Ha].
  destruct (set_opacity_accumulates ["15000"; "70000"; "60000"] one_card_state (O, O) sh L Hf)
    as (s' & sh' & E & L' & H).
  rewrite Ha in H. exists s', sh'. auto.
Defined.

Lemma append_alpha_without_srgb_fill val sh :
  has_srgb_fill sh = false -> append_alpha val (spPr sh) = spPr sh.
Proof.
  unfold has_srgb_fill, append_alpha.
  destruct (etree.find (spPr sh) (qn NS_a "solidFill")) as [sf|]; [|reflexivity].
  destruct (etree.find sf (qn NS_a "srgbClr")); [|reflexivity].
  intros H. apply bool_decide_eq_false in H. exfalso. apply H. eauto.
Qed.

Lemma set_opacity_without_srgb_fill h val s sh :
  lookup_shape h s = Some sh -> has_srgb_fill sh = false ->
  set_opacity h val s = inr (tt, s).
Proof.
  intros Hh Hfill.
  rewrite (set_opacity_Some h val s sh Hh), (append_alpha_without_srgb_fill val sh Hfill).
  replace (with_spPr sh (spPr sh)) with sh by (now destruct sh).
  now rewrite (store_same _ _ _ Hh).
Qed.

(** A text box cannot be made translucent: the snippet applied to what
    [add_text_box] returns changes nothing. *)
Theorem text_box_takes_no_opacity (s : presentation) (sl : slide_handle)
    (left top width height : Z) (text : string) (font_size : Z) (font_color : rgb_color)
    (bold : bool) (font_name : string) (align : PP_ALIGN) (val : string) :
  (txBox <- add_text_box sl left top width height text font_size font_color bold
              font_name align ;;
   set_opacity txBox val ;;
   ret txBox)%B s
  = add_text_box sl left top width height text font_size font_color bold font_name align s.
Proof.
  pose proof (add_text_box_no_fill s sl left top width height text font_size font_color
                bold font_name align) as Hfill.
  unfold bind at 1.
  destruct (add_text_box sl left top width height text font_size font_color bold font_name
              align s) as [e|[h s']]; [reflexivity|].
  specialize (Hfill h s' eq_refl). unfold bind.
  destruct (lookup_shape h s') as [sh|] eqn:L.
  - now rewrite (set_opacity_without_srgb_fill h val s' sh L Hfill).
  - unfold set_opacity, mutate_spPr. now rewrite (mutate_shape_None _ _ _ L).
Qed.

(** The pattern of the script's glass cards: a shape made by
    [add_shape_with_opacity] and injected once carries exactly one alpha
    child, with the value given, and keeps its bounds and colour. *)
Theorem card_with_one_opacity (s : presentation) (sl : slide_handle)
    (k : MSO_SHAPE) (left top width height : Z) (c : rgb_color) (o : float)
    (lc : option rgb_color) (val : string) :
  is_Some (slides s !! sl) ->
  exists hd s' sh,
    (card <- add_shape_with_opacity sl k left top width height c o lc ;;
     set_opacity card val ;;
     ret card)%B s = inr (hd, s') /\
    lookup_shape hd s' = Some sh /\
    alpha_vals sh = [Some val] /\
    bounds sh = Some (left, top, width, height) /\
    fill_color_val sh = Some (rgb_str c).
Proof.
  intros [x Hx].
  destruct (add_shape_with_opacity_on_slide s sl k left top width height c o lc x Hx)
    as (s1 & sh1 & E & L & Hl & Ht & Hw & Hh & Hfill & Ha).
  destruct (add_shape_with_opacity_style_on_slide s sl k left top width height c o lc (mk_is_Some _ _ Hx))
    as (hd' & s1' & sh1' & E' & L' & Hc & _).
  rewrite E in E'. injection E' as <- <-. rewrite L in L'. injection L' as <-.
  destruct (alpha_children_append_alpha val sh1 Hfill) as [_ Hval].
  exists (sl, length (shapes x)), (store_shape (sl, length (shapes x))
            (with_spPr sh1 (append_alpha val (spPr sh1))) s1),
         (with_spPr sh1 (append_alpha val (spPr sh1))).
  split; [|split; [|split; [|split]]].
  - unfold bind at 1. rewrite E. unfold bind.
    now rewrite (set_opacity_Some _ val s1 sh1 L).
  - eapply lookup_store_same, L.
  - unfold alpha_vals in *. rewrite Hval, map_app, Ha. reflexivity.
  - rewrite append_alpha_keeps_bounds. unfold bounds. now rewrite Hl, Ht, Hw, Hh.
  - now rewrite append_alpha_keeps_colour.
Qed.

Lemma card_with_one_opacity_witness :
  exists hd s' sh,
    (card <- add_shape_with_opacity O ROUNDED_RECTANGLE (Inches 0.8) (Inches 5.2) (Inches 7)
               (Inches 1.5) AVEMO_BLACK 0.7 (Some AVEMO_ORANGE) ;;
     set_opacity card "70000" ;;
     ret card)%B one_card_state = inr (hd, s') /\
    lookup_shape hd s' = Some sh /\
    alpha_vals sh = [Some "70000"] /\
    bounds sh = Some (731520, 4754880, 6400800, 1371600) /\
    fill_color_val sh = Some "1A1A1A".
Proof.
  apply (card_with_one_opacity one_card_state O ROUNDED_RECTANGLE (Inches 0.8) (Inches 5.2)
           (Inches 7) (Inches 1.5) AVEMO_BLACK 0.7 (Some AVEMO_ORANGE) "70000").
  vm_compute. eauto.
Defined.

(* ================================================================== *)
(** ** More on the run *)

(** Each [create_presentation_N] saves before it acknowledges: in any world
    it either writes its artifact and then prints the acknowledgement, or,
    when the write is refused, raises that very exception with nothing
    acknowledged and no artifact recorded as written.  The one trace a
    refused write can leave is a truncated file at the function's own path,
    when the write failed after the file was opened. *)
Theorem creators_write_then_acknowledge :
  Forall2
    (fun (create : IO unit) (a : (string * presentation) * string) =>
       forall w,
         match save_fault w (fst (fst a)) with
         | None =>
             create w = (inr tt, {| save_fault := save_fault w;
                                    written := written w ++ [fst a];
                                    truncated := truncated w;
                                    stdout := stdout w ++ [snd a] |})
         | Some (e, opened) =>
             create w = (inl e, {| save_fault := save_fault w;
                                   written := written w;
                                   truncated :=
                                     truncated w ++ (if opened then [fst (fst a)] else []);
                                   stdout := stdout w |})
         end)
    creators (zip artifacts acknowledgements).
Proof.
  unfold creators, artifacts, acknowledgements. cbn [zip zip_with].
  apply List.Forall2_cons.
  { intros w. cbn [fst snd]. destruct (save_fault w _) as [[e o]|] eqn:Hw;
      [ exact (build_and_save_fault _ _ _ w _ e o built_1 Hw)
      | exact (build_and_save_written _ _ _ w _ built_1 Hw) ]. }
  apply List.Forall2_cons.
  { intros w. cbn [fst snd]. destruct (save_fault w _) as [[e o]|] eqn:Hw;
      [ exact (build_and_save_fault _ _ _ w _ e o built_2 Hw)
      | exact (build_and_save_written _ _ _ w _ built_2 Hw) ]. }
  apply List.Forall2_cons.
  { intros w. cbn [fst snd]. destruct (save_fault w _) as [[e o]|] eqn:Hw;
      [ exact (build_and_save_fault _ _ _ w _ e o built_3 Hw)
      | exact (build_and_save_written _ _ _ w _ built_3 Hw) ]. }
  apply List.Forall2_cons.
  { intros w. cbn [fst snd]. destruct (save_fault w _) as [[e o]|] eqn:Hw;
      [ exact (build_and_save_fault _ _ _ w _ e o built_4 Hw)
      | exact (build_and_save_written _ _ _ w _ built_4 Hw) ]. }
  apply List.Forall2_cons.
  { intros w. cbn [fst snd]. destruct (save_fault w _) as [[e o]|] eqn:Hw;
      [ exact (build_and_save_fault _ _ _ w _ e o built_5 Hw)
      | exact (build_and_save_written _ _ _ w _ built_5 Hw) ]. }
  apply List.Forall2_nil.
Qed.

(** What [main] leaves behind in any world, whatever the disk does: the
    artifacts written in full are always the first [k] of the five, in
    order, for the first [k] whose write is refused (or all five); exactly
    these are acknowledged; the closing lines are printed and [main] returns
    normally only when all five are written; otherwise the exception of the
    refused write comes out unchanged, and of the refused artifact there is
    at most a truncated file.  No later artifact is touched. *)
Theorem main_writes_a_prefix (w : world) :
  exists k,
    (k <= 5)%nat /\
    Forall (fun a => save_fault w (fst a) = None) (take k artifacts) /\
    save_fault (snd (main w)) = save_fault w /\
    written (snd (main w)) = (written w ++ take k artifacts)%list /\
    stdout (snd (main w))
    = (stdout w ++ banner ++ take k acknowledgements
       ++ (if (k =? 5)%nat then trailer else []))%list /\
    match artifacts !! k with
    | Some a =>
        exists e opened,
          save_fault w (fst a) = Some (e, opened) /\
          fst (main w) = inl e /\
          truncated (snd (main w)) = (truncated w ++ (if opened then [fst a] else []))%list
    | None => fst (main w) = inr tt /\ truncated (snd (main w)) = truncated w
    end.
Proof.
  unfold main, create_presentation_1, create_presentation_2, create_presentation_3,
    create_presentation_4, create_presentation_5.
  do 2 io_print.
  destruct (save_fault w "/root/fahrerplanung/presentations/design-1-cinematic-dark.pptx")
    as [[e o]|] eqn:H1.
  { exists 0%nat. io_fault built_1 H1. cbn [fst snd save_fault written truncated stdout].
    split; [lia|]. split; [apply List.Forall_nil|]. split; [reflexivity|].
    split; [cbn; now rewrite app_nil_r|].
    split; [|cbn; eauto].
    unfold banner, trailer. cbn. rewrite ?app_nil_r, ?app_assoc_cons. reflexivity. }
  io_written built_1 H1.
  destruct (save_fault w "/root/fahrerplanung/presentations/design-2-minimal-glass.pptx")
    as [[e o]|] eqn:H2.
  { exists 1%nat. io_fault built_2 H2. cbn [fst snd save_fault written truncated stdout].
    split; [lia|]. split; [repeat (apply List.Forall_cons; [assumption|]); apply List.Forall_nil|].
    split; [reflexivity|]. split; [reflexivity|].
    split; [|cbn; eauto].
    unfold artifacts, acknowledgements, banner, trailer. cbn [take Nat.eqb app snd].
    rewrite ?app_nil_r, ?app_assoc_cons. reflexivity. }
  io_written built_2 H2.
  destruct (save_fault w "/root/fahrerplanung/presentations/design-3-bold-editorial.pptx")
    as [[e o]|] eqn:H3.
  { exists 2%nat. io_fault built_3 H3. cbn [fst snd save_fault written truncated stdout].
    split; [lia|]. split; [repeat (apply List.Forall_cons; [assumption|]); apply List.Forall_nil|].
    split; [reflexivity|].
    split; [unfold artifacts; cbn [take]; now rewrite ?app_assoc_cons|].
    split; [|cbn; eauto].
    unfold artifacts, acknowledgements, banner, trailer. cbn [take Nat.eqb app snd].
    rewrite ?app_nil_r, ?app_assoc_cons. reflexivity. }
  io_written built_3 H3.
  destruct (save_fault w "/root/fahrerplanung/presentations/design-4-asymmetric-modern.pptx")
    as [[e o]|] eqn:H4.
  { exists 3%nat. io_fault built_4 H4. cbn [fst snd save_fault written truncated stdout].
    split; [lia|]. split; [repeat (apply List.Forall_cons; [assumption|]); apply List.Forall_nil|].
    split; [reflexivity|].
    split; [unfold artifacts; cbn [take]; now rewrite ?app_assoc_cons|].
    split; [|cbn; eauto].
    unfold artifacts, acknowledgements, banner, trailer. cbn [take Nat.eqb app snd].
    rewrite ?app_nil_r, ?app_assoc_cons. reflexivity. }
  io_written built_4 H4.
  destruct (save_fault w "/root/fahrerplanung/presentations/design-5-dashboard-tech.pptx")
    as [[e o]|] eqn:H5.
  { exists 4%nat. io_fault built_5 H5. cbn [fst snd save_fault written truncated stdout].
    split; [lia|]. split; [repeat (apply List.Forall_cons; [assumption|]); apply List.Forall_nil|].
    split; [reflexivity|].
    split; [unfold artifacts; cbn [take]; now rewrite ?app_assoc_cons|].
    split; [|cbn; eauto].
    unfold artifacts, acknowledgements, banner, trailer. cbn [take Nat.eqb app snd].
    rewrite ?app_nil_r, ?app_assoc_cons. reflexivity. }
  io_written built_5 H5.
  exists 5%nat. io_print. unfold print. cbn [save_fault written truncated stdout fst snd].
  split; [lia|]. split; [repeat (apply List.Forall_cons; [assumption|]); apply List.Forall_nil|].
  split; [reflexivity|].
  split; [unfold artifacts; cbn [take]; now rewrite ?app_assoc_cons|].
  split; [|split; reflexivity].
  unfold artifacts, acknowledgements, banner, trailer. cbn [take Nat.eqb app snd].
  rewrite ?app_nil_r, ?app_assoc_cons. reflexivity.
Qed.

(* ================================================================== *)
(** ** Transparency in the built decks *)

(** The script injects at most once per shape: in each of the five decks no
    shape has two alpha children; the shapes that have one are auto shapes
    with a solid sRGB fill, never text boxes; every alpha value is a whole
    number between 0 and 100000.  Designs 3 and 4 use no transparency. *)
Theorem decks_alpha_discipline :
  map (fun build => option_map (fun prs => (deck_alpha_ok prs, translucent_count prs))
                      (built build))
    deck_builders
  = [ Some (true, 14%nat); Some (true, 10%nat); Some (true, 0%nat); Some (true, 0%nat);
      Some (true, 16%nat) ].
Proof. vm_compute. reflexivity. Qed.

(* ================================================================== *)
(** ** [add_gradient_background] *)

Lemma has_tag_eq t e : etree.has_tag t e = true <-> etree.tag e = t.
Proof. unfold etree.has_tag. apply String.eqb_eq. Qed.

Lemma find_Some_tag e t c : etree.find e t = Some c -> etree.tag c = t.
Proof.
  unfold etree.find. intros H. apply find_some in H as [_ H]. now apply has_tag_eq.
Qed.

Lemma find_insert_before t ts c cs :
  etree.tag c = t ->
  List.find (etree.has_tag t) cs = None ->
  List.find (etree.has_tag t) (etree.insert_before ts c cs) = Some c.
Proof.
  intros Hc. apply has_tag_eq in Hc.
  induction cs as [|x cs IH]; cbn; [now rewrite Hc|].
  destruct (etree.has_tag t x) eqn:Hx; [discriminate|]. intros Hn.
  destruct (etree.tag_in ts x); cbn; [now rewrite Hc | now rewrite Hx, IH].
Qed.

Lemma find_filter_removed t ts cs :
  In t ts ->
  List.find (etree.has_tag t) (List.filter (fun c => negb (etree.tag_in ts c)) cs) = None.
Proof.
  intros Hin. induction cs as [|x cs IH]; cbn; [reflexivity|].
  destruct (etree.tag_in ts x) eqn:Hx; cbn; [exact IH|].
  destruct (etree.has_tag t x) eqn:Ht; [|exact IH].
  apply has_tag_eq in Ht. unfold etree.tag_in in Hx.
  assert (existsb (String.eqb (etree.tag x)) ts = true) as Hex.
  { apply existsb_exists. exists t. split; [exact Hin | now apply String.eqb_eq]. }
  rewrite Hex in Hx. discriminate Hx.
Qed.

Lemma find_remove_all t ts e :
  In t ts -> etree.find (etree.remove_all ts e) t = None.
Proof.
  intros Hin. destruct e as [tg at_ cs]. unfold etree.find, etree.remove_all.
  cbn [etree.children]. now apply find_filter_removed.
Qed.

Lemma find_insert_element_before t c successors e :
  etree.tag c = t -> etree.find e t = None ->
  etree.find (etree.insert_element_before c successors e) t = Some c.
Proof.
  intros Hc Hn. destruct e as [tg at_ cs]. unfold etree.find, etree.insert_element_before in *.
  cbn [etree.children] in *. now apply find_insert_before.
Qed.

Lemma find_app_None {A} (f : A -> bool) (l l' : list A) :
  List.find f l = None -> List.find f (l ++ l') = List.find f l'.
Proof.
  induction l as [|x l IH]; cbn; [reflexivity|].
  destruct (f x); [discriminate | exact IH].
Qed.

Lemma find_append_new t c e :
  etree.tag c = t -> etree.find e t = None -> etree.find (etree.append c e) t = Some c.
Proof.
  intros Hc Hn. destruct e as [tg at_ cs]. unfold etree.find, etree.append in *.
  cbn [etree.children] in *. rewrite (find_app_None _ _ _ Hn). cbn [List.find].
  apply has_tag_eq in Hc. now rewrite Hc.
Qed.

(** After [fill.solid()] the element has a solid fill, whatever it had. *)
Lemma find_get_or_change_to_solidFill successors xPr :
  exists solidFill,
    etree.find (get_or_change_to "solidFill" successors xPr) (qn NS_a "solidFill")
    = Some solidFill.
Proof.
  unfold get_or_change_to.
  destruct (etree.find xPr (qn NS_a "solidFill")) as [sf|] eqn:H; [eauto|].
  eexists. apply find_insert_element_before; [reflexivity|].
  apply find_remove_all. vm_compute. auto.
Qed.

Lemma tag_get_or_change_to fill successors xPr :
  etree.tag (get_or_change_to fill successors xPr) = etree.tag xPr.
Proof.
  unfold get_or_change_to. destruct (etree.find xPr (qn NS_a fill)); [reflexivity|].
  now destruct xPr.
Qed.

Lemma tag_get_or_change_to_srgbClr solidFill :
  etree.tag (get_or_change_to_srgbClr solidFill) = etree.tag solidFill.
Proof.
  unfold get_or_change_to_srgbClr.
  destruct (etree.find solidFill (qn NS_a "srgbClr")); [reflexivity|]. now destruct solidFill.
Qed.

Lemma find_get_or_change_to_srgbClr solidFill :
  exists srgbClr,
    etree.find (get_or_change_to_srgbClr solidFill) (qn NS_a "srgbClr") = Some srgbClr.
Proof.
  unfold get_or_change_to_srgbClr.
  destruct (etree.find solidFill (qn NS_a "srgbClr")) as [c|] eqn:H; [eauto|].
  eexists. apply find_append_new; [reflexivity|].
  apply find_remove_all. vm_compute. auto 10.
Qed.

Lemma assoc_assoc_set k v l : etree.assoc k (etree.assoc_set k v l) = Some v.
Proof.
  induction l as [|[k' v'] l IH]; cbn; [now rewrite String.eqb_refl|].
  destruct (String.eqb k' k) eqn:E; cbn; [now rewrite String.eqb_refl|now rewrite E].
Qed.

Lemma get_set k v e : etree.get (etree.set k v e) k = Some v.
Proof. destruct e. unfold etree.get, etree.set. cbn. apply assoc_assoc_set. Qed.

Lemma tag_set k v e : etree.tag (etree.set k v e) = etree.tag e.
Proof. reflexivity. Qed.

(** A colour assigned to a solid fill is the colour read back. *)
Lemma fore_color_rgb_set_solid c xPr solidFill :
  etree.find xPr (qn NS_a "solidFill") = Some solidFill ->
  exists xPr' solidFill' srgbClr',
    fore_color_rgb_set c xPr = inr xPr' /\
    etree.tag xPr' = etree.tag xPr /\
    etree.find xPr' (qn NS_a "solidFill") = Some solidFill' /\
    etree.find solidFill' (qn NS_a "srgbClr") = Some srgbClr' /\
    etree.get srgbClr' "val" = Some (rgb_str c).
Proof.
  intros H. unfold fore_color_rgb_set. rewrite H.
  destruct (find_get_or_change_to_srgbClr solidFill) as [clr Hclr].
  eexists _, _, _. split; [reflexivity|]. split; [reflexivity|]. split; [|split].
  - rewrite find_update
      by (intros c0; rewrite tag_update; apply tag_get_or_change_to_srgbClr).
    rewrite H. reflexivity.
  - rewrite find_update by (intros; apply tag_set). rewrite Hclr. reflexivity.
  - apply get_set.
Qed.

Lemma find_bgPr_get_or_add bg :
  exists bgPr, etree.find (get_or_add_bgPr bg) (qn NS_p "bgPr") = Some bgPr.
Proof.
  unfold get_or_add_bgPr. destruct bg as [b|]; [|vm_compute; eauto].
  destruct (etree.find b (qn NS_p "bgPr")) eqn:H; [eauto | vm_compute; eauto].
Qed.

Lemma find_update_tagged t f e :
  (forall c, etree.tag c = t -> etree.tag (f c) = t) ->
  etree.find (etree.update t f e) t = f <$> etree.find e t.
Proof.
  intros Hf. destruct e as [tg at_ cs]. unfold etree.find, etree.update.
  cbn [etree.children]. apply find_alter_first.
  intros c Hc. apply has_tag_eq. apply Hf. now apply has_tag_eq.
Qed.

Lemma add_gradient_background_result (background : option element)
    (color1 color2 : rgb_color) (direction : string) :
  exists bg',
    add_gradient_background background color1 color2 direction = inr bg' /\
    background_color bg' = Some (rgb_str color1).
Proof.
  unfold add_gradient_background.
  destruct (find_bgPr_get_or_add background) as [bgPr0 H0].
  set (bg0 := get_or_add_bgPr background) in *.
  rewrite find_update by (intros c; apply tag_get_or_change_to).
  rewrite H0. cbn [fmap option_fmap option_map].
  destruct (find_get_or_change_to_solidFill bgPr_fill_successors bgPr0) as [sf Hsf].
  destruct (fore_color_rgb_set_solid color1 _ sf Hsf)
    as (bgPr' & sf' & clr' & E & Htag & F1 & F2 & F3).
  rewrite E. eexists. split; [reflexivity|].
  unfold background_color. rewrite find_update_tagged.
  - rewrite find_update by (intros c; apply tag_get_or_change_to). rewrite H0.
    cbn [fmap option_fmap option_map mbind option_bind].
    rewrite F1. cbn [mbind option_bind]. rewrite F2. cbn [mbind option_bind]. exact F3.
  - intros c _. rewrite Htag, tag_get_or_change_to. now apply (find_Some_tag bg0).
Qed.

(** [add_gradient_background] paints a plain colour: whatever background
    the slide had, the call returns normally and the background is then a
    solid fill of [color1]; [color2] and [direction] change nothing; and a
    second call replaces the colour, the last one wins. *)
Theorem add_gradient_background_is_solid (background : option element)
    (color1 color2 : rgb_color) (direction : string) :
  exists bg',
    add_gradient_background background color1 color2 direction = inr bg' /\
    background_color bg' = Some (rgb_str color1) /\
    (forall color2' direction',
        add_gradient_background background color1 color2' direction' = inr bg') /\
    (forall color1' color2' direction',
        exists bg'',
          add_gradient_background (Some bg') color1' color2' direction' = inr bg'' /\
          background_color bg'' = Some (rgb_str color1')).
Proof.
  destruct (add_gradient_background_result background color1 color2 direction)
    as (bg' & E & Hc).
  exists bg'. split; [exact E|]. split; [exact Hc|]. split.
  - intros color2' direction'. exact E.
  - intros color1' color2' direction'. apply add_gradient_background_result.
Qed.

Example add_gradient_background_twice :
  (bg ← (match add_gradient_background None AVEMO_BLACK AVEMO_ORANGE "vertical" with
         | inr bg => Some bg | inl _ => None end);
   bg' ← (match add_gradient_background (Some bg) AVEMO_WHITE AVEMO_ORANGE "horizontal" with
          | inr bg' => Some bg' | inl _ => None end);
   Some (background_color bg, background_color bg', bg'))
  = Some (Some "1A1A1A", Some "FFFFFF",
          Element (qn NS_p "bg") []
            [ Element (qn NS_p "bgPr") []
                [ Element (qn NS_a "solidFill") []
                    [Element (qn NS_a "srgbClr") [("val", "FFFFFF")] []];
                  Element (qn NS_a "effectLst") [] [] ] ]).
Proof. vm_compute. reflexivity. Qed.

(* ================================================================== *)
(** ** Each slide section appends one slide *)

Lemma grows_conseq {A} n k k' (m : B A) (post post' : A -> Prop) :
  grows n k m post -> k = k' -> (forall x, post x -> post' x) -> grows n k' m post'.
Proof.
  intros H <- Hp s Hs. specialize (H s Hs). destruct (m s) as [e|[x s']]; [exact I|].
  destruct H as (H1 & H2 & H3). auto.
Qed.

Lemma grows_ret {A} n (x : A) (post : A -> Prop) : post x -> grows n 0 (ret x) post.
Proof. intros H s Hs. cbn. auto. Qed.

Lemma grows_ret_True {A} n (x : A) : grows n 0 (ret x) (fun _ => True).
Proof. now apply grows_ret. Qed.

Lemma grows_lift {A} n (r : exn + A) : grows n 0 (lift r) (fun _ => True).
Proof. intros s Hs. unfold lift. destruct r; cbn; auto. Qed.

Lemma grows_bind {A C} n k1 k2 k (m : B A) (f : A -> B C) (post : A -> Prop)
    (post' : C -> Prop) :
  grows n k1 m post ->
  (forall x, post x -> grows n k2 (f x) post') ->
  k = (k2 + k1)%nat ->
  grows n k (bind m f) post'.
Proof.
  intros Hm Hf -> s Hs. unfold bind. specialize (Hm s Hs).
  destruct (m s) as [e|[x s']]; [exact I|]. destruct Hm as (H1 & H2 & H3).
  assert (Hs' : (n <= length (slides s'))%nat) by lia.
  specialize (Hf x H3 s' Hs'). destruct (f x s') as [e|[y s'']]; [exact I|].
  destruct Hf as (G1 & G2 & G3). split; [congruence|]. split; [lia | exact G3].
Qed.

Lemma grows_for {A} n (l : list A) (body : A -> B unit) :
  (forall x, grows n 0 (body x) (fun _ => True)) ->
  grows n 0 (for_ l body) (fun _ => True).
Proof.
  intros Hb. induction l as [|x l IH]; cbn [for_].
  - now apply grows_ret.
  - eapply grows_bind; [apply Hb | intros _ _; exact IH | reflexivity].
Qed.

Lemma grows_slide_layouts_getitem n i :
  grows n 0 (slide_layouts_getitem i) (fun _ => True).
Proof.
  intros s Hs. unfold slide_layouts_getitem. destruct (slide_layouts s !! i); cbn; auto.
Qed.

Lemma grows_add_slide n layout : grows n 1 (add_slide layout) (fun h => (n <= h)%nat).
Proof.
  intros s Hs. cbn. split; [|split; [|exact Hs]].
  - now rewrite take_app_le.
  - rewrite length_app. cbn. lia.
Qed.

Lemma take_alter_ge {A} (f : A -> A) n i (l : list A) :
  (n <= i)%nat -> take n (alter f i l) = take n l.
Proof.
  intros Hi. apply list_eq. intros j. rewrite !lookup_take.
  destruct (decide (j < n)%nat); [|reflexivity].
  apply list_lookup_alter_ne. lia.
Qed.

Lemma grows_add_sp n sl sh :
  (n <= sl)%nat -> grows n 0 (add_sp sl sh) (fun h => (n <= fst h)%nat).
Proof.
  intros Hsl s Hs. cbn. split; [|split; [|exact Hsl]].
  - now apply take_alter_ge.
  - now rewrite length_alter.
Qed.

Lemma grows_mutate_shape n f h :
  (n <= fst h)%nat -> grows n 0 (mutate_shape f h) (fun _ => True).
Proof.
  intros Hh s Hs. unfold mutate_shape.
  destruct (lookup_shape h s) as [sh|]; [|cbn; auto].
  destruct (f sh) as [e|sh']; [exact I|]. cbn. split; [|split; [|exact I]].
  - now apply take_alter_ge.
  - now rewrite length_alter.
Qed.

(** Descends through a builder; reference arguments are justified by what
    the steps that produced them return. *)
Ltac head_of m :=
  lazymatch m with
  | ?f _ => head_of f
  | _ => m
  end.

Ltac grows_leaf extra :=
  cbv beta zeta;
  lazymatch goal with
  | |- grows _ _ (bind _ _) _ =>
      eapply grows_bind;
        [ grows_leaf extra
        | let x := fresh "x" in let Hx := fresh "Hx" in
          intros x Hx; cbv beta in Hx; grows_leaf extra
        | reflexivity ]
  | |- grows _ _ (for_ _ _) _ =>
      apply grows_for; let x := fresh "x" in intros x;
      eapply (grows_conseq _ _ _ _ (fun _ => True));
        [grows_leaf extra | reflexivity | exact (fun _ _ => I)]
  | |- grows _ _ (match ?x with _ => _ end) _ => destruct x; grows_leaf extra
  | |- grows _ _ (ret ?x) _ =>
      first [ apply grows_ret;
              lazymatch goal with
              | H : (_ <= fst x)%nat |- _ => exact H
              | H : (_ <= x)%nat |- _ => exact H
              end
            | apply grows_ret_True ]
  | |- grows _ _ (lift _) _ => apply grows_lift
  | |- grows _ _ (slide_layouts_getitem _) _ => apply grows_slide_layouts_getitem
  | |- grows _ _ (add_slide _) _ => apply grows_add_slide
  | |- grows _ _ (add_sp _ _) _ => apply grows_add_sp; assumption
  | |- grows _ _ (mutate_shape _ _) _ => apply grows_mutate_shape; assumption
  | |- grows _ _ ?m _ =>
      first [ extra | let h := head_of m in unfold h; grows_leaf extra ]
  end.

Lemma grows_add_text_box n slide left top width height text font_size font_color
    bold font_name align :
  (n <= slide)%nat ->
  grows n 0 (add_text_box slide left top width height text font_size font_color
               bold font_name align) (fun h => (n <= fst h)%nat).
Proof.
  intros Hsl. unfold add_text_box.
  eapply (grows_conseq _ _ _ _ (fun h => (n <= fst h)%nat));
    [grows_leaf fail | reflexivity | auto].
Qed.

Ltac grows_tac := grows_leaf ltac:(apply grows_add_text_box; assumption).

Lemma slide_builders_grow n :
  Forall (Forall (fun b => grows n 1 b (fun _ => True))) slide_builders.
Proof.
  unfold slide_builders.
  repeat (apply List.Forall_cons; [|]); try apply List.Forall_nil.
  all: repeat (apply List.Forall_cons; [|]); try apply List.Forall_nil.
  all: lazymatch goal with
       | |- grows _ _ ?b _ =>
           eapply (grows_conseq _ _ _ _ (fun _ => True));
             [unfold b; grows_tac | reflexivity | exact (fun _ _ => I)]
       end.
Qed.

Lemma one_more {A} (l l' : list A) :
  take (length l) l' = l -> length l' = S (length l) -> exists x, l' = (l ++ [x])%list.
Proof.
  intros Ht Hl. destruct (drop (length l) l') as [|x [|y r]] eqn:Hd.
  - apply (f_equal length) in Hd. rewrite length_drop in Hd. cbn in Hd. lia.
  - exists x. rewrite <- (take_drop (length l) l'), Ht, Hd. reflexivity.
  - apply (f_equal length) in Hd. rewrite length_drop in Hd. cbn in Hd. lia.
Qed.

Lemma grows_one_appends (b : B unit) :
  (forall n, grows n 1 b (fun _ => True)) ->
  keeps_canvas b ->
  forall s,
    match b s with
    | inr (_, s') =>
        (exists new, slides s' = (slides s ++ [new])%list) /\
        canvas s' = canvas s
    | inl _ => True
    end.
Proof.
  intros Hg Hk s. specialize (Hg (length (slides s)) s (Nat.le_refl _)). specialize (Hk s).
  destruct (b s) as [e|[[] s']]; [exact I|].
  destruct Hg as (Ht & Hl & _). split; [|exact Hk].
  apply one_more; [|exact Hl]. rewrite Ht. apply firstn_all.
Qed.

(** Every slide section of every design, run in any presentation, either
    raises or appends exactly one slide: the slides that were there keep
    their place and content, element for element, and the canvas is
    untouched.  No statement of a slide section reaches back into an earlier
    slide. *)
Theorem slide_sections_append_one_slide :
  Forall
    (Forall (fun b : B unit =>
       forall s,
         match b s with
         | inr (_, s') =>
             (exists new, slides s' = (slides s ++ [new])%list) /\
             canvas s' = canvas s
         | inl _ => True
         end))
    slide_builders.
Proof.
  assert (Hg : forall n, Forall (Forall (fun b => grows n 1 b (fun _ => True))) slide_builders)
    by (intros n; apply slide_builders_grow).
  pose proof slide_builders_keep_canvas as Hk.
  unfold slide_builders in *.
  repeat lazymatch goal with
         | |- Forall _ (_ :: _) => apply List.Forall_cons
         | |- Forall _ [] => apply List.Forall_nil
         end.
  all: apply grows_one_appends;
    [ intros n; specialize (Hg n); rewrite !Forall_cons_iff in Hg; tauto
    | rewrite !Forall_cons_iff in Hk; tauto ].
Qed.

(** The title of the first slide (lines 106-108): assigning the font name
    of a text box after [add_text_box] replaces the font name and nothing
    else; text, size (in whole hundredths of a point), colour, bold flag,
    alignment and bounds stay as [add_text_box] set them, and the box is
    still the last element.  Text and font names are printable, the font
    size is one the library takes. *)
Theorem font_name_override (s : presentation) (sl : slide_handle)
    (left top width height : Z) (text : string) (font_size : Z) (font_color : rgb_color)
    (bold : bool) (font_name : string) (align : PP_ALIGN) (name' : string) (x : slide) :
  slides s !! sl = Some x ->
  12700 <= font_size <= 50800126 ->
  printable text = true -> printable font_name = true -> printable name' = true ->
  exists sh,
    (title <- add_text_box sl left top width height text font_size font_color bold
                font_name align ;;
     p_font_name_set name' title ;;
     ret title)%B s
    = inr ((sl, length (shapes x)),
           with_slides s (<[sl := mk_slide (shapes x ++ [sh])]> (slides s))) /\
    bounds sh = Some (left, top, width, height) /\
    txBody sh
    = Some (mk_text_frame true
              [mk_paragraph text (Some (font_size / 127 * 127)) (Some font_color) (Some bold)
                 (Some name') (Some align)]).
Proof.
  intros Hx Hsz Htext Hname Hname'.
  apply font_size_ok_spec in Hsz.
  apply printable_xml_compatible in Hname, Hname'.
  destruct (add_text_box_on_slide s sl left top width height text font_size font_color
              bold font_name align x Hx Hsz Hname) as (sh & E & Hb & Ht & _).
  rewrite (paragraph_text_printable text Htext) in Ht.
  fold (appended s sl x sh) in E. fold (appended s sl x).
  unfold bind at 1. rewrite E.
  unfold p_font_name_set. rewrite Hname'.
  erewrite (bind_mutate_appended _ _ s sl x sh); [ | exact Hx | reflexivity ].
  eexists. split; [reflexivity|]. split.
  - unfold bounds, shape_left, shape_top, shape_width, shape_height, xfrm_attr in *.
    cbn [spPr]. exact Hb.
  - cbn [txBody]. rewrite Ht. reflexivity.
Qed.

Lemma font_name_override_witness :
  exists sh,
    (title <- add_text_box O (Inches 0.8) (Inches 2.2) (Inches 10) (Inches 1.5)
                "Fahrersoftware" (Pt 96) AVEMO_WHITE true "Arial" LEFT ;;
     p_font_name_set "Arial Black" title ;;
     ret title)%B one_card_state
    = inr ((O, 1%nat),
           with_slides one_card_state
             (<[O := mk_slide (shapes (default (mk_slide []) (slides one_card_state !! O))
                               ++ [sh])]> (slides one_card_state))) /\
    bounds sh = Some (731520, 2011680, 9144000, 1371600) /\
    txBody sh
    = Some (mk_text_frame true
              [mk_paragraph "Fahrersoftware" (Some 1219200) (Some AVEMO_WHITE) (Some true)
                 (Some "Arial Black") (Some LEFT)]).
Proof.
  refine (font_name_override one_card_state O (Inches 0.8) (Inches 2.2) (Inches 10)
            (Inches 1.5) "Fahrersoftware" (Pt 96) AVEMO_WHITE true "Arial" LEFT
            "Arial Black" (default (mk_slide []) (slides one_card_state !! O)) _ _ _ _ _).
  - vm_compute. reflexivity.
  - vm_compute. split; discriminate.
  - reflexivity.
  - reflexivity.
  - reflexivity.
Defined.

(** The canvas constants (lines 22-24): the comment calls them 16:9, but
    [Inches(13.333)] is cut to 12191695 EMU, 305 short of the 12192000 that
    16:9 of the height would be. *)
Theorem canvas_is_not_quite_16_9 :
  SLIDE_WIDTH = 12191695 /\ SLIDE_HEIGHT = 6858000 /\
  SLIDE_WIDTH * 9 <> SLIDE_HEIGHT * 16 /\
  (SLIDE_WIDTH + 305) * 9 = SLIDE_HEIGHT * 16.
Proof. repeat split; vm_compute; congruence. Qed.
